(** * OmniVision OV64A40 sensor driver: control logic

    A shallow embedding of [drivers/media/i2c/ov64a40.c] and the properties
    its specification states about it.

    The driver is a C translation unit.  Integers are modelled as [Z] with
    the C conversions written out ([u32], [s32], [u64]); the device
    structure [struct ov64a40] is a record that is threaded through every
    driver function by a small state monad; an out-of-bounds array read,
    which C leaves undefined, makes the computation return [None].

    Two things the driver uses live outside the translation unit:

    - the header [ov64a40_regs.h] (register addresses, bit masks, limits
      and the register tables), taken as the parameters of the class
      [ov64a40_regs_h];
    - the kernel services it calls (CCI register access, runtime PM, the
      V4L2 control framework), each modelled by a definition whose comment
      starts with "Modelled from the spec:". *)

From Stdlib Require Import ZArith List Bool Lia.
Import ListNotations.
Local Open Scope Z_scope.

(** ** C integer conversions *)

Definition u32 (z : Z) : Z := z mod 2 ^ 32.
Definition s32 (z : Z) : Z := (z + 2 ^ 31) mod 2 ^ 32 - 2 ^ 31.
Definition u64 (z : Z) : Z := z mod 2 ^ 64.

(** [DIV_ROUND_UP(n, d)] of linux/math.h: [((n) + (d) - 1) / (d)]; C
    division truncates.  [DIV_ROUND_UP] is the macro on [int] operands,
    [DIV_ROUND_UP_uint] the macro when [n] is an [unsigned int]: the
    other operand is converted and the sum wraps at 32 bits. *)
Definition DIV_ROUND_UP (n d : Z) : Z := Z.quot (n + d - 1) d.
Definition DIV_ROUND_UP_uint (n d : Z) : Z :=
  Z.quot (u32 (u32 n + u32 d - 1)) (u32 d).

(** [a[i]] on a C array: defined inside the bounds only. *)
Definition array_get {A : Type} (a : list A) (i : Z) : option A :=
  if i <? 0 then None else nth_error a (Z.to_nat i).

(** Error numbers (the driver returns them negated). *)
Definition EIO : Z := 5.
Definition EACCES : Z := 13.
Definition EBUSY : Z := 16.
Definition EINVAL : Z := 22.
Definition ERANGE : Z := 34.

(** ** Data model *)

Inductive ov64a40_link_freq_ids : Type :=
| OV64A40_LINK_FREQ_456M_ID
| OV64A40_LINK_FREQ_360M_ID.

(** [struct cci_reg_sequence]: one entry of a register table. *)
Record cci_reg_sequence : Type := { seq_reg : Z; seq_val : Z }.

Record ov64a40_reglist : Type := {
  num_regs : Z;
  regvals : list cci_reg_sequence
}.

Record ov64a40_subsampling : Type := {
  x_odd_inc : Z;
  x_even_inc : Z;
  y_odd_inc : Z;
  y_even_inc : Z;
  vbin : bool;
  hbin : bool
}.

Record ov64a40_timings : Type := { vts : Z; ppl : Z }.

(** [struct v4l2_rect]: [left] and [top] are signed, [width] and [height]
    unsigned 32-bit integers. *)
Record v4l2_rect : Type := {
  left : Z;
  top : Z;
  rect_width : Z;
  rect_height : Z
}.

Record ov64a40_mode : Type := {
  width : Z;
  height : Z;
  timings_default : ov64a40_link_freq_ids -> ov64a40_timings;
  reglist : ov64a40_reglist;
  analogue_crop : v4l2_rect;
  digital_crop : v4l2_rect;
  subsampling : ov64a40_subsampling
}.

(** The contents of [ov64a40_regs.h], which the driver includes but which
    is not part of the translation unit.  Every field is a parameter of
    the development; the numeric macros are read as constants of type
    [int].  [BITS_PER_LONG] is the width of [unsigned long] of the kernel
    build. *)
Class ov64a40_regs_h : Type := {
  OV64A40_XCLK_FREQ : Z;
  OV64A40_PIXEL_RATE : Z;
  OV64A40_LINK_FREQ_360M : Z;
  OV64A40_LINK_FREQ_456M : Z;
  OV64A40_EXPOSURE_MIN : Z;
  OV64A40_EXPOSURE_MARGIN : Z;
  OV64A40_VTS_MAX : Z;
  OV64A40_VBLANK_MIN : Z;
  OV64A40_REG_TIMING_CTRL0 : Z;
  OV64A40_REG_TIMING_CTRL2 : Z;
  OV64A40_REG_TIMING_CTRL4 : Z;
  OV64A40_REG_TIMING_CTRL6 : Z;
  OV64A40_REG_TIMING_CTRL8 : Z;
  OV64A40_REG_TIMING_CTRLA : Z;
  OV64A40_REG_TIMING_CTRLC : Z;
  OV64A40_REG_TIMING_CTRLE : Z;
  OV64A40_REG_TIMING_CTRL10 : Z;
  OV64A40_REG_TIMING_CTRL12 : Z;
  OV64A40_REG_TIMING_CTRL14 : Z;
  OV64A40_REG_TIMING_CTRL15 : Z;
  OV64A40_SKIPPING_CONFIG : Z -> Z -> Z;
  OV64A40_REG_TIMING_CTRL_20 : Z;
  OV64A40_TIMING_CTRL_20_VFLIP : Z;
  OV64A40_TIMING_CTRL_20_VBIN : Z;
  OV64A40_REG_TIMING_CTRL_21 : Z;
  OV64A40_TIMING_CTRL_21_HFLIP : Z;
  OV64A40_TIMING_CTRL_21_HBIN_CONF : Z;
  OV64A40_REG_SMIA : Z;
  OV64A40_REG_SMIA_STREAMING : Z;
  OV64A40_REG_MEC_LONG_EXPO : Z;
  OV64A40_REG_MEC_LONG_GAIN : Z;
  OV64A40_REG_TIMINGS_VTS_LOW : Z;
  OV64A40_REG_TIMINGS_VTS_MID : Z;
  OV64A40_REG_TIMINGS_VTS_HIGH : Z;
  OV64A40_REG_TEST_PATTERN : Z;
  OV64A40_TEST_PATTERN_DISABLED : Z;
  OV64A40_TEST_PATTERN_TYPE1 : Z;
  OV64A40_TEST_PATTERN_TYPE2 : Z;
  OV64A40_TEST_PATTERN_TYPE3 : Z;
  OV64A40_TEST_PATTERN_TYPE4 : Z;
  OV64A40_PLL1_MULTIPLIER : Z;
  ov64a40_init : list cci_reg_sequence;
  ov64a40_pll_config : list cci_reg_sequence;
  ov64a40_9248x6944 : list cci_reg_sequence;
  ov64a40_8000x6000 : list cci_reg_sequence;
  ov64a40_4624_3472 : list cci_reg_sequence;
  ov64a40_3840x2160 : list cci_reg_sequence;
  ov64a40_2312_1736 : list cci_reg_sequence;
  ov64a40_1920x1080 : list cci_reg_sequence;
  BITS_PER_LONG : Z
}.

(** [ARRAY_SIZE(table)] *)
Definition ARRAY_SIZE {A : Type} (a : list A) : Z := Z.of_nat (length a).

(** The controls the driver registers, by V4L2 control id. *)
Inductive v4l2_ctrl_id : Type :=
| V4L2_CID_PIXEL_RATE
| V4L2_CID_LINK_FREQ
| V4L2_CID_TEST_PATTERN
| V4L2_CID_EXPOSURE
| V4L2_CID_HBLANK
| V4L2_CID_VBLANK
| V4L2_CID_ANALOGUE_GAIN
| V4L2_CID_HFLIP
| V4L2_CID_VFLIP.

Definition v4l2_ctrl_id_eqb (a b : v4l2_ctrl_id) : bool :=
  match a, b with
  | V4L2_CID_PIXEL_RATE, V4L2_CID_PIXEL_RATE
  | V4L2_CID_LINK_FREQ, V4L2_CID_LINK_FREQ
  | V4L2_CID_TEST_PATTERN, V4L2_CID_TEST_PATTERN
  | V4L2_CID_EXPOSURE, V4L2_CID_EXPOSURE
  | V4L2_CID_HBLANK, V4L2_CID_HBLANK
  | V4L2_CID_VBLANK, V4L2_CID_VBLANK
  | V4L2_CID_ANALOGUE_GAIN, V4L2_CID_ANALOGUE_GAIN
  | V4L2_CID_HFLIP, V4L2_CID_HFLIP
  | V4L2_CID_VFLIP, V4L2_CID_VFLIP => true
  | _, _ => false
  end.

(** [struct v4l2_ctrl], the fields the driver reads or the framework
    changes on its behalf.  [cur_val] is [ctrl->cur.val]; the value being
    applied, [ctrl->val], is the argument of the [s_ctrl] callback. *)
Record v4l2_ctrl : Type := {
  cur_val : Z;
  minimum : Z;
  maximum : Z;
  step : Z;
  default_value : Z;
  flags : Z
}.

(** Control flags of the V4L2 user API. *)
Definition V4L2_CTRL_FLAG_GRABBED : Z := 2.
Definition V4L2_CTRL_FLAG_READ_ONLY : Z := 4.
Definition V4L2_CTRL_FLAG_MODIFY_LAYOUT : Z := 1024.

(** What the driver did to the outside world, oldest first: register
    writes and read-modify-writes handed to the CCI bus, and sleeps. *)
Inductive event : Type :=
| EvWrite (reg val : Z)
| EvUpdateBits (reg mask val : Z)
| EvSleep (usecs : Z).

(** [struct ov64a40] together with the collaborators it points to.

    - [ctrl_handler] holds every control; [exposure], [link_freq], ... of
      the C structure are pointers into it (see the accessors below).
    - [regs] is the register file behind the CCI regmap; [bus_fault n] is
      the result of the bus transaction that is the [n]-th event of [log]
      (0 for success, a negative error number otherwise).
    - [clk_fault] and [regulator_fault] are the error numbers the clock
      and the regulator framework answer the next enable request with
      (0 for none); the request returns the negated number.
    - [usage_count] and [rpm_active] are the runtime-PM usage counter and
      status of the device. *)
Record ov64a40 : Type := {
  mode : ov64a40_mode;
  link_frequencies : list Z;
  ctrl_handler : v4l2_ctrl_id -> v4l2_ctrl;
  regs : Z -> Z;
  bus_fault : nat -> Z;
  clk_fault : N;
  regulator_fault : N;
  xclk_enabled : bool;
  supplies_enabled : bool;
  reset_gpio : Z;
  usage_count : Z;
  rpm_active : bool;
  log : list event
}.

Definition exposure (d : ov64a40) : v4l2_ctrl := ctrl_handler d V4L2_CID_EXPOSURE.
Definition link_freq (d : ov64a40) : v4l2_ctrl := ctrl_handler d V4L2_CID_LINK_FREQ.
Definition vblank (d : ov64a40) : v4l2_ctrl := ctrl_handler d V4L2_CID_VBLANK.
Definition hblank (d : ov64a40) : v4l2_ctrl := ctrl_handler d V4L2_CID_HBLANK.
Definition vflip (d : ov64a40) : v4l2_ctrl := ctrl_handler d V4L2_CID_VFLIP.
Definition hflip (d : ov64a40) : v4l2_ctrl := ctrl_handler d V4L2_CID_HFLIP.

(** Field updates. *)
Definition with_bus (d : ov64a40) (r : Z -> Z) (l : list event) : ov64a40 :=
  {| mode := mode d; link_frequencies := link_frequencies d;
     ctrl_handler := ctrl_handler d; regs := r; bus_fault := bus_fault d;
     clk_fault := clk_fault d; regulator_fault := regulator_fault d;
     xclk_enabled := xclk_enabled d; supplies_enabled := supplies_enabled d;
     reset_gpio := reset_gpio d; usage_count := usage_count d;
     rpm_active := rpm_active d; log := l |}.

Definition with_ctrl (d : ov64a40) (id : v4l2_ctrl_id) (c : v4l2_ctrl) : ov64a40 :=
  {| mode := mode d; link_frequencies := link_frequencies d;
     ctrl_handler := fun i => if v4l2_ctrl_id_eqb i id then c else ctrl_handler d i;
     regs := regs d; bus_fault := bus_fault d;
     clk_fault := clk_fault d; regulator_fault := regulator_fault d;
     xclk_enabled := xclk_enabled d; supplies_enabled := supplies_enabled d;
     reset_gpio := reset_gpio d; usage_count := usage_count d;
     rpm_active := rpm_active d; log := log d |}.

Definition with_pm (d : ov64a40) (n : Z) (active : bool) : ov64a40 :=
  {| mode := mode d; link_frequencies := link_frequencies d;
     ctrl_handler := ctrl_handler d; regs := regs d; bus_fault := bus_fault d;
     clk_fault := clk_fault d; regulator_fault := regulator_fault d;
     xclk_enabled := xclk_enabled d; supplies_enabled := supplies_enabled d;
     reset_gpio := reset_gpio d; usage_count := n;
     rpm_active := active; log := log d |}.

Definition with_power (d : ov64a40) (clk sup : bool) (gpio : Z) : ov64a40 :=
  {| mode := mode d; link_frequencies := link_frequencies d;
     ctrl_handler := ctrl_handler d; regs := regs d; bus_fault := bus_fault d;
     clk_fault := clk_fault d; regulator_fault := regulator_fault d;
     xclk_enabled := clk; supplies_enabled := sup;
     reset_gpio := gpio; usage_count := usage_count d;
     rpm_active := rpm_active d; log := log d |}.

(** ** The monad of driver code

    A driver function takes the device, and returns a value and the
    device as it left it; [None] stands for a C execution that is not
    defined (an array read outside its bounds). *)
Definition M (A : Type) : Type := ov64a40 -> option (A * ov64a40).

Definition ret {A : Type} (a : A) : M A := fun d => Some (a, d).

Definition bind {A B : Type} (m : M A) (k : A -> M B) : M B :=
  fun d => match m d with
           | Some (a, d') => k a d'
           | None => None
           end.

Definition get : M ov64a40 := fun d => Some (d, d).
Definition modify (f : ov64a40 -> ov64a40) : M unit := fun d => Some (tt, f d).
Definition undefined {A : Type} : M A := fun _ => None.

Definition of_option {A : Type} (o : option A) : M A :=
  match o with
  | Some a => ret a
  | None => undefined
  end.

Declare Scope drv_scope.
Delimit Scope drv_scope with drv.
Notation "x <- m ;; k" := (bind m (fun x => k))
  (at level 61, m at next level, right associativity) : drv_scope.
Notation "m ;;; k" := (bind m (fun _ => k))
  (at level 61, right associativity) : drv_scope.

Local Open Scope drv_scope.

Section Driver.

Context `{hdr : ov64a40_regs_h}.

(** ** Mode catalogue ([ov64a40_modes]) *)

Definition mk_reglist (table : list cci_reg_sequence) : ov64a40_reglist :=
  {| num_regs := ARRAY_SIZE table; regvals := table |}.

Definition mk_timings (fast reduced : ov64a40_timings)
  : ov64a40_link_freq_ids -> ov64a40_timings :=
  fun id => match id with
            | OV64A40_LINK_FREQ_456M_ID => fast
            | OV64A40_LINK_FREQ_360M_ID => reduced
            end.

(** Full resolution *)
Definition mode_9248x6944 : ov64a40_mode :=
  {| width := 9248; height := 6944;
     timings_default := mk_timings {| vts := 7072; ppl := 4072 |}
                                   {| vts := 7072; ppl := 5248 |};
     reglist := mk_reglist ov64a40_9248x6944;
     analogue_crop := {| left := 0; top := 0; rect_width := 9280; rect_height := 6976 |};
     digital_crop := {| left := 17; top := 16; rect_width := 9248; rect_height := 6944 |};
     subsampling := {| x_odd_inc := 1; x_even_inc := 1; y_odd_inc := 1; y_even_inc := 1;
                       vbin := false; hbin := false |} |}.

(** Analogue crop + digital crop *)
Definition mode_8000x6000 : ov64a40_mode :=
  {| width := 8000; height := 6000;
     timings_default := mk_timings {| vts := 6400; ppl := 3848 |}
                                   {| vts := 6304; ppl := 4736 |};
     reglist := mk_reglist ov64a40_8000x6000;
     analogue_crop := {| left := 624; top := 472; rect_width := 8048; rect_height := 6032 |};
     digital_crop := {| left := 17; top := 16; rect_width := 8000; rect_height := 6000 |};
     subsampling := {| x_odd_inc := 1; x_even_inc := 1; y_odd_inc := 1; y_even_inc := 1;
                       vbin := false; hbin := false |} |}.

(** 2x2 downscaled *)
Definition mode_4624x3472 : ov64a40_mode :=
  {| width := 4624; height := 3472;
     timings_default := mk_timings {| vts := 3533; ppl := 2112 |}
                                   {| vts := 3939; ppl := 2720 |};
     reglist := mk_reglist ov64a40_4624_3472;
     analogue_crop := {| left := 0; top := 0; rect_width := 9280; rect_height := 6976 |};
     digital_crop := {| left := 9; top := 8; rect_width := 4624; rect_height := 3472 |};
     subsampling := {| x_odd_inc := 3; x_even_inc := 1; y_odd_inc := 1; y_even_inc := 1;
                       vbin := true; hbin := false |} |}.

(** Analogue crop + 2x2 downscale + digital crop *)
Definition mode_3840x2160 : ov64a40_mode :=
  {| width := 3840; height := 2160;
     timings_default := mk_timings {| vts := 2218; ppl := 1690 |}
                                   {| vts := 2270; ppl := 2202 |};
     reglist := mk_reglist ov64a40_3840x2160;
     analogue_crop := {| left := 784; top := 1312; rect_width := 7712; rect_height := 4352 |};
     digital_crop := {| left := 9; top := 8; rect_width := 3840; rect_height := 2160 |};
     subsampling := {| x_odd_inc := 3; x_even_inc := 1; y_odd_inc := 1; y_even_inc := 1;
                       vbin := true; hbin := false |} |}.

(** 4x4 downscaled *)
Definition mode_2312x1736 : ov64a40_mode :=
  {| width := 2312; height := 1736;
     timings_default := mk_timings {| vts := 1998; ppl := 1248 |}
                                   {| vts := 1994; ppl := 1504 |};
     reglist := mk_reglist ov64a40_2312_1736;
     analogue_crop := {| left := 0; top := 0; rect_width := 9280; rect_height := 6976 |};
     digital_crop := {| left := 5; top := 4; rect_width := 2312; rect_height := 1736 |};
     subsampling := {| x_odd_inc := 3; x_even_inc := 1; y_odd_inc := 3; y_even_inc := 1;
                       vbin := true; hbin := true |} |}.

(** Analogue crop + 4x4 downscale + digital crop *)
Definition mode_1920x1080 : ov64a40_mode :=
  {| width := 1920; height := 1080;
     timings_default := mk_timings {| vts := 1397; ppl := 880 |}
                                   {| vts := 1216; ppl := 1360 |};
     reglist := mk_reglist ov64a40_1920x1080;
     analogue_crop := {| left := 784; top := 1312; rect_width := 7712; rect_height := 4352 |};
     digital_crop := {| left := 7; top := 6; rect_width := 1920; rect_height := 1080 |};
     subsampling := {| x_odd_inc := 3; x_even_inc := 1; y_odd_inc := 3; y_even_inc := 1;
                       vbin := true; hbin := true |} |}.

Definition ov64a40_modes : list ov64a40_mode :=
  [ mode_9248x6944; mode_8000x6000; mode_4624x3472;
    mode_3840x2160; mode_2312x1736; mode_1920x1080 ].

Definition ov64a40_test_pattern_val : list Z :=
  [ OV64A40_TEST_PATTERN_DISABLED; OV64A40_TEST_PATTERN_TYPE1;
    OV64A40_TEST_PATTERN_TYPE2; OV64A40_TEST_PATTERN_TYPE3;
    OV64A40_TEST_PATTERN_TYPE4 ].

(** ** Kernel services *)

(** Modelled from the spec: [fsleep] blocks the caller for the given
    number of microseconds ("block for that duration"). *)
Definition fsleep (usecs : Z) : M unit :=
  modify (fun d => with_bus d (regs d) (log d ++ [EvSleep usecs])).

(** Modelled from the spec: [cci_write] is the transport primitive
    [write_register(address, value) -> Result] with the error accumulator
    of the CCI helpers ("short-circuiting accumulation of the first
    error").  [err] is the value of [*err] on entry, 0 where the driver
    passes [NULL] or a fresh [ret = 0]; the result is the value returned,
    which is also the value left in [*err].  Once an error is recorded
    nothing is sent to the bus.  [val] is a 64-bit unsigned parameter. *)
Definition cci_write (reg val : Z) (err : Z) : M Z :=
  fun d =>
    if err =? 0 then
      let r := bus_fault d (length (log d)) in
      let l := log d ++ [EvWrite reg (u64 val)] in
      if r =? 0
      then Some (0, with_bus d (fun a => if a =? reg then u64 val else regs d a) l)
      else Some (r, with_bus d (regs d) l)
    else Some (err, d).

(** Modelled from the spec: [cci_update_bits] is the "read-modify-write"
    of a bit field: the bits of [mask] take the value they have in [val],
    the others keep theirs.  Error accumulation as in [cci_write]. *)
Definition cci_update_bits (reg mask val : Z) (err : Z) : M Z :=
  fun d =>
    if err =? 0 then
      let r := bus_fault d (length (log d)) in
      let l := log d ++ [EvUpdateBits reg (u64 mask) (u64 val)] in
      let new := Z.lor (Z.ldiff (regs d reg) (u64 mask)) (Z.land (u64 val) (u64 mask)) in
      if r =? 0
      then Some (0, with_bus d (fun a => if a =? reg then new else regs d a) l)
      else Some (r, with_bus d (regs d) l)
    else Some (err, d).

(** Modelled from the spec: the loop of [cci_multi_reg_write] over the
    entries of the table. *)
Fixpoint cci_multi_reg_write_loop (table : list cci_reg_sequence) (err : Z) : M Z :=
  match table with
  | [] => ret 0
  | r :: rest =>
      e <- cci_write (seq_reg r) (seq_val r) err ;;
      if e =? 0 then cci_multi_reg_write_loop rest err else ret e
  end.

(** Modelled from the spec: [cci_multi_reg_write] emits a register
    program, an "explicit ordered list", entry by entry and stops at the
    first failure, whose error it returns. *)
Definition cci_multi_reg_write (table : list cci_reg_sequence) (n : Z) (err : Z) : M Z :=
  cci_multi_reg_write_loop (firstn (Z.to_nat n) table) err.

(** Modelled from the spec: the clock is an external collaborator
    ("power sequencing"); enabling it returns what the collaborator
    answers. *)
Definition clk_prepare_enable : M Z :=
  fun d => if (clk_fault d =? 0)%N
           then Some (0, with_power d true (supplies_enabled d) (reset_gpio d))
           else Some (- Z.of_N (clk_fault d), d).

(** Modelled from the spec: switching the clock off cannot fail. *)
Definition clk_disable_unprepare : M unit :=
  modify (fun d => with_power d false (supplies_enabled d) (reset_gpio d)).

(** Modelled from the spec: the supplies are an external collaborator;
    enabling them returns what the collaborator answers. *)
Definition regulator_bulk_enable : M Z :=
  fun d => if (regulator_fault d =? 0)%N
           then Some (0, with_power d (xclk_enabled d) true (reset_gpio d))
           else Some (- Z.of_N (regulator_fault d), d).

(** Modelled from the spec: switching the supplies off cannot fail. *)
Definition regulator_bulk_disable : M unit :=
  modify (fun d => with_power d (xclk_enabled d) false (reset_gpio d)).

(** Modelled from the spec: the reset line takes the value driven. *)
Definition gpiod_set_value_cansleep (v : Z) : M unit :=
  modify (fun d => with_power d (xclk_enabled d) (supplies_enabled d) v).

(** ** Power callbacks of the driver *)

Definition ov64a40_power_on : M Z :=
  r <- clk_prepare_enable ;;
  if negb (r =? 0) then ret r else
  r <- regulator_bulk_enable ;;
  if negb (r =? 0) then
    clk_disable_unprepare ;;;
    ret r
  else
    gpiod_set_value_cansleep 0 ;;;
    fsleep 5000 ;;;
    ret 0.

Definition ov64a40_power_off : M Z :=
  gpiod_set_value_cansleep 1 ;;;
  regulator_bulk_disable ;;;
  clk_disable_unprepare ;;;
  ret 0.

(** ** Runtime PM *)

(** Modelled from the spec: [pm_runtime_resume_and_get] is "request
    power-on from the external power collaborator": it takes a usage
    reference and, when the device is not powered, runs the driver's
    resume callback; when that fails the reference is dropped again and
    the error returned. *)
Definition pm_runtime_resume_and_get : M Z :=
  d <- get ;;
  modify (fun d => with_pm d (usage_count d + 1) (rpm_active d)) ;;;
  if rpm_active d then ret 0 else
  r <- ov64a40_power_on ;;
  if r =? 0 then
    modify (fun d => with_pm d (usage_count d) true) ;;;
    ret 0
  else
    modify (fun d => with_pm d (usage_count d - 1) (rpm_active d)) ;;;
    ret r.

(** Modelled from the spec: [pm_runtime_get_if_active] takes a usage
    reference only when "the device is currently powered", and tells
    whether it did (1) or not (0). *)
Definition pm_runtime_get_if_active : M Z :=
  d <- get ;;
  if rpm_active d then
    modify (fun d => with_pm d (usage_count d + 1) (rpm_active d)) ;;;
    ret 1
  else ret 0.

(** Modelled from the spec: [pm_runtime_mark_last_busy] restarts the idle
    timeout, which the model does not keep. *)
Definition pm_runtime_mark_last_busy : M unit := ret tt.

(** Modelled from the spec: [pm_runtime_put_autosuspend] releases a usage
    reference ("reference-counted by usage"); the device stays powered
    until the idle timeout expires. *)
Definition pm_runtime_put_autosuspend : M unit :=
  modify (fun d => with_pm d (usage_count d - 1) (rpm_active d)).

(** Modelled from the spec: "an idle timeout may power it down
    autonomously" once nobody holds a reference. *)
Definition rpm_autosuspend_expired : M unit :=
  d <- get ;;
  if rpm_active d && (usage_count d =? 0) then
    ov64a40_power_off ;;;
    modify (fun d => with_pm d (usage_count d) false)
  else ret tt.

(** ** V4L2 control framework *)

(** [ctrl->flags & flag] *)
Definition ctrl_flag_set (c : v4l2_ctrl) (flag : Z) : bool :=
  negb (Z.land (flags c) flag =? 0).

(** [v] brought into [lo .. hi]. *)
Definition clamp (lo hi v : Z) : Z := Z.max lo (Z.min v hi).

(** Modelled from the spec: [__v4l2_ctrl_modify_range] installs the new
    minimum, maximum, step and default of a control and clamps its
    current value into the new range ("recompute exposure.max ...,
    clamping current exposure down if it now exceeds the new max";
    "recompute horizontal_blank to the new fixed value"). *)
Definition __v4l2_ctrl_modify_range (id : v4l2_ctrl_id) (min max stp def : Z) : M Z :=
  d <- get ;;
  let c := ctrl_handler d id in
  modify (fun d => with_ctrl d id
    {| cur_val := clamp min max (cur_val c); minimum := min; maximum := max;
       step := stp; default_value := def; flags := flags c |}) ;;;
  ret 0.

(** Modelled from the spec: [__v4l2_ctrl_grab] flips the "per-control
    boolean gate" of a grabbed control, the GRABBED bit of its flags. *)
Definition __v4l2_ctrl_grab (id : v4l2_ctrl_id) (grabbed : bool) : M unit :=
  d <- get ;;
  let c := ctrl_handler d id in
  modify (fun d => with_ctrl d id
    {| cur_val := cur_val c; minimum := minimum c; maximum := maximum c;
       step := step c; default_value := default_value c;
       flags := if grabbed then Z.lor (flags c) V4L2_CTRL_FLAG_GRABBED
                else Z.ldiff (flags c) V4L2_CTRL_FLAG_GRABBED |}).

(** ** The driver *)

Definition ov64a40_get_timings (link_freq_index : Z) : M ov64a40_timings :=
  d <- get ;;
  link_freq <- of_option (array_get (link_frequencies d) (u32 link_freq_index)) ;;
  let timings_index := if link_freq =? OV64A40_LINK_FREQ_360M
                       then OV64A40_LINK_FREQ_360M_ID
                       else OV64A40_LINK_FREQ_456M_ID in
  ret (timings_default (mode d) timings_index).

Definition ov64a40_program_geometry : M Z :=
  d <- get ;;
  let anacrop := analogue_crop (mode d) in
  let digicrop := digital_crop (mode d) in
  let r := 0 in
  (* Analogue crop. *)
  r <- cci_write OV64A40_REG_TIMING_CTRL0 (left anacrop) r ;;
  r <- cci_write OV64A40_REG_TIMING_CTRL2 (top anacrop) r ;;
  r <- cci_write OV64A40_REG_TIMING_CTRL4
         (u32 (rect_width anacrop + left anacrop - 1)) r ;;
  r <- cci_write OV64A40_REG_TIMING_CTRL6
         (u32 (rect_height anacrop + top anacrop - 1)) r ;;
  (* ISP windowing. *)
  r <- cci_write OV64A40_REG_TIMING_CTRL10 (left digicrop) r ;;
  r <- cci_write OV64A40_REG_TIMING_CTRL12 (top digicrop) r ;;
  r <- cci_write OV64A40_REG_TIMING_CTRL8 (rect_width digicrop) r ;;
  r <- cci_write OV64A40_REG_TIMING_CTRLA (rect_height digicrop) r ;;
  (* Total timings. *)
  timings <- ov64a40_get_timings (cur_val (link_freq d)) ;;
  r <- cci_write OV64A40_REG_TIMING_CTRLC (ppl timings) r ;;
  r <- cci_write OV64A40_REG_TIMING_CTRLE (vts timings) r ;;
  ret r.

Definition ov64a40_program_subsampling : M Z :=
  d <- get ;;
  let subsampling := subsampling (mode d) in
  let r := 0 in
  (* Skipping configuration *)
  r <- cci_write OV64A40_REG_TIMING_CTRL14
         (OV64A40_SKIPPING_CONFIG (x_odd_inc subsampling) (x_even_inc subsampling)) r ;;
  r <- cci_write OV64A40_REG_TIMING_CTRL15
         (OV64A40_SKIPPING_CONFIG (y_odd_inc subsampling) (y_even_inc subsampling)) r ;;
  (* Binning configuration *)
  r <- cci_update_bits OV64A40_REG_TIMING_CTRL_20 OV64A40_TIMING_CTRL_20_VBIN
         (if vbin subsampling then OV64A40_TIMING_CTRL_20_VBIN else 0) r ;;
  r <- cci_update_bits OV64A40_REG_TIMING_CTRL_21 OV64A40_TIMING_CTRL_21_HBIN_CONF
         (if hbin subsampling then OV64A40_TIMING_CTRL_21_HBIN_CONF else 0) r ;;
  ret r.

Definition ov64a40_link_freq_config (link_freq_id : Z) : M Z :=
  d <- get ;;
  (* Default 456MHz with 24MHz input clock. *)
  r <- cci_multi_reg_write ov64a40_pll_config (ARRAY_SIZE ov64a40_pll_config) 0 ;;
  (* Decrease the PLL1 multiplier to obtain 360MHz mipi link frequency. *)
  link_frequency <- of_option (array_get (link_frequencies d) link_freq_id) ;;
  if link_frequency =? OV64A40_LINK_FREQ_360M
  then cci_write OV64A40_PLL1_MULTIPLIER 0x0078 r
  else ret r.

(** [ov64a40_set_ctrl(ctrl)], the [s_ctrl] callback, with [id] for
    [ctrl->id] and [val] for [ctrl->val]. *)
Definition ov64a40_set_ctrl (id : v4l2_ctrl_id) (val : Z) : M Z :=
  d <- get ;;
  match id with
  | V4L2_CID_VBLANK =>
      let exp_max := s32 (height (mode d) + val - OV64A40_EXPOSURE_MARGIN) in
      let exp_val := Z.min (cur_val (exposure d)) exp_max in
      __v4l2_ctrl_modify_range V4L2_CID_EXPOSURE
        (minimum (exposure d)) exp_max 1 exp_val
  | _ => ret 0
  end ;;;
  pm_status <- pm_runtime_get_if_active ;;
  if pm_status =? 0 then ret 0 else
  r <- match id with
       | V4L2_CID_EXPOSURE =>
           cci_write OV64A40_REG_MEC_LONG_EXPO val 0
       | V4L2_CID_ANALOGUE_GAIN =>
           cci_write OV64A40_REG_MEC_LONG_GAIN (s32 (Z.shiftl val 1)) 0
       | V4L2_CID_VBLANK =>
           let vts := s32 (val + height (mode d)) in
           r <- cci_write OV64A40_REG_TIMINGS_VTS_LOW vts 0 ;;
           r <- cci_write OV64A40_REG_TIMINGS_VTS_MID (Z.shiftr vts 8) r ;;
           cci_write OV64A40_REG_TIMINGS_VTS_HIGH (Z.shiftr vts 16) r
       | V4L2_CID_VFLIP =>
           cci_update_bits OV64A40_REG_TIMING_CTRL_20 OV64A40_TIMING_CTRL_20_VFLIP
             (s32 (Z.shiftl val 2)) 0
       | V4L2_CID_HFLIP =>
           cci_update_bits OV64A40_REG_TIMING_CTRL_21 OV64A40_TIMING_CTRL_21_HFLIP
             (if negb (val =? 0) then 0 else OV64A40_TIMING_CTRL_21_HFLIP) 0
       | V4L2_CID_TEST_PATTERN =>
           pattern <- of_option (array_get ov64a40_test_pattern_val val) ;;
           cci_write OV64A40_REG_TEST_PATTERN pattern 0
       | V4L2_CID_LINK_FREQ =>
           ov64a40_link_freq_config val
       | _ =>
           (* dev_err: Unhandled control *)
           ret (- EINVAL)
       end ;;
  (if 0 <? pm_status then
     pm_runtime_mark_last_busy ;;;
     pm_runtime_put_autosuspend
   else ret tt) ;;;
  ret r.

(** The controls of the handler in the order [ov64a40_init_controls]
    creates them. *)
Definition handler_ctrls : list v4l2_ctrl_id :=
  [ V4L2_CID_PIXEL_RATE; V4L2_CID_LINK_FREQ; V4L2_CID_TEST_PATTERN;
    V4L2_CID_EXPOSURE; V4L2_CID_HBLANK; V4L2_CID_VBLANK;
    V4L2_CID_ANALOGUE_GAIN; V4L2_CID_HFLIP; V4L2_CID_VFLIP ].

(** Modelled from the spec: the loop of [__v4l2_ctrl_handler_setup]
    over the controls of the handler. *)
Fixpoint handler_setup_loop (ids : list v4l2_ctrl_id) : M Z :=
  match ids with
  | [] => ret 0
  | id :: rest =>
      d <- get ;;
      if ctrl_flag_set (ctrl_handler d id) V4L2_CTRL_FLAG_READ_ONLY
      then handler_setup_loop rest
      else
        r <- ov64a40_set_ctrl id (cur_val (ctrl_handler d id)) ;;
        if negb (r =? 0) then ret r else handler_setup_loop rest
  end.

(** Modelled from the spec: [__v4l2_ctrl_handler_setup] is the "handler
    setup replay of all current control values": it hands every control
    that can be written (the read-only ones have no register write) to
    the [s_ctrl] callback with its current value, and stops at the first
    error. *)
Definition __v4l2_ctrl_handler_setup : M Z := handler_setup_loop handler_ctrls.

(** Modelled from the spec: the write entry point of the control
    framework, [set_control(id, value) -> Result<(), ControlError>].  A
    grabbed control is busy, a read-only one cannot be written, a value
    outside the range is refused ("rejected synchronously, device state
    unchanged"); otherwise the driver applies the value and, when it
    reports success, the value becomes the current one. *)
Definition v4l2_ctrl_s_ctrl (id : v4l2_ctrl_id) (val : Z) : M Z :=
  d <- get ;;
  let c := ctrl_handler d id in
  if ctrl_flag_set c V4L2_CTRL_FLAG_GRABBED then ret (- EBUSY) else
  if ctrl_flag_set c V4L2_CTRL_FLAG_READ_ONLY then ret (- EACCES) else
  if (val <? minimum c) || (maximum c <? val) then ret (- ERANGE) else
  r <- ov64a40_set_ctrl id val ;;
  if negb (r =? 0) then ret r else
  d <- get ;;
  let c := ctrl_handler d id in
  modify (fun d => with_ctrl d id
    {| cur_val := val; minimum := minimum c; maximum := maximum c;
       step := step c; default_value := default_value c; flags := flags c |}) ;;;
  ret 0.

Definition ulong (z : Z) : Z := z mod 2 ^ BITS_PER_LONG.

(** The settle delay computed by [ov64a40_start_streaming]:
    max(4096 xclk pulses, 150usec) + exposure time.  The product
    [timings->ppl * 4 * exposure->cur.val] has type [unsigned int]. *)
Definition stream_start_delay (timings : ov64a40_timings) (exposure_cur : Z) : Z :=
  let delay := ulong (DIV_ROUND_UP 4096 (Z.quot (Z.quot OV64A40_XCLK_FREQ 1000) 1000)) in
  let delay := Z.max delay 150 in
  (* The sensor has an internal x4 multiplier on the line length. *)
  ulong (delay +
         DIV_ROUND_UP_uint (u32 (u32 (ppl timings * 4) * u32 exposure_cur))
                           (Z.quot (Z.quot OV64A40_PIXEL_RATE 1000) 1000)).

Definition ov64a40_start_streaming : M Z :=
  d <- get ;;
  let reglist := reglist (mode d) in
  r <- pm_runtime_resume_and_get ;;
  if r <? 0 then ret r else
  let error_power_off (r : Z) : M Z :=
    pm_runtime_mark_last_busy ;;;
    pm_runtime_put_autosuspend ;;;
    ret r in
  r <- cci_multi_reg_write ov64a40_init (ARRAY_SIZE ov64a40_init) 0 ;;
  if negb (r =? 0) then error_power_off r else
  r <- cci_multi_reg_write (regvals reglist) (num_regs reglist) 0 ;;
  if negb (r =? 0) then error_power_off r else
  r <- ov64a40_program_geometry ;;
  if negb (r =? 0) then error_power_off r else
  r <- ov64a40_program_subsampling ;;
  if negb (r =? 0) then error_power_off r else
  r <- __v4l2_ctrl_handler_setup ;;
  if negb (r =? 0) then error_power_off r else
  r <- cci_write OV64A40_REG_SMIA OV64A40_REG_SMIA_STREAMING 0 ;;
  if negb (r =? 0) then error_power_off r else
  (* Link frequency and flips cannot change while streaming. *)
  __v4l2_ctrl_grab V4L2_CID_LINK_FREQ true ;;;
  __v4l2_ctrl_grab V4L2_CID_VFLIP true ;;;
  __v4l2_ctrl_grab V4L2_CID_HFLIP true ;;;
  (* delay: max(4096 xclk pulses, 150usec) + exposure time *)
  d <- get ;;
  timings <- ov64a40_get_timings (cur_val (link_freq d)) ;;
  fsleep (stream_start_delay timings (cur_val (exposure d))) ;;;
  ret 0.

Definition ov64a40_stop_streaming : M Z :=
  cci_update_bits OV64A40_REG_SMIA 1 0 0 ;;;
  pm_runtime_mark_last_busy ;;;
  pm_runtime_put_autosuspend ;;;
  __v4l2_ctrl_grab V4L2_CID_LINK_FREQ false ;;;
  __v4l2_ctrl_grab V4L2_CID_VFLIP false ;;;
  __v4l2_ctrl_grab V4L2_CID_HFLIP false ;;;
  ret 0.

Definition ov64a40_set_stream (enable : Z) : M Z :=
  if negb (enable =? 0)
  then ov64a40_start_streaming
  else ov64a40_stop_streaming.

End Driver.

(** ** A header instance and devices to run the driver on

    The properties below hold for every header.  To run the driver on
    concrete devices the header is instantiated here with representative
    values: a 24 MHz clock, a 300 MHz pixel rate, a 24-bit frame length
    (the driver writes it to three 8-bit registers), single-bit flip
    masks, and register tables cut to a few entries. *)

Definition regs_h_sample : ov64a40_regs_h := {|
  OV64A40_XCLK_FREQ := 24000000;
  OV64A40_PIXEL_RATE := 300000000;
  OV64A40_LINK_FREQ_360M := 360000000;
  OV64A40_LINK_FREQ_456M := 456000000;
  OV64A40_EXPOSURE_MIN := 16;
  OV64A40_EXPOSURE_MARGIN := 32;
  OV64A40_VTS_MAX := 0xffffff;
  OV64A40_VBLANK_MIN := 128;
  OV64A40_REG_TIMING_CTRL0 := 0x3800;
  OV64A40_REG_TIMING_CTRL2 := 0x3802;
  OV64A40_REG_TIMING_CTRL4 := 0x3804;
  OV64A40_REG_TIMING_CTRL6 := 0x3806;
  OV64A40_REG_TIMING_CTRL8 := 0x3808;
  OV64A40_REG_TIMING_CTRLA := 0x380a;
  OV64A40_REG_TIMING_CTRLC := 0x380c;
  OV64A40_REG_TIMING_CTRLE := 0x380e;
  OV64A40_REG_TIMING_CTRL10 := 0x3810;
  OV64A40_REG_TIMING_CTRL12 := 0x3812;
  OV64A40_REG_TIMING_CTRL14 := 0x3814;
  OV64A40_REG_TIMING_CTRL15 := 0x3815;
  OV64A40_SKIPPING_CONFIG := fun odd even => Z.lor (Z.shiftl odd 4) even;
  OV64A40_REG_TIMING_CTRL_20 := 0x3820;
  OV64A40_TIMING_CTRL_20_VFLIP := 4;
  OV64A40_TIMING_CTRL_20_VBIN := 2;
  OV64A40_REG_TIMING_CTRL_21 := 0x3821;
  OV64A40_TIMING_CTRL_21_HFLIP := 4;
  OV64A40_TIMING_CTRL_21_HBIN_CONF := 16;
  OV64A40_REG_SMIA := 0x0100;
  OV64A40_REG_SMIA_STREAMING := 1;
  OV64A40_REG_MEC_LONG_EXPO := 0x3500;
  OV64A40_REG_MEC_LONG_GAIN := 0x3508;
  OV64A40_REG_TIMINGS_VTS_LOW := 0x4028;
  OV64A40_REG_TIMINGS_VTS_MID := 0x4029;
  OV64A40_REG_TIMINGS_VTS_HIGH := 0x402a;
  OV64A40_REG_TEST_PATTERN := 0x50c1;
  OV64A40_TEST_PATTERN_DISABLED := 0x00;
  OV64A40_TEST_PATTERN_TYPE1 := 0x01;
  OV64A40_TEST_PATTERN_TYPE2 := 0x11;
  OV64A40_TEST_PATTERN_TYPE3 := 0x21;
  OV64A40_TEST_PATTERN_TYPE4 := 0x31;
  OV64A40_PLL1_MULTIPLIER := 0x0305;
  ov64a40_init := [ {| seq_reg := 0x0103; seq_val := 0x01 |};
                    {| seq_reg := 0x0301; seq_val := 0x88 |} ];
  ov64a40_pll_config := [ {| seq_reg := 0x0304; seq_val := 0x00 |};
                          {| seq_reg := 0x0305; seq_val := 0x98 |} ];
  ov64a40_9248x6944 := [ {| seq_reg := 0x3501; seq_val := 0x1b |} ];
  ov64a40_8000x6000 := [ {| seq_reg := 0x3501; seq_val := 0x18 |} ];
  ov64a40_4624_3472 := [ {| seq_reg := 0x3501; seq_val := 0x0d |} ];
  ov64a40_3840x2160 := [ {| seq_reg := 0x3501; seq_val := 0x08 |} ];
  ov64a40_2312_1736 := [ {| seq_reg := 0x3501; seq_val := 0x07 |} ];
  ov64a40_1920x1080 := [ {| seq_reg := 0x3501; seq_val := 0x05 |} ];
  BITS_PER_LONG := 64
|}.

Section Samples.

#[local] Existing Instance regs_h_sample.

Definition mk_ctrl (min max stp def fl : Z) : v4l2_ctrl :=
  {| cur_val := def; minimum := min; maximum := max; step := stp;
     default_value := def; flags := fl |}.

(** The controls as [ov64a40_init_controls] registers them for mode [m]
    with the timings [t]. *)
Definition sample_ctrls (m : ov64a40_mode) (t : ov64a40_timings) (nfreq : Z)
  : v4l2_ctrl_id -> v4l2_ctrl :=
  fun id =>
    match id with
    | V4L2_CID_PIXEL_RATE =>
        mk_ctrl OV64A40_PIXEL_RATE OV64A40_PIXEL_RATE 1 OV64A40_PIXEL_RATE
                V4L2_CTRL_FLAG_READ_ONLY
    | V4L2_CID_LINK_FREQ => mk_ctrl 0 (nfreq - 1) 1 0 0
    | V4L2_CID_TEST_PATTERN => mk_ctrl 0 4 1 0 0
    | V4L2_CID_EXPOSURE =>
        mk_ctrl OV64A40_EXPOSURE_MIN (vts t - OV64A40_EXPOSURE_MARGIN) 1
                OV64A40_EXPOSURE_MIN 0
    | V4L2_CID_HBLANK =>
        mk_ctrl (ppl t * 4 - width m) (ppl t * 4 - width m) 1
                (ppl t * 4 - width m) V4L2_CTRL_FLAG_READ_ONLY
    | V4L2_CID_VBLANK =>
        mk_ctrl OV64A40_VBLANK_MIN (OV64A40_VTS_MAX - height m) 1
                (vts t - height m) 0
    | V4L2_CID_ANALOGUE_GAIN => mk_ctrl 0x80 0x7ff 1 0x80 0
    | V4L2_CID_HFLIP => mk_ctrl 0 1 1 0 V4L2_CTRL_FLAG_MODIFY_LAYOUT
    | V4L2_CID_VFLIP => mk_ctrl 0 1 1 0 V4L2_CTRL_FLAG_MODIFY_LAYOUT
    end.

(** A freshly probed device: full-resolution mode, runtime-suspended, all
    collaborators healthy; [freqs] is the negotiated frequency list. *)
Definition sample_device (freqs : list Z) (fault : nat -> Z) : ov64a40 :=
  {| mode := mode_9248x6944;
     link_frequencies := freqs;
     ctrl_handler :=
       sample_ctrls mode_9248x6944
         (timings_default mode_9248x6944
            (match freqs with
             | f :: _ => if f =? OV64A40_LINK_FREQ_360M
                         then OV64A40_LINK_FREQ_360M_ID
                         else OV64A40_LINK_FREQ_456M_ID
             | [] => OV64A40_LINK_FREQ_456M_ID
             end))
         (Z.of_nat (length freqs));
     regs := fun _ => 0;
     bus_fault := fault;
     clk_fault := 0;
     regulator_fault := 0;
     xclk_enabled := false;
     supplies_enabled := false;
     reset_gpio := 1;
     usage_count := 0;
     rpm_active := false;
     log := [] |}.

Definition no_fault : nat -> Z := fun _ => 0.
Definition fault_at (n : nat) (e : Z) : nat -> Z :=
  fun k => if Nat.eqb k n then e else 0.

Definition sample_idle : ov64a40 := sample_device [456000000; 360000000] no_fault.

(** The device [m] leaves when run on [d]. *)
Definition run_on {A : Type} (m : M A) (d : ov64a40) : ov64a40 :=
  match m d with
  | Some (_, d') => d'
  | None => d
  end.

(** Powered up, nobody holding a reference, idle timeout not yet over. *)
Definition sample_powered : ov64a40 :=
  run_on (pm_runtime_resume_and_get ;;; pm_runtime_put_autosuspend) sample_idle.

(** Only the 360 MHz link negotiated; the user asked for a long frame
    (vertical blanking 243088) and a long exposure (250000 lines) while
    the device was idle. *)
Definition sample_long_exposure : ov64a40 :=
  run_on (v4l2_ctrl_s_ctrl V4L2_CID_VBLANK 243088 ;;;
          v4l2_ctrl_s_ctrl V4L2_CID_EXPOSURE 250000)
         (sample_device [360000000] no_fault).

(** Streaming, on a bus that will fail the next transaction (the 31st
    event of the log) with -EIO. *)
Definition sample_streaming_bus_down : ov64a40 :=
  run_on ov64a40_start_streaming
         (sample_device [456000000; 360000000] (fault_at 30 (- EIO))).

(** The bus fails the mode program of stream start (the 4th event) with
    -EIO. *)
Definition sample_mode_program_fails : ov64a40 :=
  sample_device [456000000; 360000000] (fault_at 3 (- EIO)).

End Samples.

(** ** Vocabulary of the properties *)

Section Vocabulary.

Context `{hdr : ov64a40_regs_h}.

(** [wp m Q d]: run on device [d], the driver code [m] is defined,
    returns, and its result and final device satisfy [Q]. *)
Definition wp {A : Type} (m : M A) (Q : A -> ov64a40 -> Prop) (d : ov64a40) : Prop :=
  match m d with
  | Some (a, d') => Q a d'
  | None => False
  end.

(** The bus accepts every transaction. *)
Definition healthy (d : ov64a40) : Prop := forall n, bus_fault d n = 0.

(** What no step between taking and releasing the power reference
    changes: the mode, the negotiated frequencies, the behaviour of the
    bus, the flags of every control, every control but the exposure, the
    usage counter and the power status; the log only grows. *)
Record frame (d d' : ov64a40) : Prop := {
  fr_mode : mode d' = mode d;
  fr_freqs : link_frequencies d' = link_frequencies d;
  fr_fault : bus_fault d' = bus_fault d;
  fr_flags : forall i, flags (ctrl_handler d' i) = flags (ctrl_handler d i);
  fr_ctrls : forall i, i <> V4L2_CID_EXPOSURE -> ctrl_handler d' i = ctrl_handler d i;
  fr_count : usage_count d' = usage_count d;
  fr_active : rpm_active d' = rpm_active d;
  fr_log : exists l, log d' = log d ++ l
}.

(** Every bus transaction logged after [d] and up to [d'] succeeded. *)
Definition clean (d d' : ov64a40) : Prop :=
  forall k, (length (log d) <= k)%nat ->
    match nth_error (log d') k with
    | Some (EvSleep _) | None => True
    | Some _ => bus_fault d k = 0
    end.

(** A step entered with the accumulated error [err] and leaving [r]:
    when it leaves no error there was none before, all it sent to the bus
    went through, and it sent exactly [evs]. *)
Definition emits (d : ov64a40) (err : Z) (evs : list event) (r : Z) (d' : ov64a40) : Prop :=
  frame d d' /\ (r = 0 -> err = 0 /\ clean d d' /\ log d' = log d ++ evs).

(** The same, for a step that only talks to the bus: it cannot fail on a
    healthy bus and leaves every control alone. *)
Definition runs (d : ov64a40) (err : Z) (evs : list event) (r : Z) (d' : ov64a40) : Prop :=
  emits d err evs r d' /\ (healthy d -> err = 0 -> r = 0) /\
  ctrl_handler d' = ctrl_handler d.

(** The controls that [ov64a40_set_ctrl] has a register for. *)
Definition has_register (id : v4l2_ctrl_id) : bool :=
  match id with
  | V4L2_CID_PIXEL_RATE | V4L2_CID_HBLANK => false
  | _ => true
  end.

(** The exposure control after a write of [val] to the vertical
    blanking, as the first lines of [ov64a40_set_ctrl] leave it. *)
Definition vblank_exposure (d : ov64a40) (val : Z) : v4l2_ctrl :=
  let exp_max := s32 (height (mode d) + val - OV64A40_EXPOSURE_MARGIN) in
  {| cur_val := clamp (minimum (exposure d)) exp_max (cur_val (exposure d));
     minimum := minimum (exposure d);
     maximum := exp_max;
     step := 1;
     default_value := Z.min (cur_val (exposure d)) exp_max;
     flags := flags (exposure d) |}.

(** The device after those lines. *)
Definition range_updated (d : ov64a40) (id : v4l2_ctrl_id) (val : Z) : ov64a40 :=
  match id with
  | V4L2_CID_VBLANK => with_ctrl d V4L2_CID_EXPOSURE (vblank_exposure d val)
  | _ => d
  end.

Definition index_ok {A : Type} (a : list A) (i : Z) : bool :=
  (0 <=? i) && (i <? Z.of_nat (length a)) && (i <? 2 ^ 32).

(** The value [val] can be handed to [ov64a40_set_ctrl] for control [id]:
    the two controls that index an array stay inside it. *)
Definition ctrl_arg_ok (d : ov64a40) (id : v4l2_ctrl_id) (val : Z) : bool :=
  match id with
  | V4L2_CID_LINK_FREQ => index_ok (link_frequencies d) val
  | V4L2_CID_TEST_PATTERN => index_ok ov64a40_test_pattern_val val
  | _ => true
  end.

(** The current values of the menu controls are valid indices. *)
Definition ctrl_indices_ok (d : ov64a40) : bool :=
  index_ok (link_frequencies d) (cur_val (link_freq d)) &&
  index_ok ov64a40_test_pattern_val (cur_val (ctrl_handler d V4L2_CID_TEST_PATTERN)).

(** The ranges of the menu controls keep their values valid indices. *)
Definition ctrl_ranges_ok (d : ov64a40) : bool :=
  (0 <=? minimum (link_freq d)) &&
  (maximum (link_freq d) <? Z.of_nat (length (link_frequencies d))) &&
  (maximum (link_freq d) <? 2 ^ 32) &&
  (0 <=? minimum (ctrl_handler d V4L2_CID_TEST_PATTERN)) &&
  (maximum (ctrl_handler d V4L2_CID_TEST_PATTERN) <? 5).

(** The controls that have no register are read-only. *)
Definition handler_ok (d : ov64a40) : bool :=
  ctrl_flag_set (ctrl_handler d V4L2_CID_PIXEL_RATE) V4L2_CTRL_FLAG_READ_ONLY &&
  ctrl_flag_set (ctrl_handler d V4L2_CID_HBLANK) V4L2_CTRL_FLAG_READ_ONLY.

(** Power can be had: the device is powered, or the clock and the
    regulators will come up. *)
Definition power_ok (d : ov64a40) : bool :=
  rpm_active d || ((clk_fault d =? 0)%N && (regulator_fault d =? 0)%N).

Definition grabbed (d : ov64a40) (id : v4l2_ctrl_id) : bool :=
  ctrl_flag_set (ctrl_handler d id) V4L2_CTRL_FLAG_GRABBED.

(** The three controls that stream start grabs. *)
Definition latched (id : v4l2_ctrl_id) : bool :=
  match id with
  | V4L2_CID_LINK_FREQ | V4L2_CID_VFLIP | V4L2_CID_HFLIP => true
  | _ => false
  end.

(** The timing variant that belongs to a frequency value. *)
Definition timings_for (m : ov64a40_mode) (freq : Z) : ov64a40_timings :=
  timings_default m (if freq =? OV64A40_LINK_FREQ_360M
                     then OV64A40_LINK_FREQ_360M_ID
                     else OV64A40_LINK_FREQ_456M_ID).

(** The writes of a register program. *)
Definition table_events (t : list cci_reg_sequence) : list event :=
  map (fun r => EvWrite (seq_reg r) (u64 (seq_val r))) t.

(** The geometry program of the specification: analogue-crop left, top,
    right, bottom; digital-crop left, top, width, height; line length;
    frame lines. *)
Definition geometry_events (m : ov64a40_mode) (t : ov64a40_timings) : list event :=
  let a := analogue_crop m in
  let g := digital_crop m in
  [ EvWrite OV64A40_REG_TIMING_CTRL0 (u64 (left a));
    EvWrite OV64A40_REG_TIMING_CTRL2 (u64 (top a));
    EvWrite OV64A40_REG_TIMING_CTRL4 (u64 (u32 (rect_width a + left a - 1)));
    EvWrite OV64A40_REG_TIMING_CTRL6 (u64 (u32 (rect_height a + top a - 1)));
    EvWrite OV64A40_REG_TIMING_CTRL10 (u64 (left g));
    EvWrite OV64A40_REG_TIMING_CTRL12 (u64 (top g));
    EvWrite OV64A40_REG_TIMING_CTRL8 (u64 (rect_width g));
    EvWrite OV64A40_REG_TIMING_CTRLA (u64 (rect_height g));
    EvWrite OV64A40_REG_TIMING_CTRLC (u64 (ppl t));
    EvWrite OV64A40_REG_TIMING_CTRLE (u64 (vts t)) ].

(** The subsampling program of the specification: the two skip
    registers, then the two binning bit fields. *)
Definition subsampling_events (m : ov64a40_mode) : list event :=
  let s := subsampling m in
  [ EvWrite OV64A40_REG_TIMING_CTRL14
      (u64 (OV64A40_SKIPPING_CONFIG (x_odd_inc s) (x_even_inc s)));
    EvWrite OV64A40_REG_TIMING_CTRL15
      (u64 (OV64A40_SKIPPING_CONFIG (y_odd_inc s) (y_even_inc s)));
    EvUpdateBits OV64A40_REG_TIMING_CTRL_20 (u64 OV64A40_TIMING_CTRL_20_VBIN)
      (u64 (if vbin s then OV64A40_TIMING_CTRL_20_VBIN else 0));
    EvUpdateBits OV64A40_REG_TIMING_CTRL_21 (u64 OV64A40_TIMING_CTRL_21_HBIN_CONF)
      (u64 (if hbin s then OV64A40_TIMING_CTRL_21_HBIN_CONF else 0)) ].

(** The PLL program of a link frequency: the default table, then the
    multiplier override for the reduced frequency only. *)
Definition link_freq_events (freq : Z) : list event :=
  table_events ov64a40_pll_config ++
  (if freq =? OV64A40_LINK_FREQ_360M
   then [EvWrite OV64A40_PLL1_MULTIPLIER (u64 0x0078)]
   else []).

(** The register writes that value [val] of control [id] maps to. *)
Definition ctrl_events (d : ov64a40) (id : v4l2_ctrl_id) (val : Z) : list event :=
  match id with
  | V4L2_CID_EXPOSURE => [EvWrite OV64A40_REG_MEC_LONG_EXPO (u64 val)]
  | V4L2_CID_ANALOGUE_GAIN =>
      [EvWrite OV64A40_REG_MEC_LONG_GAIN (u64 (s32 (Z.shiftl val 1)))]
  | V4L2_CID_VBLANK =>
      let vts := s32 (val + height (mode d)) in
      [ EvWrite OV64A40_REG_TIMINGS_VTS_LOW (u64 vts);
        EvWrite OV64A40_REG_TIMINGS_VTS_MID (u64 (Z.shiftr vts 8));
        EvWrite OV64A40_REG_TIMINGS_VTS_HIGH (u64 (Z.shiftr vts 16)) ]
  | V4L2_CID_VFLIP =>
      [EvUpdateBits OV64A40_REG_TIMING_CTRL_20 (u64 OV64A40_TIMING_CTRL_20_VFLIP)
         (u64 (s32 (Z.shiftl val 2)))]
  | V4L2_CID_HFLIP =>
      [EvUpdateBits OV64A40_REG_TIMING_CTRL_21 (u64 OV64A40_TIMING_CTRL_21_HFLIP)
         (u64 (if val =? 0 then OV64A40_TIMING_CTRL_21_HFLIP else 0))]
  | V4L2_CID_TEST_PATTERN =>
      match array_get ov64a40_test_pattern_val val with
      | Some pattern => [EvWrite OV64A40_REG_TEST_PATTERN (u64 pattern)]
      | None => []
      end
  | V4L2_CID_LINK_FREQ =>
      match array_get (link_frequencies d) val with
      | Some freq => link_freq_events freq
      | None => []
      end
  | V4L2_CID_PIXEL_RATE | V4L2_CID_HBLANK => []
  end.

(** The replay of the control values of [d]: the writes of every
    writable control with its current value, in handler order. *)
Definition replay_list (d : ov64a40) (ids : list v4l2_ctrl_id) : list event :=
  flat_map (fun id =>
              if ctrl_flag_set (ctrl_handler d id) V4L2_CTRL_FLAG_READ_ONLY
              then []
              else ctrl_events d id (cur_val (ctrl_handler d id)))
           ids.

Definition replay_events (d : ov64a40) : list event := replay_list d handler_ctrls.

(** In a replay order the exposure does not come after the vertical
    blanking, whose write changes it. *)
Fixpoint replay_order_ok (ids : list v4l2_ctrl_id) : bool :=
  match ids with
  | [] => true
  | id :: rest =>
      (if v4l2_ctrl_id_eqb id V4L2_CID_VBLANK
       then negb (existsb (v4l2_ctrl_id_eqb V4L2_CID_EXPOSURE) rest)
       else true) && replay_order_ok rest
  end.

(** What a successful stream start sends to the bus on device [d] with
    negotiated frequency [f]: the global initialisation, the program of
    the mode, the geometry, the subsampling, the replay of the controls
    and the streaming bit (steps 2 to 7). *)
Definition stream_start_events (d : ov64a40) (f : Z) : list event :=
  table_events ov64a40_init ++
  table_events (firstn (Z.to_nat (num_regs (reglist (mode d))))
                       (regvals (reglist (mode d)))) ++
  geometry_events (mode d) (timings_for (mode d) f) ++
  subsampling_events (mode d) ++
  replay_events d ++
  [EvWrite OV64A40_REG_SMIA (u64 OV64A40_REG_SMIA_STREAMING)].

(** The device [d'] streams, having been started from [d]. *)
Definition stream_started (d d' : ov64a40) : Prop :=
  clean d d' /\
  usage_count d' = usage_count d + 1 /\
  rpm_active d' = true /\
  mode d' = mode d /\
  link_frequencies d' = link_frequencies d /\
  bus_fault d' = bus_fault d /\
  (forall i, latched i = true -> grabbed d' i = true) /\
  (forall i, latched i = false -> flags (ctrl_handler d' i) = flags (ctrl_handler d i)) /\
  (forall i, i <> V4L2_CID_EXPOSURE ->
     cur_val (ctrl_handler d' i) = cur_val (ctrl_handler d i) /\
     minimum (ctrl_handler d' i) = minimum (ctrl_handler d i) /\
     maximum (ctrl_handler d' i) = maximum (ctrl_handler d i)) /\
  exists f,
    array_get (link_frequencies d) (cur_val (link_freq d)) = Some f /\
    log d' = log d ++ (if rpm_active d then [] else [EvSleep 5000]) ++
             stream_start_events d f ++
             [EvSleep (stream_start_delay (timings_for (mode d) f)
                                          (cur_val (exposure d')))].

(** The start from [d] failed and left [d']: the power reference is
    released and no control flag has changed. *)
Definition stream_start_failed (d d' : ov64a40) : Prop :=
  usage_count d' = usage_count d /\
  forall i, flags (ctrl_handler d' i) = flags (ctrl_handler d i).

Definition start_post (d : ov64a40) (r : Z) (d' : ov64a40) : Prop :=
  (r = 0 -> stream_started d d') /\
  (r <> 0 -> stream_start_failed d d') /\
  (healthy d -> power_ok d = true -> handler_ok d = true -> r = 0).

(** The verdict of the gate of the write entry point: 0 lets the write
    through to the driver. *)
Definition ctrl_gate (d : ov64a40) (id : v4l2_ctrl_id) (val : Z) : Z :=
  let c := ctrl_handler d id in
  if ctrl_flag_set c V4L2_CTRL_FLAG_GRABBED then - EBUSY
  else if ctrl_flag_set c V4L2_CTRL_FLAG_READ_ONLY then - EACCES
  else if (val <? minimum c) || (maximum c <? val) then - ERANGE
  else 0.

(** Control [c] with [val] as its current value. *)
Definition stored (c : v4l2_ctrl) (val : Z) : v4l2_ctrl :=
  {| cur_val := val; minimum := minimum c; maximum := maximum c;
     step := step c; default_value := default_value c; flags := flags c |}.

(** A series of control writes through the framework entry point, the
    results ignored. *)
Fixpoint control_writes (ws : list (v4l2_ctrl_id * Z)) : M unit :=
  match ws with
  | [] => ret tt
  | (id, val) :: rest => v4l2_ctrl_s_ctrl id val ;;; control_writes rest
  end.

(** The reading "a failure of the register clear is reported to the
    caller" of stream stop, on device [d]. *)
Definition stop_reports_clear_failure (d : ov64a40) : Prop :=
  bus_fault d (length (log d)) <> 0 ->
  exists r d', ov64a40_stop_streaming d = Some (r, d') /\ r <> 0.

(** The settle delay of the specification, in microseconds, over the
    integers: max(ceil(4096 / xclk_mhz), 150) +
    ceil(4 * line_length * exposure_lines / pixel_rate_mhz). *)
Definition ceil_div (n d : Z) : Z := (n + d - 1) / d.

Definition spec_settle_delay (line_length exposure_lines : Z) : Z :=
  Z.max (ceil_div 4096 (OV64A40_XCLK_FREQ / 1000000)) 150 +
  ceil_div (4 * line_length * exposure_lines) (OV64A40_PIXEL_RATE / 1000000).

End Vocabulary.

(** ** The rest of the driver

    The functions of [ov64a40.c] beside the streaming and control paths:
    device-tree parsing, the media-bus code, the pad operations and the
    stream switch. *)

(** More error numbers. *)
Definition ENOMEM : Z := 12.

(** Media-bus codes of the four 10-bit Bayer orders
    (linux/media-bus-format.h). *)
Definition MEDIA_BUS_FMT_SBGGR10_1X10 : Z := 0x3007.
Definition MEDIA_BUS_FMT_SGRBG10_1X10 : Z := 0x300a.
Definition MEDIA_BUS_FMT_SGBRG10_1X10 : Z := 0x300e.
Definition MEDIA_BUS_FMT_SRGGB10_1X10 : Z := 0x300f.

(** Values of the V4L2 user API (linux/videodev2.h,
    linux/v4l2-subdev.h, linux/v4l2-common.h). *)
Definition V4L2_FIELD_NONE : Z := 1.
Definition V4L2_COLORSPACE_RAW : Z := 11.
Definition V4L2_QUANTIZATION_FULL_RANGE : Z := 1.
Definition V4L2_XFER_FUNC_NONE : Z := 5.
Definition V4L2_YCBCR_ENC_601 : Z := 1.
Definition V4L2_SUBDEV_FORMAT_TRY : Z := 0.
Definition V4L2_SUBDEV_FORMAT_ACTIVE : Z := 1.
Definition V4L2_SEL_TGT_CROP : Z := 0.
Definition V4L2_SEL_TGT_CROP_DEFAULT : Z := 1.
Definition V4L2_SEL_TGT_CROP_BOUNDS : Z := 2.
Definition V4L2_SEL_TGT_NATIVE_SIZE : Z := 3.

Definition ov64a40_mbus_codes : list Z :=
  [ MEDIA_BUS_FMT_SBGGR10_1X10; MEDIA_BUS_FMT_SGRBG10_1X10;
    MEDIA_BUS_FMT_SGBRG10_1X10; MEDIA_BUS_FMT_SRGGB10_1X10 ].

(** [struct v4l2_mbus_framefmt] *)
Record v4l2_mbus_framefmt : Type := {
  fmt_width : Z;
  fmt_height : Z;
  fmt_code : Z;
  fmt_field : Z;
  fmt_colorspace : Z;
  fmt_ycbcr_enc : Z;
  fmt_quantization : Z;
  fmt_xfer_func : Z;
  fmt_flags : Z
}.

(** [struct v4l2_subdev_state], for the single pad of the sensor: what
    [v4l2_subdev_get_pad_format(sd, state, 0)] and
    [v4l2_subdev_get_pad_crop(sd, state, 0)] point to. *)
Record v4l2_subdev_state : Type := {
  pad_format : v4l2_mbus_framefmt;
  pad_crop : v4l2_rect
}.

(** [struct v4l2_subdev_format] *)
Record v4l2_subdev_format : Type := {
  which : Z;
  format : v4l2_mbus_framefmt
}.

(** [struct v4l2_subdev_mbus_code_enum] *)
Record v4l2_subdev_mbus_code_enum : Type := {
  mce_index : Z;
  mce_code : Z
}.

(** [struct v4l2_subdev_frame_size_enum] *)
Record v4l2_subdev_frame_size_enum : Type := {
  fse_index : Z;
  fse_code : Z;
  min_width : Z;
  max_width : Z;
  min_height : Z;
  max_height : Z
}.

(** [struct v4l2_subdev_selection] *)
Record v4l2_subdev_selection : Type := {
  target : Z;
  sel_r : v4l2_rect
}.

(** [ov64a40->hflip->val] and [ov64a40->vflip->val]: the value fields of
    the two flip controls, which the pad operations read (they are not
    the [cur.val] the record [v4l2_ctrl] above holds). *)
Record flip_vals : Type := {
  hflip_val : Z;
  vflip_val : Z
}.

(** What the firmware node of the device holds and how the helpers that
    read it answer: whether an endpoint is there, the result of parsing
    it, the parsed bus description, and whether the allocation of the
    frequency array succeeds. *)
Record fwnode_endpoint : Type := {
  endpoint_found : bool;
  endpoint_parse_ret : Z;
  num_data_lanes : Z;
  fw_link_frequencies : list Z;
  kcalloc_ok : bool
}.

(** The rest of [ov64a40_regs.h]: the pixel array and the native size. *)
Class ov64a40_regs_h_pad : Type := {
  OV64A40_NATIVE_WIDTH : Z;
  OV64A40_NATIVE_HEIGHT : Z;
  OV64A40_PIXEL_ARRAY_TOP : Z;
  OV64A40_PIXEL_ARRAY_LEFT : Z;
  OV64A40_PIXEL_ARRAY_WIDTH : Z;
  OV64A40_PIXEL_ARRAY_HEIGHT : Z
}.

Definition with_mode (d : ov64a40) (m : ov64a40_mode) : ov64a40 :=
  {| mode := m; link_frequencies := link_frequencies d;
     ctrl_handler := ctrl_handler d; regs := regs d; bus_fault := bus_fault d;
     clk_fault := clk_fault d; regulator_fault := regulator_fault d;
     xclk_enabled := xclk_enabled d; supplies_enabled := supplies_enabled d;
     reset_gpio := reset_gpio d; usage_count := usage_count d;
     rpm_active := rpm_active d; log := log d |}.

Definition with_link_frequencies (d : ov64a40) (l : list Z) : ov64a40 :=
  {| mode := mode d; link_frequencies := l;
     ctrl_handler := ctrl_handler d; regs := regs d; bus_fault := bus_fault d;
     clk_fault := clk_fault d; regulator_fault := regulator_fault d;
     xclk_enabled := xclk_enabled d; supplies_enabled := supplies_enabled d;
     reset_gpio := reset_gpio d; usage_count := usage_count d;
     rpm_active := rpm_active d; log := log d |}.

(** [a[i] = v] on a C array: defined inside the bounds only. *)
Definition array_set {A : Type} (a : list A) (i : nat) (v : A) : option (list A) :=
  if (i <? length a)%nat then Some (firstn i a ++ v :: skipn (S i) a) else None.

Section DriverRest.

Context `{hdr : ov64a40_regs_h} `{pad : ov64a40_regs_h_pad}.

(** *** Device tree *)

(** The loop of [ov64a40_parse_dt] over the frequencies of the endpoint,
    from index [i] on. *)
Fixpoint parse_dt_loop (i : nat) (freqs : list Z) : M Z :=
  match freqs with
  | [] => ret 0
  | f :: rest =>
      if negb (f =? OV64A40_LINK_FREQ_360M) && negb (f =? OV64A40_LINK_FREQ_456M)
      then
        (* dev_err: Unsupported link frequency *)
        ret (- EINVAL)
      else
        d <- get ;;
        a <- of_option (array_set (link_frequencies d) i f) ;;
        modify (fun d => with_link_frequencies d a) ;;;
        parse_dt_loop (S i) rest
  end.

(** [ov64a40_parse_dt]; the array [devm_kcalloc] returns is zeroed, and
    [num_link_frequencies] is the length of [link_frequencies]. *)
Definition ov64a40_parse_dt (fw : fwnode_endpoint) : M Z :=
  if negb (endpoint_found fw) then ret (- EINVAL) else
  let r := endpoint_parse_ret fw in
  if negb (r =? 0) then ret r else
  if negb (num_data_lanes fw =? 2) then ret (- EINVAL) else
  let nr_of_link_frequencies := length (fw_link_frequencies fw) in
  if (nr_of_link_frequencies =? 0)%nat then ret (- EINVAL) else
  if (2 <? nr_of_link_frequencies)%nat then ret (- EINVAL) else
  if negb (kcalloc_ok fw) then ret (- ENOMEM) else
  modify (fun d => with_link_frequencies d (repeat 0 nr_of_link_frequencies)) ;;;
  parse_dt_loop 0 (fw_link_frequencies fw).

(** *** Media-bus code and pad operations *)

Definition ov64a40_mbus_code (fl : flip_vals) : option Z :=
  let index := u32 (Z.lor (s32 (Z.shiftl (hflip_val fl) 1)) (vflip_val fl)) in
  array_get ov64a40_mbus_codes index.

Definition ov64a40_update_pad_fmt (fl : flip_vals) (mode : ov64a40_mode)
    (fmt : v4l2_mbus_framefmt) : option v4l2_mbus_framefmt :=
  match ov64a40_mbus_code fl with
  | None => None
  | Some code =>
      Some {| fmt_width := width mode;
              fmt_height := height mode;
              fmt_code := code;
              fmt_field := V4L2_FIELD_NONE;
              fmt_colorspace := V4L2_COLORSPACE_RAW;
              fmt_ycbcr_enc := V4L2_YCBCR_ENC_601;
              fmt_quantization := V4L2_QUANTIZATION_FULL_RANGE;
              fmt_xfer_func := V4L2_XFER_FUNC_NONE;
              fmt_flags := fmt_flags fmt |}
  end.

Definition pixel_array : v4l2_rect :=
  {| left := OV64A40_PIXEL_ARRAY_LEFT; top := OV64A40_PIXEL_ARRAY_TOP;
     rect_width := OV64A40_PIXEL_ARRAY_WIDTH;
     rect_height := OV64A40_PIXEL_ARRAY_HEIGHT |}.

Definition ov64a40_init_cfg (fl : flip_vals) (state : v4l2_subdev_state)
  : option (Z * v4l2_subdev_state) :=
  match array_get ov64a40_modes 0 with
  | None => None
  | Some mode0 =>
      match ov64a40_update_pad_fmt fl mode0 (pad_format state) with
      | None => None
      | Some format => Some (0, {| pad_format := format; pad_crop := pixel_array |})
      end
  end.

Definition ov64a40_enum_mbus_code (fl : flip_vals) (code : v4l2_subdev_mbus_code_enum)
  : option (Z * v4l2_subdev_mbus_code_enum) :=
  if negb (mce_index code =? 0) then Some (- EINVAL, code) else
  match ov64a40_mbus_code fl with
  | None => None
  | Some c => Some (0, {| mce_index := mce_index code; mce_code := c |})
  end.

Definition ov64a40_enum_frame_size (fl : flip_vals) (fse : v4l2_subdev_frame_size_enum)
  : option (Z * v4l2_subdev_frame_size_enum) :=
  if ARRAY_SIZE ov64a40_modes <=? fse_index fse then Some (- EINVAL, fse) else
  match ov64a40_mbus_code fl with
  | None => None
  | Some code =>
      if negb (fse_code fse =? code) then Some (- EINVAL, fse) else
      match array_get ov64a40_modes (fse_index fse) with
      | None => None
      | Some mode =>
          Some (0, {| fse_index := fse_index fse; fse_code := fse_code fse;
                      min_width := width mode; max_width := width mode;
                      min_height := height mode; max_height := height mode |})
      end
  end.

(** [ov64a40_get_selection] reads the pad state only. *)
Definition ov64a40_get_selection (state : v4l2_subdev_state) (sel : v4l2_subdev_selection)
  : Z * v4l2_subdev_selection :=
  if target sel =? V4L2_SEL_TGT_CROP then
    (0, {| target := target sel; sel_r := pad_crop state |})
  else if target sel =? V4L2_SEL_TGT_NATIVE_SIZE then
    (0, {| target := target sel;
           sel_r := {| left := 0; top := 0;
                       rect_width := OV64A40_NATIVE_WIDTH;
                       rect_height := OV64A40_NATIVE_HEIGHT |} |})
  else if (target sel =? V4L2_SEL_TGT_CROP_DEFAULT) || (target sel =? V4L2_SEL_TGT_CROP_BOUNDS) then
    (0, {| target := target sel; sel_r := pixel_array |})
  else (- EINVAL, sel).

(** The distance of the size of a mode to a requested size. *)
Definition size_error (m : ov64a40_mode) (w h : Z) : Z :=
  Z.abs (width m - w) + Z.abs (height m - h).

(** Modelled from the spec: the scan of [v4l2_find_nearest_size], which
    keeps the best entry so far ("lowest index on tie"). *)
Fixpoint nearest_from (best : ov64a40_mode) (rest : list ov64a40_mode) (w h : Z)
  : ov64a40_mode :=
  match rest with
  | [] => best
  | m :: rest' =>
      nearest_from (if size_error m w h <? size_error best w h then m else best)
                   rest' w h
  end.

(** Modelled from the spec: [v4l2_find_nearest_size] "selects, from a
    fixed, non-empty ordered list, the catalogue entry whose (width,
    height) is closest to the request": "smallest sum of absolute
    dimension deltas, lowest index on tie".  There is no entry to return
    from an empty list. *)
Definition v4l2_find_nearest_size (modes : list ov64a40_mode) (w h : Z)
  : option ov64a40_mode :=
  match modes with
  | [] => None
  | m :: rest => Some (nearest_from m rest w h)
  end.

(** [a == b] on two pointers into [ov64a40_modes]: the entries of the
    catalogue differ pairwise in their size, so the sizes decide it. *)
Definition same_mode (a b : ov64a40_mode) : bool :=
  (width a =? width b) && (height a =? height b).

(** Modelled from the spec: [__v4l2_ctrl_s_ctrl] is the write entry point
    of the control framework, entered with the handler lock held. *)
Definition __v4l2_ctrl_s_ctrl (id : v4l2_ctrl_id) (val : Z) : M Z :=
  v4l2_ctrl_s_ctrl id val.

Definition ov64a40_set_format (fl : flip_vals) (state : v4l2_subdev_state)
    (fmt : v4l2_subdev_format) : M (Z * v4l2_subdev_state * v4l2_subdev_format) :=
  mode' <- of_option (v4l2_find_nearest_size ov64a40_modes
                        (fmt_width (format fmt)) (fmt_height (format fmt))) ;;
  f <- of_option (ov64a40_update_pad_fmt fl mode' (format fmt)) ;;
  let fmt := {| which := which fmt; format := f |} in
  d <- get ;;
  if same_mode (mode d) mode' && (fmt_code (pad_format state) =? fmt_code f)
  then ret (0, state, fmt) else
  crop <-
    (if which fmt =? V4L2_SUBDEV_FORMAT_ACTIVE then
       modify (fun d => with_mode d mode') ;;;
       (* Update control limits according to the new mode. *)
       d <- get ;;
       timings <- ov64a40_get_timings (cur_val (link_freq d)) ;;
       let vblank_max := s32 (OV64A40_VTS_MAX - height mode') in
       let vblank_def := s32 (vts timings - height mode') in
       __v4l2_ctrl_modify_range V4L2_CID_VBLANK OV64A40_VBLANK_MIN
         vblank_max 1 vblank_def ;;;
       __v4l2_ctrl_s_ctrl V4L2_CID_VBLANK vblank_def ;;;
       let exp_max := s32 (vts timings - OV64A40_EXPOSURE_MARGIN) in
       __v4l2_ctrl_modify_range V4L2_CID_EXPOSURE OV64A40_EXPOSURE_MIN
         exp_max 1 OV64A40_EXPOSURE_MIN ;;;
       let hblank_val := s32 (ppl timings * 4 - width mode') in
       __v4l2_ctrl_modify_range V4L2_CID_HBLANK hblank_val hblank_val 1
         hblank_val ;;;
       ret (analogue_crop mode')
     else ret (pad_crop state)) ;;
  ret (0, {| pad_format := f; pad_crop := crop |}, fmt).

End DriverRest.

(** ** More sample data *)

Definition regs_h_pad_sample : ov64a40_regs_h_pad := {|
  OV64A40_NATIVE_WIDTH := 9286;
  OV64A40_NATIVE_HEIGHT := 6976;
  OV64A40_PIXEL_ARRAY_TOP := 0;
  OV64A40_PIXEL_ARRAY_LEFT := 0;
  OV64A40_PIXEL_ARRAY_WIDTH := 9248;
  OV64A40_PIXEL_ARRAY_HEIGHT := 6944
|}.

Section SamplesRest.

#[local] Existing Instance regs_h_sample.
#[local] Existing Instance regs_h_pad_sample.

(** An endpoint with two data lanes and both link frequencies. *)
Definition sample_endpoint : fwnode_endpoint :=
  {| endpoint_found := true; endpoint_parse_ret := 0; num_data_lanes := 2;
     fw_link_frequencies := [456000000; 360000000]; kcalloc_ok := true |}.

(** A device before [ov64a40_parse_dt] has run: no frequency table. *)
Definition sample_unparsed : ov64a40 := sample_device [] no_fault.

Definition sample_no_flip : flip_vals := {| hflip_val := 0; vflip_val := 0 |}.

Definition sample_fmt (w h : Z) : v4l2_mbus_framefmt :=
  {| fmt_width := w; fmt_height := h; fmt_code := 0; fmt_field := 0;
     fmt_colorspace := 0; fmt_ycbcr_enc := 0; fmt_quantization := 0;
     fmt_xfer_func := 0; fmt_flags := 0 |}.

(** A pad state as [ov64a40_init_cfg] leaves it. *)
Definition sample_state : v4l2_subdev_state :=
  match ov64a40_init_cfg sample_no_flip
          {| pad_format := sample_fmt 0 0;
             pad_crop := {| left := 0; top := 0; rect_width := 0; rect_height := 0 |} |}
  with
  | Some (_, st) => st
  | None => {| pad_format := sample_fmt 0 0;
               pad_crop := {| left := 0; top := 0; rect_width := 0; rect_height := 0 |} |}
  end.

(** A request for the active format at 1920 by 1080, and what
    [ov64a40_set_format] makes of it on the idle device. *)
Definition sample_request : v4l2_subdev_format :=
  {| which := V4L2_SUBDEV_FORMAT_ACTIVE; format := sample_fmt 1920 1080 |}.

Definition sample_negotiated
  : Z * v4l2_subdev_state * v4l2_subdev_format * ov64a40 :=
  match ov64a40_set_format sample_no_flip sample_state sample_request sample_idle with
  | Some res => res
  | None => ((0, sample_state, sample_request), sample_idle)
  end.



(** The regulators refuse to come up. *)
Definition sample_regulator_fault : ov64a40 :=
  {| mode := mode sample_idle; link_frequencies := link_frequencies sample_idle;
     ctrl_handler := ctrl_handler sample_idle; regs := regs sample_idle;
     bus_fault := bus_fault sample_idle; clk_fault := 0; regulator_fault := 5;
     xclk_enabled := false; supplies_enabled := false; reset_gpio := 1;
     usage_count := 0; rpm_active := false; log := [] |}.

End SamplesRest.

(** ** Vocabulary of the firmware description *)

(** A link frequency the driver has a PLL setting for. *)
Definition supported_freq `{hdr : ov64a40_regs_h} (f : Z) : bool :=
  (f =? OV64A40_LINK_FREQ_360M) || (f =? OV64A40_LINK_FREQ_456M).

(** An endpoint [ov64a40_parse_dt] accepts: it is there and parses, has
    two data lanes and one or two link frequencies, all supported, and
    the frequency array can be allocated. *)
Definition endpoint_ok `{hdr : ov64a40_regs_h} (fw : fwnode_endpoint) : bool :=
  endpoint_found fw && (endpoint_parse_ret fw =? 0) &&
  (num_data_lanes fw =? 2) &&
  (1 <=? length (fw_link_frequencies fw))%nat &&
  (length (fw_link_frequencies fw) <=? 2)%nat &&
  kcalloc_ok fw &&
  forallb supported_freq (fw_link_frequencies fw).

(** ** Vocabulary of the pad operations *)

(** The two flips hold a boolean, as the values of a boolean control
    do. *)
Definition flip_ok (fl : flip_vals) : bool :=
  ((hflip_val fl =? 0) || (hflip_val fl =? 1)) &&
  ((vflip_val fl =? 0) || (vflip_val fl =? 1)).

(** ** Vocabulary of the bus programs *)

(** What reaches the bus of a program of transactions started as the
    [n]-th event, and the result: the program is sent up to and including
    the first transaction the bus fails, whose error is the result. *)
Fixpoint transmit (fault : nat -> Z) (n : nat) (evs : list event) : Z * list event :=
  match evs with
  | [] => (0, [])
  | e :: rest =>
      let ok := match e with EvSleep _ => true | _ => fault n =? 0 end in
      if ok then
        let (r, sent) := transmit fault (S n) rest in (r, e :: sent)
      else (fault n, [e])
  end.

(** Transaction [j] of a program started on device [d] goes through. *)
Definition accepted (d : ov64a40) (j : nat) : Prop :=
  bus_fault d (length (log d) + j) = 0.

(** The program [evs] run on [d] returned [r] and left [d']: when the
    bus accepts it all, the result is 0 and all of it is logged; when
    transaction [k] is the first the bus fails, the result is the error
    of that transaction and nothing after it was sent. *)
Definition first_failure (d : ov64a40) (evs : list event) (r : Z) (d' : ov64a40) : Prop :=
  ((forall j, (j < length evs)%nat -> accepted d j) ->
   r = 0 /\ log d' = log d ++ evs) /\
  (forall k, (k < length evs)%nat ->
     (forall j, (j < k)%nat -> accepted d j) ->
     ~ accepted d k ->
     r = bus_fault d (length (log d) + k) /\
     log d' = log d ++ firstn (S k) evs).

(** A program of bus transactions has no sleep in it. *)
Definition bus_only (evs : list event) : bool :=
  forallb (fun e => match e with EvSleep _ => false | _ => true end) evs.

(** A step entered with the accumulated error [err] and leaving [r]:
    with an error pending nothing is sent and the error is passed on;
    otherwise [evs] is transmitted. *)
Definition xmit (d : ov64a40) (err : Z) (evs : list event) (r : Z) (d' : ov64a40) : Prop :=
  frame d d' /\
  (r, log d') =
    (if err =? 0
     then (fst (transmit (bus_fault d) (length (log d)) evs),
           log d ++ snd (transmit (bus_fault d) (length (log d)) evs))
     else (err, log d)).


(** ** Vocabulary of the blanking writes *)


(** ** Vocabulary of the stream start *)

Section StartSteps.

Context `{hdr : ov64a40_regs_h}.

(** Steps 2 to 7 of a stream start: the calls [ov64a40_start_streaming]
    makes once it holds the power reference, in its order -- the global
    initialisation, the program of the mode, the geometry, the
    subsampling, the replay of the controls and the streaming bit.  [m]
    is the mode the function read on entry. *)
Definition start_steps (m : ov64a40_mode) : list (M Z) :=
  [ cci_multi_reg_write ov64a40_init (ARRAY_SIZE ov64a40_init) 0;
    cci_multi_reg_write (regvals (reglist m)) (num_regs (reglist m)) 0;
    ov64a40_program_geometry;
    ov64a40_program_subsampling;
    __v4l2_ctrl_handler_setup;
    cci_write OV64A40_REG_SMIA OV64A40_REG_SMIA_STREAMING 0 ].

(** Run from [d], step [k] of [steps] is the one that fails: the steps
    before it returned 0 one after the other, and it returned the error
    [e], leaving the device [d']. *)
Fixpoint fails_at (steps : list (M Z)) (k : nat) (e : Z) (d d' : ov64a40) : Prop :=
  match steps with
  | [] => False
  | s :: rest =>
      match k with
      | O => s d = Some (e, d') /\ e <> 0
      | S k' => exists d1, s d = Some (0, d1) /\ fails_at rest k' e d1 d'
      end
  end.

End StartSteps.

(** ** Properties *)

Section Properties.

Context `{hdr : ov64a40_regs_h}.

(** *** The monad *)

Lemma wp_bind {A B : Type} (m : M A) (k : A -> M B) (Q : B -> ov64a40 -> Prop) d :
  wp m (fun a d' => wp (k a) Q d') d -> wp (bind m k) Q d.
Proof.
  unfold wp, bind. destruct (m d) as [[a d']|]; auto.
Qed.

Lemma wp_mono {A : Type} (m : M A) (Q Q' : A -> ov64a40 -> Prop) d :
  wp m Q d -> (forall a d', Q a d' -> Q' a d') -> wp m Q' d.
Proof.
  unfold wp. destruct (m d) as [[a d']|]; auto.
Qed.

Lemma wp_elim {A : Type} (m : M A) (Q : A -> ov64a40 -> Prop) d :
  wp m Q d -> exists a d', m d = Some (a, d') /\ Q a d'.
Proof.
  unfold wp. destruct (m d) as [[a d']|]; [eauto | tauto].
Qed.

Lemma wp_intro {A : Type} (m : M A) (Q : A -> ov64a40 -> Prop) d a d' :
  m d = Some (a, d') -> Q a d' -> wp m Q d.
Proof.
  unfold wp. intros ->. auto.
Qed.

(** *** C integers and arrays *)

Lemma u32_small z : 0 <= z < 2 ^ 32 -> u32 z = z.
Proof. intros; unfold u32; apply Z.mod_small; lia. Qed.

Lemma u64_small z : 0 <= z < 2 ^ 64 -> u64 z = z.
Proof. intros; unfold u64; apply Z.mod_small; lia. Qed.

Lemma s32_small z : - 2 ^ 31 <= z < 2 ^ 31 -> s32 z = z.
Proof. intros; unfold s32; rewrite Z.mod_small; lia. Qed.

Lemma index_ok_get {A : Type} (a : list A) i :
  index_ok a i = true ->
  exists x, array_get a i = Some x /\ array_get a (u32 i) = Some x.
Proof.
  unfold index_ok, array_get. intros H.
  apply andb_prop in H as [H H3]. apply andb_prop in H as [H1 H2].
  rewrite u32_small by lia.
  destruct (i <? 0) eqn:E; [lia|].
  destruct (nth_error a (Z.to_nat i)) eqn:N; [eauto|].
  apply nth_error_None in N. lia.
Qed.

Lemma firstn_ARRAY_SIZE {A : Type} (a : list A) :
  firstn (Z.to_nat (ARRAY_SIZE a)) a = a.
Proof.
  unfold ARRAY_SIZE. rewrite Nat2Z.id. apply firstn_all.
Qed.

(** *** Frames *)

Lemma frame_refl d : frame d d.
Proof.
  constructor; auto. exists []. now rewrite app_nil_r.
Qed.

Lemma frame_trans d1 d2 d3 : frame d1 d2 -> frame d2 d3 -> frame d1 d3.
Proof.
  intros F G. constructor.
  - rewrite (fr_mode _ _ G). apply F.
  - rewrite (fr_freqs _ _ G). apply F.
  - rewrite (fr_fault _ _ G). apply F.
  - intros i. rewrite (fr_flags _ _ G). apply F.
  - intros i Hi. rewrite (fr_ctrls _ _ G) by assumption. now apply F.
  - rewrite (fr_count _ _ G). apply F.
  - rewrite (fr_active _ _ G). apply F.
  - destruct (fr_log _ _ F) as [l1 E1]. destruct (fr_log _ _ G) as [l2 E2].
    exists (l1 ++ l2). now rewrite E2, E1, app_assoc.
Qed.

Lemma frame_bus d r l : frame d (with_bus d r (log d ++ l)).
Proof.
  constructor; cbn; auto. eauto.
Qed.

Lemma frame_healthy d d' : frame d d' -> healthy d -> healthy d'.
Proof.
  intros F H n. rewrite (fr_fault _ _ F). apply H.
Qed.

Lemma clean_refl d : clean d d.
Proof.
  intros k Hk. destruct (nth_error (log d) k) eqn:E; auto.
  assert (nth_error (log d) k <> None) by congruence.
  apply nth_error_Some in H. lia.
Qed.

Lemma clean_trans d1 d2 d3 :
  frame d1 d2 -> frame d2 d3 -> clean d1 d2 -> clean d2 d3 -> clean d1 d3.
Proof.
  intros F1 F2 C1 C2 k Hk.
  destruct (fr_log _ _ F1) as [l1 E1]. destruct (fr_log _ _ F2) as [l2 E2].
  destruct (Nat.lt_ge_cases k (length (log d2))) as [Hlt|Hge].
  - specialize (C1 k Hk). rewrite E2, nth_error_app1 by assumption. exact C1.
  - specialize (C2 k Hge). rewrite (fr_fault _ _ F1) in C2. exact C2.
Qed.

Lemma clean_sleep d r us : clean d (with_bus d r (log d ++ [EvSleep us])).
Proof.
  intros k Hk. cbn.
  destruct (Nat.eq_dec k (length (log d))) as [->|Hne].
  - rewrite nth_error_app2, Nat.sub_diag by lia. exact I.
  - rewrite (proj2 (nth_error_None _ _)); auto.
    rewrite length_app; cbn; lia.
Qed.

Lemma clean_one d r e :
  bus_fault d (length (log d)) = 0 -> clean d (with_bus d r (log d ++ [e])).
Proof.
  intros Hf k Hk. cbn.
  destruct (Nat.eq_dec k (length (log d))) as [->|Hne].
  - rewrite nth_error_app2, Nat.sub_diag by lia. cbn. destruct e; auto.
  - rewrite (proj2 (nth_error_None _ _)); auto.
    rewrite length_app; cbn; lia.
Qed.

Lemma emits_trans d1 d2 d3 e0 e1 e2 l1 l2 :
  emits d1 e0 l1 e1 d2 -> emits d2 e1 l2 e2 d3 -> emits d1 e0 (l1 ++ l2) e2 d3.
Proof.
  intros [F1 H1] [F2 H2]. split; [eapply frame_trans; eauto|].
  intros E. destruct (H2 E) as (E1 & C2 & L2). destruct (H1 E1) as (E0 & C1 & L1).
  split; [assumption|]. split; [eapply clean_trans; eauto|].
  now rewrite L2, L1, app_assoc.
Qed.

Lemma emits_skip d e : emits d e [] e d.
Proof.
  split; [apply frame_refl|]. intros ->. split; [reflexivity|].
  split; [apply clean_refl | now rewrite app_nil_r].
Qed.

Lemma emits_fail d d' err evs r : frame d d' -> r <> 0 -> emits d err evs r d'.
Proof.
  intros F N. split; [assumption | intros; contradiction].
Qed.

Lemma runs_trans d1 d2 d3 e0 e1 e2 l1 l2 :
  runs d1 e0 l1 e1 d2 -> runs d2 e1 l2 e2 d3 -> runs d1 e0 (l1 ++ l2) e2 d3.
Proof.
  intros (E1 & H1 & C1) (E2 & H2 & C2).
  split; [eapply emits_trans; eauto|]. split; [|congruence].
  intros Hh E0. apply H2; [|now apply H1].
  eapply frame_healthy; [apply E1 | assumption].
Qed.

Lemma runs_skip d e : runs d e [] e d.
Proof.
  split; [apply emits_skip | auto].
Qed.

Lemma runs_fail d d' evs r :
  frame d d' -> r <> 0 -> (healthy d -> r = 0) -> ctrl_handler d' = ctrl_handler d ->
  runs d 0 evs r d'.
Proof.
  intros F N H C. split; [now apply emits_fail | auto].
Qed.

(** *** Monad steps *)

Lemma wp_ret {A : Type} (a : A) (Q : A -> ov64a40 -> Prop) d : Q a d -> wp (ret a) Q d.
Proof. exact (fun H => H). Qed.

Lemma wp_get (Q : ov64a40 -> ov64a40 -> Prop) d : Q d d -> wp get Q d.
Proof. exact (fun H => H). Qed.

Lemma wp_modify f (Q : unit -> ov64a40 -> Prop) d : Q tt (f d) -> wp (modify f) Q d.
Proof. exact (fun H => H). Qed.

Lemma wp_of_option {A : Type} (o : option A) a (Q : A -> ov64a40 -> Prop) d :
  o = Some a -> Q a d -> wp (of_option o) Q d.
Proof. intros ->. exact (fun H => H). Qed.

(** *** Register access *)

Lemma cci_write_spec reg val err d :
  wp (cci_write reg val err) (runs d err [EvWrite reg (u64 val)]) d.
Proof.
  unfold wp, cci_write.
  destruct (err =? 0) eqn:E.
  - apply Z.eqb_eq in E. subst err.
    destruct (bus_fault d (length (log d)) =? 0) eqn:F.
    + apply Z.eqb_eq in F. split; [split|]; auto using frame_bus.
      intros _. split; [reflexivity|]. split; [now apply clean_one | reflexivity].
    + apply Z.eqb_neq in F. apply runs_fail; auto using frame_bus.
  - apply Z.eqb_neq in E. split; [|split; [intros; contradiction | reflexivity]].
    apply emits_fail; auto using frame_refl.
Qed.

Lemma cci_update_bits_spec reg mask val err d :
  wp (cci_update_bits reg mask val err)
     (runs d err [EvUpdateBits reg (u64 mask) (u64 val)]) d.
Proof.
  unfold wp, cci_update_bits.
  destruct (err =? 0) eqn:E.
  - apply Z.eqb_eq in E. subst err.
    destruct (bus_fault d (length (log d)) =? 0) eqn:F.
    + apply Z.eqb_eq in F. split; [split|]; auto using frame_bus.
      intros _. split; [reflexivity|]. split; [now apply clean_one | reflexivity].
    + apply Z.eqb_neq in F. apply runs_fail; auto using frame_bus.
  - apply Z.eqb_neq in E. split; [|split; [intros; contradiction | reflexivity]].
    apply emits_fail; auto using frame_refl.
Qed.

Lemma cci_multi_reg_write_loop_spec table d :
  wp (cci_multi_reg_write_loop table 0) (runs d 0 (table_events table)) d.
Proof.
  revert d. induction table as [|e table IH]; intros d.
  - apply wp_ret, runs_skip.
  - cbn [cci_multi_reg_write_loop]. apply wp_bind.
    eapply wp_mono; [apply cci_write_spec|]. intros r d1 H1. cbn beta.
    destruct (r =? 0) eqn:E.
    + apply Z.eqb_eq in E. subst r.
      eapply wp_mono; [apply IH|]. intros r d2 H2.
      change (table_events (e :: table))
        with ([EvWrite (seq_reg e) (u64 (seq_val e))] ++ table_events table).
      eapply runs_trans; eauto.
    + apply Z.eqb_neq in E. apply wp_ret.
      destruct H1 as ([F _] & Hh & C). apply runs_fail; auto.
Qed.

Lemma cci_multi_reg_write_spec table d :
  wp (cci_multi_reg_write table (ARRAY_SIZE table) 0) (runs d 0 (table_events table)) d.
Proof.
  unfold cci_multi_reg_write. rewrite firstn_ARRAY_SIZE.
  apply cci_multi_reg_write_loop_spec.
Qed.

(** *** Timing resolver *)

Lemma ov64a40_get_timings_run idx d f :
  array_get (link_frequencies d) (u32 idx) = Some f ->
  ov64a40_get_timings idx d = Some (timings_for (mode d) f, d).
Proof.
  intros H. unfold ov64a40_get_timings, bind, get. rewrite H. reflexivity.
Qed.

(** *** Register programs *)

Ltac chain_step lemma Hacc :=
  apply wp_bind; eapply wp_mono; [apply lemma|];
  let r := fresh "r" in let d' := fresh "d" in let H := fresh "Hstep" in
  intros r d' H; cbn beta;
  apply (runs_trans _ _ _ _ _ _ _ _ Hacc) in H; clear Hacc; rename H into Hacc.

Lemma ov64a40_program_geometry_spec d f :
  array_get (link_frequencies d) (u32 (cur_val (link_freq d))) = Some f ->
  wp ov64a40_program_geometry
     (runs d 0 (geometry_events (mode d) (timings_for (mode d) f))) d.
Proof.
  intros Hf. unfold ov64a40_program_geometry.
  apply wp_bind, wp_get. cbn zeta.
  pose proof (runs_skip d 0) as H0.
  chain_step cci_write_spec H0.
  chain_step cci_write_spec H0.
  chain_step cci_write_spec H0.
  chain_step cci_write_spec H0.
  chain_step cci_write_spec H0.
  chain_step cci_write_spec H0.
  chain_step cci_write_spec H0.
  chain_step cci_write_spec H0.
  apply wp_bind.
  assert (Hf' : array_get (link_frequencies d7) (u32 (cur_val (link_freq d))) = Some f).
  { destruct H0 as ([F _] & _). now rewrite (fr_freqs _ _ F). }
  eapply wp_intro; [apply (ov64a40_get_timings_run _ _ _ Hf')|].
  assert (Hm : mode d7 = mode d) by (destruct H0 as ([F _] & _); apply F).
  rewrite Hm.
  chain_step cci_write_spec H0.
  chain_step cci_write_spec H0.
  apply wp_ret. exact H0.
Qed.

Lemma ov64a40_program_subsampling_spec d :
  wp ov64a40_program_subsampling (runs d 0 (subsampling_events (mode d))) d.
Proof.
  unfold ov64a40_program_subsampling.
  apply wp_bind, wp_get. cbn zeta.
  pose proof (runs_skip d 0) as H0.
  chain_step cci_write_spec H0.
  chain_step cci_write_spec H0.
  chain_step cci_update_bits_spec H0.
  chain_step cci_update_bits_spec H0.
  apply wp_ret. exact H0.
Qed.

Lemma ov64a40_link_freq_config_spec val d f :
  array_get (link_frequencies d) val = Some f ->
  wp (ov64a40_link_freq_config val) (runs d 0 (link_freq_events f)) d.
Proof.
  intros Hf. unfold ov64a40_link_freq_config, link_freq_events.
  apply wp_bind, wp_get.
  pose proof (runs_skip d 0) as H0.
  chain_step cci_multi_reg_write_spec H0.
  apply wp_bind. eapply wp_of_option; [exact Hf|].
  destruct (f =? OV64A40_LINK_FREQ_360M).
  - eapply wp_mono; [apply cci_write_spec|]. intros r' d' H.
    apply (runs_trans _ _ _ _ _ _ _ _ H0 H).
  - apply wp_ret. rewrite app_nil_r. exact H0.
Qed.

Lemma frame_range_updated d id val : frame d (range_updated d id val).
Proof.
  destruct id; try apply frame_refl.
  constructor; cbn; auto.
  - intros i. destruct (v4l2_ctrl_id_eqb i V4L2_CID_EXPOSURE) eqn:E; [|reflexivity].
    destruct i; try discriminate. reflexivity.
  - intros i Hi. destruct i; try reflexivity. contradiction.
  - exists []. now rewrite app_nil_r.
Qed.

Lemma emits_range_updated d id val : emits d 0 [] 0 (range_updated d id val).
Proof.
  split; [apply frame_range_updated|]. intros _. split; [reflexivity|].
  destruct id; cbn; rewrite app_nil_r; split; auto; exact (clean_refl d).
Qed.

Lemma emits_pm_bracket d0 a e evs r d2 :
  emits (with_pm d0 (usage_count d0 + 1) a) e evs r d2 ->
  rpm_active d0 = a ->
  emits d0 e evs r (with_pm d2 (usage_count d2 - 1) (rpm_active d2)).
Proof.
  intros [F H] A. split.
  - destruct F. cbn in *. constructor; cbn; auto; try congruence. lia.
  - exact H.
Qed.

Lemma wp_put_suffix (a : Z) (Q : Z -> ov64a40 -> Prop) d :
  Q a (with_pm d (usage_count d - 1) (rpm_active d)) ->
  wp ((if 0 <? 1
       then pm_runtime_mark_last_busy ;;; pm_runtime_put_autosuspend
       else ret tt) ;;; ret a) Q d.
Proof. exact (fun H => H). Qed.

Lemma runs_weaken d r d' evs :
  runs d 0 evs r d' ->
  emits d 0 evs r d' /\ (healthy d -> r = 0) /\ ctrl_handler d' = ctrl_handler d.
Proof.
  intros (E & H & C). auto.
Qed.

Lemma ov64a40_set_ctrl_spec id val d :
  ctrl_arg_ok d id val = true ->
  wp (ov64a40_set_ctrl id val)
     (fun r d' =>
        emits d 0 (if rpm_active d then ctrl_events d id val else []) r d' /\
        (healthy d -> has_register id = true -> r = 0) /\
        (rpm_active d = false -> r = 0) /\
        ctrl_handler d' = ctrl_handler (range_updated d id val)) d.
Proof.
  intros Hok. unfold ov64a40_set_ctrl.
  apply wp_bind, wp_get.
  apply wp_bind.
  apply (wp_mono _ (fun _ d0 => d0 = range_updated d id val)).
  { destruct id; reflexivity. }
  intros _ d0 ->.
  pose proof (emits_range_updated d id val) as E0.
  apply wp_bind. unfold pm_runtime_get_if_active.
  apply wp_bind, wp_get.
  rewrite (fr_active _ _ (proj1 E0)).
  destruct (rpm_active d) eqn:A.
  - apply wp_bind, wp_modify, wp_ret. cbn [Z.eqb].
    apply wp_bind.
    set (d1 := with_pm _ _ _).
    apply (wp_mono _ (fun r d2 =>
             emits d1 0 (ctrl_events d id val) r d2 /\
             (healthy d1 -> has_register id = true -> r = 0) /\
             ctrl_handler d2 = ctrl_handler d1)).
    + destruct id; cbn [ctrl_events has_register].
      * apply wp_ret. split; [|split]; auto; try discriminate.
        apply emits_fail; [apply frame_refl | discriminate].
      * cbn in Hok. destruct (index_ok_get _ _ Hok) as (f & Hf & _). rewrite Hf.
        eapply wp_mono; [apply (ov64a40_link_freq_config_spec val d1 f Hf)|].
        intros r d2 H. apply runs_weaken in H. intuition.
      * cbn in Hok. destruct (index_ok_get _ _ Hok) as (f & Hf & _). rewrite Hf.
        apply wp_bind. eapply wp_of_option; [reflexivity|].
        eapply wp_mono; [apply cci_write_spec|].
        intros r d2 H. apply runs_weaken in H. intuition.
      * eapply wp_mono; [apply cci_write_spec|].
        intros r d2 H. apply runs_weaken in H. intuition.
      * apply wp_ret. split; [|split]; auto; try discriminate.
        apply emits_fail; [apply frame_refl | discriminate].
      * pose proof (runs_skip d1 0) as H0.
        chain_step cci_write_spec H0.
        chain_step cci_write_spec H0.
        eapply wp_mono; [apply cci_write_spec|].
        intros r' d' H. apply (runs_trans _ _ _ _ _ _ _ _ H0) in H.
        apply runs_weaken in H. intuition.
      * eapply wp_mono; [apply cci_write_spec|].
        intros r d2 H. apply runs_weaken in H. intuition.
      * eapply wp_mono; [apply cci_update_bits_spec|].
        intros r d2 H. apply runs_weaken in H.
        destruct (val =? 0); intuition.
      * eapply wp_mono; [apply cci_update_bits_spec|].
        intros r d2 H. apply runs_weaken in H. intuition.
    + intros r d2 (E & Hh & C). apply wp_put_suffix.
      split; [|split; [|split]].
      * pose proof (emits_pm_bracket _ _ _ _ _ _ E eq_refl) as E'.
        exact (emits_trans _ _ _ _ _ _ _ _ E0 E').
      * intros Hh' Hr. apply Hh; [|assumption].
        intros n. unfold d1. cbn. rewrite (fr_fault _ _ (proj1 E0)). apply Hh'.
      * discriminate.
      * exact C.
  - apply wp_ret. cbn [Z.eqb]. apply wp_ret.
    split; [exact E0|]. split; [|split]; auto.
Qed.

Lemma v4l2_ctrl_id_eqb_eq a b : v4l2_ctrl_id_eqb a b = true <-> a = b.
Proof.
  split; [|intros ->; destruct b; reflexivity].
  destruct a, b; cbn; congruence.
Qed.

Lemma ctrl_events_ext d d' id val :
  mode d' = mode d -> link_frequencies d' = link_frequencies d ->
  ctrl_events d' id val = ctrl_events d id val.
Proof.
  intros Hm Hl. destruct id; cbn; rewrite ?Hm, ?Hl; reflexivity.
Qed.

Lemma ctrl_arg_ok_ext d d' id val :
  link_frequencies d' = link_frequencies d ->
  ctrl_arg_ok d' id val = ctrl_arg_ok d id val.
Proof.
  intros Hl. destruct id; cbn; rewrite ?Hl; reflexivity.
Qed.

Lemma range_updated_other d id val i :
  (id = V4L2_CID_VBLANK -> i <> V4L2_CID_EXPOSURE) ->
  ctrl_handler (range_updated d id val) i = ctrl_handler d i.
Proof.
  intros H. destruct id; try reflexivity. cbn.
  destruct (v4l2_ctrl_id_eqb i V4L2_CID_EXPOSURE) eqn:E; [|reflexivity].
  apply v4l2_ctrl_id_eqb_eq in E. now elim H.
Qed.

Lemma handler_setup_loop_spec d0 ids : forall d,
  replay_order_ok ids = true ->
  mode d = mode d0 -> link_frequencies d = link_frequencies d0 ->
  rpm_active d = rpm_active d0 ->
  (forall i, In i ids -> ctrl_handler d i = ctrl_handler d0 i) ->
  (forall i, In i ids -> ctrl_arg_ok d0 i (cur_val (ctrl_handler d0 i)) = true) ->
  wp (handler_setup_loop ids)
     (fun r d' =>
        emits d 0 (if rpm_active d0 then replay_list d0 ids else []) r d' /\
        (healthy d ->
         (forall i, In i ids ->
            ctrl_flag_set (ctrl_handler d0 i) V4L2_CTRL_FLAG_READ_ONLY = false ->
            has_register i = true) ->
         r = 0)) d.
Proof.
  induction ids as [|id ids IH]; intros d Hord Hm Hl Ha Hc Hok.
  - apply wp_ret. split; [|auto].
    destruct (rpm_active d0); apply emits_skip.
  - cbn [handler_setup_loop]. apply wp_bind, wp_get.
    cbn [replay_order_ok] in Hord. apply andb_prop in Hord as [Hv Hord].
    rewrite (Hc id) by (left; reflexivity).
    unfold replay_list. cbn [flat_map]. fold (replay_list d0 ids).
    destruct (ctrl_flag_set (ctrl_handler d0 id) V4L2_CTRL_FLAG_READ_ONLY) eqn:RO.
    + eapply wp_mono; [apply IH; auto|].
      * intros i Hi. apply Hc. now right.
      * intros i Hi. apply Hok. now right.
      * cbn beta. intros r d' [E Hh]. split; [exact E|].
        intros H1 H2. apply Hh; auto. intros i Hi. apply H2. now right.
    + apply wp_bind. eapply wp_mono.
      { apply ov64a40_set_ctrl_spec. rewrite (ctrl_arg_ok_ext d0 d) by assumption.
        apply Hok. now left. }
      cbn beta. intros r d1 (E & Hh & _ & C).
      rewrite Ha, (ctrl_events_ext d0 d) in E by assumption.
      destruct (r =? 0) eqn:R; cbn [negb].
      * apply Z.eqb_eq in R. subst r.
        pose proof (proj1 E) as F.
        eapply wp_mono; [apply IH; auto|].
        -- rewrite (fr_mode _ _ F). assumption.
        -- rewrite (fr_freqs _ _ F). assumption.
        -- rewrite (fr_active _ _ F). assumption.
        -- intros i Hi. rewrite C, range_updated_other; [apply Hc; now right|].
           intros -> ->. cbn in Hv. apply negb_true_iff in Hv.
           assert (existsb (v4l2_ctrl_id_eqb V4L2_CID_EXPOSURE) ids = true).
           { apply existsb_exists. exists V4L2_CID_EXPOSURE. auto. }
           congruence.
        -- intros i Hi. apply Hok. now right.
        -- cbn beta. intros r d2 [E2 Hh2]. split.
           ++ pose proof (emits_trans _ _ _ _ _ _ _ _ E E2) as E3.
              destruct (rpm_active d0); exact E3.
           ++ intros H1 H2. apply Hh2; [eapply frame_healthy; eauto|].
              intros i Hi. apply H2. now right.
      * apply Z.eqb_neq in R. apply wp_ret. split.
        -- apply emits_fail; [apply E | assumption].
        -- intros H1 H2. apply Hh; [assumption|]. apply H2; [now left | assumption].
Qed.

Lemma ctrl_indices_ok_arg d i :
  ctrl_indices_ok d = true -> ctrl_arg_ok d i (cur_val (ctrl_handler d i)) = true.
Proof.
  unfold ctrl_indices_ok. intros H. apply andb_prop in H as [H1 H2].
  destruct i; try reflexivity; assumption.
Qed.

Lemma handler_setup_spec d :
  ctrl_indices_ok d = true ->
  wp __v4l2_ctrl_handler_setup
     (fun r d' =>
        emits d 0 (if rpm_active d then replay_events d else []) r d' /\
        (healthy d -> handler_ok d = true -> r = 0)) d.
Proof.
  intros Hok. unfold __v4l2_ctrl_handler_setup, replay_events.
  eapply wp_mono; [apply (handler_setup_loop_spec d); auto using ctrl_indices_ok_arg|].
  cbn beta. intros r d' [E Hh]. split; [exact E|].
  intros H1 H2. apply Hh; [assumption|].
  unfold handler_ok in H2. apply andb_prop in H2 as [P Q].
  intros i _ RO. destruct i; try reflexivity; congruence.
Qed.

(** *** Stream start and stop *)

Lemma pm_runtime_resume_and_get_spec d :
  wp pm_runtime_resume_and_get
     (fun r d' =>
        r <= 0 /\
        (r = 0 ->
         frame (with_pm d (usage_count d + 1) true) d' /\
         ctrl_handler d' = ctrl_handler d /\
         clean d d' /\
         log d' = log d ++ (if rpm_active d then [] else [EvSleep 5000])) /\
        (r <> 0 ->
         usage_count d' = usage_count d /\ ctrl_handler d' = ctrl_handler d) /\
        (power_ok d = true -> r = 0)) d.
Proof.
  unfold wp, pm_runtime_resume_and_get, ov64a40_power_on, power_ok,
    clk_prepare_enable, regulator_bulk_enable, bind, get, modify, ret,
    clk_disable_unprepare, gpiod_set_value_cansleep, fsleep.
  destruct (rpm_active d) eqn:A; cbn.
  - split; [lia|]. split; [|split]; auto; try contradiction. intros _.
    split; [|split; [|split]]; auto.
    + apply frame_refl.
    + exact (clean_refl d).
    + now rewrite app_nil_r.
  - destruct (clk_fault d =? 0)%N eqn:C; cbn.
    + destruct (regulator_fault d =? 0)%N eqn:R; cbn.
      * split; [lia|]. split; [|split]; auto; try contradiction. intros _.
        split; [|split; [|split]]; auto.
        -- constructor; cbn; eauto.
        -- apply (clean_sleep d (regs d) 5000).
      * apply N.eqb_neq in R.
        destruct (- Z.of_N (regulator_fault d) =? 0) eqn:R'; [lia|]. cbn.
        rewrite R'. cbn.
        split; [lia|]. split; [|split]; try discriminate; [lia|].
        intros _. split; [lia | reflexivity].
    + apply N.eqb_neq in C.
      destruct (- Z.of_N (clk_fault d) =? 0) eqn:C'; [lia|]. cbn.
      rewrite C'. cbn.
      split; [lia|]. split; [|split]; try discriminate; [lia|].
      intros _. split; [lia | reflexivity].
Qed.

Lemma grab_set f : negb (Z.land (Z.lor f V4L2_CTRL_FLAG_GRABBED) V4L2_CTRL_FLAG_GRABBED =? 0) = true.
Proof.
  apply negb_true_iff, Z.eqb_neq. intros H.
  apply (f_equal (fun z => Z.testbit z 1)) in H.
  rewrite Z.land_spec, Z.lor_spec in H. cbn in H.
  rewrite orb_true_r in H. discriminate.
Qed.

Lemma grab_clear f : negb (Z.land (Z.ldiff f V4L2_CTRL_FLAG_GRABBED) V4L2_CTRL_FLAG_GRABBED =? 0) = false.
Proof.
  apply negb_false_iff, Z.eqb_eq. apply Z.bits_inj'. intros n Hn.
  rewrite Z.land_spec, Z.ldiff_spec, Z.bits_0.
  destruct (Z.testbit V4L2_CTRL_FLAG_GRABBED n); [|apply andb_false_r].
  now rewrite andb_false_r.
Qed.

Lemma replay_events_ext d d' :
  mode d' = mode d -> link_frequencies d' = link_frequencies d ->
  ctrl_handler d' = ctrl_handler d ->
  replay_events d' = replay_events d.
Proof.
  intros Hm Hl Hc. unfold replay_events, replay_list.
  apply flat_map_ext. intros id. rewrite Hc.
  now rewrite (ctrl_events_ext d d') by assumption.
Qed.

Lemma wp_error_power_off (r : Z) (Q : Z -> ov64a40 -> Prop) d :
  Q r (with_pm d (usage_count d - 1) (rpm_active d)) ->
  wp (pm_runtime_mark_last_busy ;;; pm_runtime_put_autosuspend ;;; ret r) Q d.
Proof. exact (fun H => H). Qed.

Lemma start_failed d d1 dk r :
  frame (with_pm d (usage_count d + 1) true) d1 ->
  frame d1 dk ->
  r <> 0 ->
  (healthy d -> power_ok d = true -> handler_ok d = true -> r = 0) ->
  start_post d r (with_pm dk (usage_count dk - 1) (rpm_active dk)).
Proof.
  intros F0 F N H. split; [intros; contradiction|]. split; [|exact H].
  intros _. pose proof (frame_trans _ _ _ F0 F) as G. split; cbn.
  - rewrite (fr_count _ _ G). cbn. lia.
  - intros i. rewrite (fr_flags _ _ G). reflexivity.
Qed.

Lemma cci_multi_reg_write_gen table n d :
  wp (cci_multi_reg_write table n 0)
     (runs d 0 (table_events (firstn (Z.to_nat n) table))) d.
Proof.
  apply cci_multi_reg_write_loop_spec.
Qed.

Ltac start_step lemma d d1 Hh0 Hacc Hctl dk :=
  apply wp_bind; eapply wp_mono; [apply lemma|];
  let r := fresh "r" in
  let Hs := fresh "Hs" in let Hh := fresh "Hh" in let Hc := fresh "Hc" in
  let R := fresh "R" in let Hacc' := fresh "Hacc" in
  intros r dk (Hs & Hh & Hc); cbn beta;
  destruct (r =? 0) eqn:R; cbn [negb];
  [ apply Z.eqb_eq in R; subst r;
    pose proof (emits_trans _ _ _ _ _ _ _ _ Hacc Hs) as Hacc';
    rewrite Hctl in Hc; clear Hacc Hctl Hs Hh;
    rename Hacc' into Hacc; rename Hc into Hctl
  | apply Z.eqb_neq in R; apply wp_error_power_off; apply (start_failed d d1);
    [ assumption
    | exact (frame_trans _ _ _ (proj1 Hacc) (proj1 Hs))
    | assumption
    | intros Hd _ _; apply Hh;
      [eapply frame_healthy; [apply Hacc | auto] | reflexivity] ] ].

Lemma start_tail d d7 f :
  usage_count d7 = usage_count d + 1 ->
  rpm_active d7 = true ->
  mode d7 = mode d ->
  link_frequencies d7 = link_frequencies d ->
  bus_fault d7 = bus_fault d ->
  (forall i, flags (ctrl_handler d7 i) = flags (ctrl_handler d i)) ->
  (forall i, i <> V4L2_CID_EXPOSURE -> ctrl_handler d7 i = ctrl_handler d i) ->
  clean d d7 ->
  array_get (link_frequencies d) (cur_val (link_freq d)) = Some f ->
  array_get (link_frequencies d) (u32 (cur_val (link_freq d))) = Some f ->
  log d7 = log d ++ (if rpm_active d then [] else [EvSleep 5000]) ++
           stream_start_events d f ->
  wp (__v4l2_ctrl_grab V4L2_CID_LINK_FREQ true ;;;
      __v4l2_ctrl_grab V4L2_CID_VFLIP true ;;;
      __v4l2_ctrl_grab V4L2_CID_HFLIP true ;;;
      d0 <- get ;;
      timings <- ov64a40_get_timings (cur_val (link_freq d0)) ;;
      fsleep (stream_start_delay timings (cur_val (exposure d0))) ;;;
      ret 0)
     (fun r d' => r = 0 /\ stream_started d d') d7.
Proof.
  intros Hc Ha Hm Hl Hb Hfl Hct Hcl Hf Hfu Hlog.
  assert (Hlf : ctrl_handler d7 V4L2_CID_LINK_FREQ = ctrl_handler d V4L2_CID_LINK_FREQ)
    by (apply Hct; discriminate).
  unfold wp, bind, __v4l2_ctrl_grab, get, modify, ret, fsleep,
    ov64a40_get_timings, link_freq, exposure.
  cbn. rewrite Hl, Hlf. fold (link_freq d). rewrite Hfu. cbn.
  split; [reflexivity|].
  unfold stream_started, grabbed, ctrl_flag_set, exposure. cbn.
  repeat split; auto.
  - intros k Hk. specialize (Hcl k Hk). cbn.
    assert (Hlen : (length (log d) <= length (log d7))%nat).
    { rewrite Hlog, length_app. lia. }
    destruct (Nat.lt_ge_cases k (length (log d7))) as [Hlt|Hge].
    + now rewrite nth_error_app1 by assumption.
    + destruct (Nat.eq_dec k (length (log d7))) as [->|Hne].
      * now rewrite nth_error_app2, Nat.sub_diag by lia.
      * rewrite (proj2 (nth_error_None _ _)); auto.
        rewrite length_app; cbn; lia.
  - intros i Hi. destruct i; try discriminate; cbn; apply grab_set.
  - intros i Hi. destruct i; try discriminate; cbn; apply Hfl.
  - destruct i; cbn; try reflexivity; try (now rewrite Hct by discriminate).
    now elim H.
  - destruct i; cbn; try reflexivity; try (now rewrite Hct by discriminate).
    now elim H.
  - destruct i; cbn; try reflexivity; try (now rewrite Hct by discriminate).
    now elim H.
  - exists f. split; [assumption|].
    rewrite Hlog, Hm. unfold timings_for. now rewrite <- !app_assoc.
Qed.

Lemma ov64a40_start_streaming_spec d :
  ctrl_indices_ok d = true ->
  wp ov64a40_start_streaming (start_post d) d.
Proof.
  intros Hok. unfold ov64a40_start_streaming.
  apply wp_bind, wp_get. cbn zeta.
  apply wp_bind. eapply wp_mono; [apply pm_runtime_resume_and_get_spec|].
  intros r d1 (Hle & H0 & Hn & Hp). cbn beta.
  destruct (r <? 0) eqn:Rneg.
  { apply wp_ret. split; [lia|]. split; [|auto].
    intros N. destruct (Hn N) as [Hc Hh]. split; [assumption|].
    intros i. now rewrite Hh. }
  assert (r = 0) by lia. subst r. clear Rneg Hle Hn.
  destruct (H0 eq_refl) as (F0 & C0 & Cl0 & L0). clear H0.
  assert (Hh0 : healthy d -> healthy d1).
  { intros H n. rewrite (fr_fault _ _ F0). apply H. }
  pose proof (emits_skip d1 0) as Hacc.
  pose proof C0 as Hctl.
  pose proof Hok as Hidx. unfold ctrl_indices_ok in Hidx.
  apply andb_prop in Hidx as [Hidx _].
  destruct (index_ok_get _ _ Hidx) as (f & Hf & Hfu).
  start_step cci_multi_reg_write_spec d d1 Hh0 Hacc Hctl d2.
  start_step cci_multi_reg_write_gen d d1 Hh0 Hacc Hctl d3.
  assert (Hm : mode d3 = mode d).
  { rewrite (fr_mode _ _ (proj1 Hacc)). apply (fr_mode _ _ F0). }
  assert (Hl : link_frequencies d3 = link_frequencies d).
  { rewrite (fr_freqs _ _ (proj1 Hacc)). apply (fr_freqs _ _ F0). }
  assert (Hf3 : array_get (link_frequencies d3) (u32 (cur_val (link_freq d3))) = Some f).
  { unfold link_freq. now rewrite Hl, Hctl. }
  pose proof (ov64a40_program_geometry_spec d3 f Hf3) as G. rewrite Hm in G.
  start_step G d d1 Hh0 Hacc Hctl d4. clear G Hf3 Hm Hl.
  assert (Hm : mode d4 = mode d).
  { rewrite (fr_mode _ _ (proj1 Hacc)). apply (fr_mode _ _ F0). }
  pose proof (ov64a40_program_subsampling_spec d4) as G. rewrite Hm in G.
  start_step G d d1 Hh0 Hacc Hctl d5. clear G.
  (* replay of the controls *)
  assert (Hm5 : mode d5 = mode d).
  { rewrite (fr_mode _ _ (proj1 Hacc)). apply (fr_mode _ _ F0). }
  assert (Hl5 : link_frequencies d5 = link_frequencies d).
  { rewrite (fr_freqs _ _ (proj1 Hacc)). apply (fr_freqs _ _ F0). }
  assert (Ha5 : rpm_active d5 = true).
  { rewrite (fr_active _ _ (proj1 Hacc)). apply (fr_active _ _ F0). }
  assert (Hok5 : ctrl_indices_ok d5 = true).
  { unfold ctrl_indices_ok, link_freq. rewrite Hl5, Hctl. exact Hok. }
  apply wp_bind. eapply wp_mono; [apply (handler_setup_spec d5 Hok5)|].
  intros r d6 (Hs & Hh). cbn beta.
  rewrite Ha5, (replay_events_ext d d5) in Hs by assumption.
  destruct (r =? 0) eqn:R; cbn [negb].
  2:{ apply Z.eqb_neq in R. apply wp_error_power_off. apply (start_failed d d1).
      - assumption.
      - exact (frame_trans _ _ _ (proj1 Hacc) (proj1 Hs)).
      - assumption.
      - intros Hd _ Hk. apply Hh.
        + eapply frame_healthy; [apply Hacc | auto].
        + unfold handler_ok. rewrite Hctl. exact Hk. }
  apply Z.eqb_eq in R. subst r.
  pose proof (emits_trans _ _ _ _ _ _ _ _ Hacc Hs) as Hacc6.
  clear Hacc Hs Hh Hctl Hok5.
  (* streaming bit *)
  apply wp_bind. eapply wp_mono; [apply cci_write_spec|].
  intros r d7 (Hs & Hh & Hc7). cbn beta.
  destruct (r =? 0) eqn:R; cbn [negb].
  2:{ apply Z.eqb_neq in R. apply wp_error_power_off. apply (start_failed d d1).
      - assumption.
      - exact (frame_trans _ _ _ (proj1 Hacc6) (proj1 Hs)).
      - assumption.
      - intros Hd _ _. apply Hh; [|reflexivity].
        eapply frame_healthy; [apply Hacc6 | auto]. }
  apply Z.eqb_eq in R. subst r.
  pose proof (emits_trans _ _ _ _ _ _ _ _ Hacc6 Hs) as Hacc.
  clear Hacc6 Hs Hh.
  destruct Hacc as [F [_ [Cl L]]]; [reflexivity|].
  pose proof (frame_trans _ _ _ F0 F) as G.
  eapply wp_mono; [apply (start_tail d d7 f)|]; auto.
  - rewrite (fr_count _ _ G). reflexivity.
  - rewrite (fr_active _ _ G). reflexivity.
  - rewrite (fr_mode _ _ G). reflexivity.
  - rewrite (fr_freqs _ _ G). reflexivity.
  - rewrite (fr_fault _ _ G). reflexivity.
  - intros i. rewrite (fr_flags _ _ G). reflexivity.
  - intros i Hi. rewrite (fr_ctrls _ _ G) by assumption. reflexivity.
  - exact (clean_trans (with_pm d (usage_count d + 1) true) d1 d7 F0 F Cl0 Cl).
  - rewrite L, L0. unfold stream_start_events. rewrite <- !app_assoc. reflexivity.
  - cbn beta. intros r d' [-> S]. split; [auto|]. split; [intros N; now elim N | auto].
Qed.

Lemma ov64a40_stop_streaming_run d :
  exists d',
    ov64a40_stop_streaming d = Some (0, d') /\
    usage_count d' = usage_count d - 1 /\
    rpm_active d' = rpm_active d /\
    (forall i, latched i = true -> grabbed d' i = false) /\
    (forall i, latched i = false -> ctrl_handler d' i = ctrl_handler d i) /\
    (forall i, cur_val (ctrl_handler d' i) = cur_val (ctrl_handler d i)) /\
    log d' = log d ++ [EvUpdateBits OV64A40_REG_SMIA (u64 1) (u64 0)].
Proof.
  unfold ov64a40_stop_streaming, bind, cci_update_bits, pm_runtime_mark_last_busy,
    pm_runtime_put_autosuspend, __v4l2_ctrl_grab, get, modify, ret.
  cbn.
  destruct (bus_fault d (length (log d)) =? 0); cbn;
    eexists; (split; [reflexivity|]); cbn;
    (repeat split; auto;
     [ intros i Hi; unfold grabbed, ctrl_flag_set;
       destruct i; try discriminate; cbn; apply grab_clear
     | intros i Hi; destruct i; try discriminate; reflexivity
     | intros i; destruct i; reflexivity ]).
Qed.

Lemma ctrl_ranges_ok_arg d id val :
  ctrl_ranges_ok d = true ->
  minimum (ctrl_handler d id) <= val <= maximum (ctrl_handler d id) ->
  ctrl_arg_ok d id val = true.
Proof.
  unfold ctrl_ranges_ok, link_freq. intros H Hv.
  repeat (apply andb_prop in H as [H ?]).
  destruct id; try reflexivity; cbn; unfold index_ok.
  - apply andb_true_intro. split; [apply andb_true_intro; split|]; lia.
  - apply andb_true_intro. split; [apply andb_true_intro; split|]; cbn; lia.
Qed.

Lemma v4l2_ctrl_s_ctrl_refused d id val :
  ctrl_gate d id val <> 0 ->
  v4l2_ctrl_s_ctrl id val d = Some (ctrl_gate d id val, d).
Proof.
  unfold ctrl_gate, v4l2_ctrl_s_ctrl, bind, get, ret.
  destruct (ctrl_flag_set (ctrl_handler d id) V4L2_CTRL_FLAG_GRABBED); [reflexivity|].
  destruct (ctrl_flag_set (ctrl_handler d id) V4L2_CTRL_FLAG_READ_ONLY); [reflexivity|].
  destruct ((val <? minimum (ctrl_handler d id)) || (maximum (ctrl_handler d id) <? val));
    [reflexivity|].
  intros H. now elim H.
Qed.

Lemma ctrl_gate_open d id val :
  ctrl_gate d id val = 0 ->
  ctrl_flag_set (ctrl_handler d id) V4L2_CTRL_FLAG_GRABBED = false /\
  ctrl_flag_set (ctrl_handler d id) V4L2_CTRL_FLAG_READ_ONLY = false /\
  minimum (ctrl_handler d id) <= val <= maximum (ctrl_handler d id).
Proof.
  unfold ctrl_gate.
  destruct (ctrl_flag_set (ctrl_handler d id) V4L2_CTRL_FLAG_GRABBED); [discriminate|].
  destruct (ctrl_flag_set (ctrl_handler d id) V4L2_CTRL_FLAG_READ_ONLY); [discriminate|].
  destruct (val <? minimum (ctrl_handler d id)) eqn:A; [discriminate|].
  destruct (maximum (ctrl_handler d id) <? val) eqn:B; [discriminate|].
  intros _. repeat split; lia.
Qed.

Lemma v4l2_ctrl_s_ctrl_spec d id val :
  ctrl_gate d id val = 0 ->
  ctrl_arg_ok d id val = true ->
  wp (v4l2_ctrl_s_ctrl id val)
     (fun r d' =>
        exists d1,
          emits d 0 (if rpm_active d then ctrl_events d id val else []) r d1 /\
          (healthy d -> has_register id = true -> r = 0) /\
          (rpm_active d = false -> r = 0) /\
          ctrl_handler d1 = ctrl_handler (range_updated d id val) /\
          (r <> 0 -> d' = d1) /\
          (r = 0 -> d' = with_ctrl d1 id (stored (ctrl_handler d1 id) val))) d.
Proof.
  intros Hg Hok. destruct (ctrl_gate_open _ _ _ Hg) as (G & RO & Hv).
  unfold v4l2_ctrl_s_ctrl. apply wp_bind, wp_get. cbn zeta.
  rewrite G, RO.
  destruct (val <? minimum (ctrl_handler d id)) eqn:A; [lia|].
  destruct (maximum (ctrl_handler d id) <? val) eqn:B; [lia|]. cbn [orb].
  apply wp_bind. eapply wp_mono; [apply (ov64a40_set_ctrl_spec id val d Hok)|].
  cbn beta. intros r d1 (E & Hh & Hi & C).
  destruct (r =? 0) eqn:R; cbn [negb].
  - apply Z.eqb_eq in R. subst r. apply wp_bind, wp_get, wp_bind, wp_modify, wp_ret.
    exists d1. split; [exact E|]. split; [exact Hh|]. split; [exact Hi|].
    split; [exact C|]. split; [intros N; now elim N | reflexivity].
  - apply Z.eqb_neq in R. apply wp_ret.
    exists d1. split; [exact E|]. split; [exact Hh|]. split; [exact Hi|].
    split; [exact C|]. split; [reflexivity | intros; contradiction].
Qed.

(** *** Timing resolver and catalogue *)

Lemma ov64a40_get_timings_inv idx d t d' :
  ov64a40_get_timings idx d = Some (t, d') ->
  exists f, array_get (link_frequencies d) (u32 idx) = Some f /\
            t = timings_for (mode d) f /\ d' = d.
Proof.
  unfold ov64a40_get_timings, bind, get.
  destruct (array_get (link_frequencies d) (u32 idx)) as [f|]; cbn; [|discriminate].
  intros H. injection H as <- <-. eauto.
Qed.

(** C6: for every mode and every in-bounds link-frequency index, the
    timing resolver returns the reduced (360 MHz) variant of the mode when
    the frequency stored at that index is the 360 MHz constant, and the
    fast (456 MHz) variant for every other value: the value selects, not
    the position. *)
Theorem get_timings_selects_by_frequency_value (d : ov64a40) (idx freq : Z) :
  0 <= idx < 2 ^ 32 ->
  nth_error (link_frequencies d) (Z.to_nat idx) = Some freq ->
  exists t,
    ov64a40_get_timings idx d = Some (t, d) /\
    (freq = OV64A40_LINK_FREQ_360M ->
     t = timings_default (mode d) OV64A40_LINK_FREQ_360M_ID) /\
    (freq <> OV64A40_LINK_FREQ_360M ->
     t = timings_default (mode d) OV64A40_LINK_FREQ_456M_ID).
Proof.
  intros Hi Hn.
  assert (Hg : array_get (link_frequencies d) (u32 idx) = Some freq).
  { rewrite u32_small by assumption. unfold array_get.
    destruct (idx <? 0) eqn:E; [lia | assumption]. }
  exists (timings_for (mode d) freq).
  split; [now apply ov64a40_get_timings_run|].
  unfold timings_for. split; intros H.
  - apply Z.eqb_eq in H. now rewrite H.
  - apply Z.eqb_neq in H. now rewrite H.
Qed.

(** *** Geometry program *)

(** C7: for every catalogue mode and resolved timing, on a bus that
    accepts the writes, the geometry program emits exactly: analogue-crop
    left, top, left+width-1, top+height-1; digital-crop left, top, width,
    height; the line length (ppl); the frame lines (vts) -- in this
    order. *)
Theorem program_geometry_write_sequence (d : ov64a40) (t : ov64a40_timings) :
  In (mode d) ov64a40_modes ->
  ov64a40_get_timings (cur_val (link_freq d)) d = Some (t, d) ->
  healthy d ->
  exists d',
    ov64a40_program_geometry d = Some (0, d') /\
    log d' = log d ++
      [ EvWrite OV64A40_REG_TIMING_CTRL0 (left (analogue_crop (mode d)));
        EvWrite OV64A40_REG_TIMING_CTRL2 (top (analogue_crop (mode d)));
        EvWrite OV64A40_REG_TIMING_CTRL4
          (left (analogue_crop (mode d)) + rect_width (analogue_crop (mode d)) - 1);
        EvWrite OV64A40_REG_TIMING_CTRL6
          (top (analogue_crop (mode d)) + rect_height (analogue_crop (mode d)) - 1);
        EvWrite OV64A40_REG_TIMING_CTRL10 (left (digital_crop (mode d)));
        EvWrite OV64A40_REG_TIMING_CTRL12 (top (digital_crop (mode d)));
        EvWrite OV64A40_REG_TIMING_CTRL8 (rect_width (digital_crop (mode d)));
        EvWrite OV64A40_REG_TIMING_CTRLA (rect_height (digital_crop (mode d)));
        EvWrite OV64A40_REG_TIMING_CTRLC (ppl t);
        EvWrite OV64A40_REG_TIMING_CTRLE (vts t) ].
Proof.
  intros Hm Ht Hh.
  destruct (ov64a40_get_timings_inv _ _ _ _ Ht) as (f & Hf & -> & _).
  destruct (wp_elim _ _ _ (ov64a40_program_geometry_spec d f Hf))
    as (r & d' & Hrun & (E & Hr & _)).
  specialize (Hr Hh eq_refl). subst r.
  exists d'. split; [assumption|].
  destruct E as [_ E]. destruct (E eq_refl) as (_ & _ & ->). f_equal.
  unfold geometry_events, timings_for.
  unfold ov64a40_modes in Hm. cbn [In] in Hm.
  decompose [or] Hm; try contradiction;
    match goal with H : _ = mode d |- _ => rewrite <- H end;
    destruct (f =? OV64A40_LINK_FREQ_360M); reflexivity.
Qed.

(** *** Control writes *)

Lemma ov64a40_set_ctrl_unpowered id val d :
  rpm_active d = false ->
  ov64a40_set_ctrl id val d = Some (0, range_updated d id val).
Proof.
  intros A. unfold ov64a40_set_ctrl, bind, get, pm_runtime_get_if_active.
  destruct id; cbn; rewrite A; reflexivity.
Qed.

(** C10: a horizontal-flip write applied while powered updates the HFLIP
    field of TIMING_CTRL_21 with inverted polarity: the value 1 clears the
    bit, the value 0 sets it, so the bit never equals the control value;
    the other bits of the register keep their value. *)
Theorem hflip_write_inverts_polarity (d : ov64a40) (val : Z) (k : Z) :
  rpm_active d = true ->
  bus_fault d (length (log d)) = 0 ->
  0 <= k < 64 ->
  OV64A40_TIMING_CTRL_21_HFLIP = 2 ^ k ->
  val = 0 \/ val = 1 ->
  exists d',
    ov64a40_set_ctrl V4L2_CID_HFLIP val d = Some (0, d') /\
    log d' = log d ++
      [EvUpdateBits OV64A40_REG_TIMING_CTRL_21 OV64A40_TIMING_CTRL_21_HFLIP
         (if val =? 1 then 0 else OV64A40_TIMING_CTRL_21_HFLIP)] /\
    Z.b2z (Z.testbit (regs d' OV64A40_REG_TIMING_CTRL_21) k) = 1 - val /\
    Z.b2z (Z.testbit (regs d' OV64A40_REG_TIMING_CTRL_21) k) <> val /\
    (forall j, j <> k ->
       Z.testbit (regs d' OV64A40_REG_TIMING_CTRL_21) j =
       Z.testbit (regs d OV64A40_REG_TIMING_CTRL_21) j).
Proof.
  intros A B Hk Hmask Hval.
  assert (Hu : u64 (2 ^ k) = 2 ^ k).
  { apply u64_small. split; [apply Z.pow_nonneg; lia|].
    apply Z.pow_lt_mono_r; lia. }
  unfold ov64a40_set_ctrl, bind, get, pm_runtime_get_if_active, modify, ret,
    cci_update_bits, pm_runtime_mark_last_busy, pm_runtime_put_autosuspend.
  cbn. rewrite A. cbn. rewrite B. cbn. rewrite Hmask, Hu.
  eexists. split; [reflexivity|]. cbn. rewrite Z.eqb_refl.
  assert (Hbit : Z.testbit (2 ^ k) k = true) by (apply Z.pow2_bits_true; lia).
  assert (Hoth : forall j, j <> k -> Z.testbit (2 ^ k) j = false)
    by (intros j Hj; apply Z.pow2_bits_false; lia).
  destruct Hval as [-> | ->]; cbn; rewrite ?Hu.
  - rewrite Z.land_diag.
    assert (Hk' : Z.testbit (Z.lor (Z.ldiff (regs d OV64A40_REG_TIMING_CTRL_21) (2 ^ k))
                               (2 ^ k)) k = true).
    { rewrite Z.lor_spec, Hbit. apply orb_true_r. }
    rewrite Hk'. cbn.
    split; [reflexivity|]. split; [reflexivity|]. split; [discriminate|].
    intros j Hj. rewrite Z.lor_spec, Z.ldiff_spec, (Hoth j Hj).
    cbn. now rewrite andb_true_r, orb_false_r.
  - rewrite Z.lor_0_r.
    assert (Hk' : Z.testbit (Z.ldiff (regs d OV64A40_REG_TIMING_CTRL_21) (2 ^ k)) k = false).
    { rewrite Z.ldiff_spec, Hbit. apply andb_false_r. }
    rewrite Hk'. cbn.
    split; [reflexivity|]. split; [reflexivity|]. split; [discriminate|].
    intros j Hj. rewrite Z.ldiff_spec, (Hoth j Hj).
    cbn. now rewrite andb_true_r.
Qed.

Lemma ctrl_gate_closed d id val :
  grabbed d id = false ->
  ctrl_flag_set (ctrl_handler d id) V4L2_CTRL_FLAG_READ_ONLY = false ->
  minimum (ctrl_handler d id) <= val <= maximum (ctrl_handler d id) ->
  ctrl_gate d id val = 0.
Proof.
  unfold grabbed, ctrl_gate. intros -> -> Hv.
  destruct (val <? minimum (ctrl_handler d id)) eqn:A; [lia|].
  destruct (maximum (ctrl_handler d id) <? val) eqn:B; [lia|]. reflexivity.
Qed.

Lemma v4l2_ctrl_s_ctrl_unpowered d id val :
  rpm_active d = false ->
  ctrl_gate d id val = 0 ->
  v4l2_ctrl_s_ctrl id val d =
  Some (0, with_ctrl (range_updated d id val) id
             (stored (ctrl_handler (range_updated d id val) id) val)).
Proof.
  intros A Hg. destruct (ctrl_gate_open _ _ _ Hg) as (G & RO & Hv).
  unfold v4l2_ctrl_s_ctrl, bind, get. cbn zeta. rewrite G, RO.
  destruct (val <? minimum (ctrl_handler d id)) eqn:E1; [lia|].
  destruct (maximum (ctrl_handler d id) <? val) eqn:E2; [lia|]. cbn [orb].
  rewrite (ov64a40_set_ctrl_unpowered id val d A). reflexivity.
Qed.

Lemma with_ctrl_same d id c : ctrl_handler (with_ctrl d id c) id = c.
Proof.
  cbn. now rewrite (proj2 (v4l2_ctrl_id_eqb_eq id id) eq_refl).
Qed.

(** C9: a control write issued while the device is not powered returns
    success and sends nothing to the bus; through the entry point the
    value is stored; a vertical-blanking write still recomputes the
    exposure range; and the next stream start on a healthy device replays
    the register writes of all current control values. *)
Theorem unpowered_control_write_is_deferred (d : ov64a40) :
  rpm_active d = false ->
  (forall id val,
     exists d',
       ov64a40_set_ctrl id val d = Some (0, d') /\
       log d' = log d /\ regs d' = regs d) /\
  (forall id val,
     grabbed d id = false ->
     ctrl_flag_set (ctrl_handler d id) V4L2_CTRL_FLAG_READ_ONLY = false ->
     minimum (ctrl_handler d id) <= val <= maximum (ctrl_handler d id) ->
     exists d',
       v4l2_ctrl_s_ctrl id val d = Some (0, d') /\
       cur_val (ctrl_handler d' id) = val /\
       log d' = log d) /\
  (forall val,
     minimum (exposure d) <= cur_val (exposure d) ->
     minimum (exposure d) <= s32 (height (mode d) + val - OV64A40_EXPOSURE_MARGIN) ->
     exists d',
       ov64a40_set_ctrl V4L2_CID_VBLANK val d = Some (0, d') /\
       minimum (exposure d') = minimum (exposure d) /\
       maximum (exposure d') =
         s32 (height (mode d) + val - OV64A40_EXPOSURE_MARGIN) /\
       log d' = log d) /\
  (ctrl_indices_ok d = true -> handler_ok d = true -> power_ok d = true ->
   healthy d ->
   exists d' before after,
     ov64a40_start_streaming d = Some (0, d') /\
     log d' = log d ++ before ++ replay_events d ++ after).
Proof.
  intros A. split; [|split; [|split]].
  - intros id val. exists (range_updated d id val).
    split; [now apply ov64a40_set_ctrl_unpowered|].
    destruct id; auto.
  - intros id val G RO Hv.
    pose proof (ctrl_gate_closed d id val G RO Hv) as Hg.
    eexists. split; [now apply v4l2_ctrl_s_ctrl_unpowered|].
    split; [now rewrite with_ctrl_same|]. destruct id; reflexivity.
  - intros val _ _. exists (range_updated d V4L2_CID_VBLANK val).
    split; [now apply ov64a40_set_ctrl_unpowered|]. repeat split; reflexivity.
  - intros Hi Hk Hp Hh.
    destruct (wp_elim _ _ _ (ov64a40_start_streaming_spec d Hi))
      as (r & d' & Hrun & (Hs & _ & Hr)).
    specialize (Hr Hh Hp Hk). subst r.
    destruct (Hs eq_refl) as (_ & _ & _ & _ & _ & _ & _ & _ & _ & f & _ & L).
    rewrite A in L. unfold stream_start_events in L.
    exists d'.
    exists ([EvSleep 5000] ++ table_events ov64a40_init ++
            table_events (firstn (Z.to_nat (num_regs (reglist (mode d))))
                                 (regvals (reglist (mode d)))) ++
            geometry_events (mode d) (timings_for (mode d) f) ++
            subsampling_events (mode d)).
    exists ([EvWrite OV64A40_REG_SMIA (u64 OV64A40_REG_SMIA_STREAMING)] ++
            [EvSleep (stream_start_delay (timings_for (mode d) f)
                                         (cur_val (exposure d')))]).
    split; [exact Hrun|]. rewrite L. rewrite <- !app_assoc.
    reflexivity.
Qed.




(** *** Streaming *)

Lemma start_streaming_step_failure d d1 r d' :
  pm_runtime_resume_and_get d = Some (0, d1) ->
  ov64a40_start_streaming d = Some (r, d') ->
  (forall k e dk, fails_at (start_steps (mode d)) k e d1 dk ->
     r = e /\ d' = with_pm dk (usage_count dk - 1) (rpm_active dk)) /\
  (r <> 0 -> exists k e dk, fails_at (start_steps (mode d)) k e d1 dk).
Proof.
  intros Hres Hrun.
  unfold ov64a40_start_streaming in Hrun.
  unfold bind at 1 in Hrun. unfold get at 1 in Hrun.
  unfold bind at 1 in Hrun. rewrite Hres in Hrun.
  change (0 <? 0) with false in Hrun. cbv iota zeta in Hrun.
  unfold start_steps.
  split.
  - intros k e dk Hk.
    repeat (destruct k as [|k];
            [ destruct Hk as [Hs He]; unfold bind at 1 in Hrun; rewrite Hs in Hrun;
              apply Z.eqb_neq in He; rewrite He in Hrun; cbn [negb] in Hrun;
              unfold pm_runtime_mark_last_busy, pm_runtime_put_autosuspend,
                bind, ret, modify in Hrun;
              injection Hrun as <- <-; split; reflexivity
            | destruct Hk as (? & Hs & Hk); unfold bind at 1 in Hrun;
              rewrite Hs in Hrun; change (negb (0 =? 0)) with false in Hrun;
              cbv iota in Hrun; clear Hs ]).
    destruct Hk.
  - intros Hr.
    repeat (unfold bind at 1 in Hrun;
            match type of Hrun with
            | match ?s ?dd with _ => _ end = _ =>
                let r0 := fresh "r" in let d2 := fresh "d" in
                let Hs := fresh "Hs" in let R0 := fresh "R" in
                destruct (s dd) as [[r0 d2]|] eqn:Hs; [|discriminate Hrun];
                destruct (r0 =? 0) eqn:R0;
                [ apply Z.eqb_eq in R0; subst r0; cbn [negb] in Hrun
                | apply Z.eqb_neq in R0;
                  first [ now (exists 0%nat, r0, d2; cbn; auto)
                        | now (exists 1%nat, r0, d2; cbn; eauto)
                        | now (exists 2%nat, r0, d2; cbn; eauto 6)
                        | now (exists 3%nat, r0, d2; cbn; eauto 8)
                        | now (exists 4%nat, r0, d2; cbn; eauto 10)
                        | now (exists 5%nat, r0, d2; cbn; eauto 12) ] ]
            end).
    exfalso. apply Hr.
    unfold __v4l2_ctrl_grab, bind, get, modify, ret, fsleep in Hrun.
    match type of Hrun with
    | match ?t with _ => _ end = _ => destruct t as [[t1 t2]|]; [|discriminate Hrun]
    end.
    injection Hrun as <- _. reflexivity.
Qed.

(** C3: when a step of stream start fails -- the global initialisation,
    the mode program, the geometry, the subsampling, the control replay
    or the streaming bit (steps 2 to 7) -- stream start returns the
    error that step returned, runs no later step, has released the power
    reference it took (the device is the one the failing step left, with
    the reference put back), and has grabbed no control.  Conversely a
    non-zero result, once the power reference was had, is the error of
    one of these steps; a result of 0 means every bus transaction issued
    went through. *)
Theorem start_streaming_failure_releases (d : ov64a40) :
  ctrl_indices_ok d = true ->
  exists r d',
    ov64a40_start_streaming d = Some (r, d') /\
    (r = 0 -> clean d d') /\
    (r <> 0 ->
     usage_count d' = usage_count d /\
     (forall i, flags (ctrl_handler d' i) = flags (ctrl_handler d i)) /\
     (forall i, grabbed d i = false -> grabbed d' i = false)) /\
    (forall d1,
       pm_runtime_resume_and_get d = Some (0, d1) ->
       (forall k e dk,
          fails_at (start_steps (mode d)) k e d1 dk ->
          r = e /\ r <> 0 /\
          d' = with_pm dk (usage_count dk - 1) (rpm_active dk) /\
          log d' = log dk) /\
       (r <> 0 ->
        exists k e dk,
          (k < 6)%nat /\ fails_at (start_steps (mode d)) k e d1 dk /\ r = e)).
Proof.
  intros Hok.
  destruct (wp_elim _ _ _ (ov64a40_start_streaming_spec d Hok))
    as (r & d' & Hrun & (Hs & Hf & _)).
  exists r, d'. split; [exact Hrun|]. split; [|split].
  - intros R. apply (Hs R).
  - intros R. destruct (Hf R) as [Hc Hfl]. split; [exact Hc|]. split; [exact Hfl|].
    intros i. unfold grabbed, ctrl_flag_set. now rewrite Hfl.
  - intros d1 Hres.
    destruct (start_streaming_step_failure d d1 r d' Hres Hrun) as [Hfw Hbw].
    split.
    + intros k e dk Hk. destruct (Hfw k e dk Hk) as [-> ->].
      split; [reflexivity|]. split; [|split; reflexivity].
      clear - Hk. unfold start_steps in Hk.
      repeat (destruct k as [|k]; [now destruct Hk | destruct Hk as (? & _ & Hk)]).
      destruct Hk.
    + intros R. destruct (Hbw R) as (k & e & dk & Hk).
      exists k, e, dk. split; [|split; [exact Hk | apply (Hfw k e dk Hk)]].
      clear - Hk. unfold start_steps in Hk.
      do 6 (destruct k as [|k]; [lia|]).
      cbn in Hk.
      repeat match goal with
             | H : exists _, _ |- _ => destruct H as (? & _ & H)
             end.
      destruct Hk.
Qed.

(** C4 as amended: stream stop always returns success, releases its
    power reference and un-grabs the link-frequency, vflip and hflip
    controls, whatever the outcome of the register clear; a failure of
    the clear is not returned to the caller. *)
Theorem stop_streaming_always_releases (d : ov64a40) :
  exists d',
    ov64a40_stop_streaming d = Some (0, d') /\
    usage_count d' = usage_count d - 1 /\
    (forall i, latched i = true -> grabbed d' i = false) /\
    log d' = log d ++ [EvUpdateBits OV64A40_REG_SMIA (u64 1) (u64 0)].
Proof.
  destruct (ov64a40_stop_streaming_run d) as (d' & H & Hc & _ & Hg & _ & _ & L).
  exists d'. auto.
Qed.

Lemma latched_grabbed_gate d id val :
  latched id = true -> grabbed d id = true -> ctrl_gate d id val = - EBUSY.
Proof.
  unfold grabbed, ctrl_gate. intros _ ->. reflexivity.
Qed.

Lemma ctrl_ranges_ok_ext d d' :
  link_frequencies d' = link_frequencies d ->
  (forall i, i <> V4L2_CID_EXPOSURE ->
     minimum (ctrl_handler d' i) = minimum (ctrl_handler d i) /\
     maximum (ctrl_handler d' i) = maximum (ctrl_handler d i)) ->
  ctrl_ranges_ok d' = ctrl_ranges_ok d.
Proof.
  intros Hl H. unfold ctrl_ranges_ok, link_freq. rewrite Hl.
  destruct (H V4L2_CID_LINK_FREQ) as [-> ->]; [discriminate|].
  destruct (H V4L2_CID_TEST_PATTERN) as [-> ->]; [discriminate|].
  reflexivity.
Qed.

Lemma s_ctrl_while_grabbed d id val :
  ctrl_ranges_ok d = true ->
  (forall i, latched i = true -> grabbed d i = true) ->
  exists r d',
    v4l2_ctrl_s_ctrl id val d = Some (r, d') /\
    ctrl_ranges_ok d' = true /\
    (forall i, latched i = true -> ctrl_handler d' i = ctrl_handler d i) /\
    (latched id = true -> r = - EBUSY /\ d' = d).
Proof.
  intros Hr Hg.
  destruct (Z.eq_dec (ctrl_gate d id val) 0) as [G|G].
  - assert (Hl : latched id = false).
    { destruct (latched id) eqn:L; [|reflexivity].
      rewrite (latched_grabbed_gate d id val L (Hg id L)) in G. discriminate. }
    destruct (ctrl_gate_open _ _ _ G) as (_ & _ & Hv).
    pose proof (ctrl_ranges_ok_arg d id val Hr Hv) as Hok.
    destruct (wp_elim _ _ _ (v4l2_ctrl_s_ctrl_spec d id val G Hok))
      as (r & d' & Hrun & d1 & E & _ & _ & C & Hn & Hz).
    exists r, d'. split; [exact Hrun|].
    assert (Hother : forall i, i <> V4L2_CID_EXPOSURE ->
              i <> id -> ctrl_handler d' i = ctrl_handler d i).
    { intros i Hi Hid.
      assert (H1 : ctrl_handler d1 i = ctrl_handler d i).
      { rewrite C. apply range_updated_other. intros _. exact Hi. }
      destruct (Z.eq_dec r 0) as [R|R].
      - rewrite (Hz R). cbn.
        destruct (v4l2_ctrl_id_eqb i id) eqn:Q; [|exact H1].
        apply v4l2_ctrl_id_eqb_eq in Q. contradiction.
      - now rewrite (Hn R). }
    assert (Hrange : forall i, i <> V4L2_CID_EXPOSURE ->
              minimum (ctrl_handler d' i) = minimum (ctrl_handler d i) /\
              maximum (ctrl_handler d' i) = maximum (ctrl_handler d i)).
    { intros i Hi.
      assert (H1 : ctrl_handler d1 i = ctrl_handler d i).
      { rewrite C. apply range_updated_other. intros _. exact Hi. }
      destruct (Z.eq_dec r 0) as [R|R].
      - rewrite (Hz R). cbn.
        destruct (v4l2_ctrl_id_eqb i id) eqn:Q; [|now rewrite H1].
        apply v4l2_ctrl_id_eqb_eq in Q. subst i. cbn. now rewrite H1.
      - now rewrite (Hn R), H1. }
    assert (Hfreq : link_frequencies d' = link_frequencies d).
    { destruct (Z.eq_dec r 0) as [R|R].
      - rewrite (Hz R). cbn. apply (fr_freqs _ _ (proj1 E)).
      - rewrite (Hn R). apply (fr_freqs _ _ (proj1 E)). }
    split; [now rewrite (ctrl_ranges_ok_ext d d')|].
    split; [|intros L; congruence].
    intros i Li. apply Hother.
    + intros ->. discriminate.
    + intros ->. congruence.
  - exists (ctrl_gate d id val), d.
    split; [now apply v4l2_ctrl_s_ctrl_refused|]. split; [exact Hr|].
    split; [reflexivity|]. intros L.
    split; [now apply latched_grabbed_gate; auto | reflexivity].
Qed.

Lemma control_writes_while_grabbed ws : forall d,
  ctrl_ranges_ok d = true ->
  (forall i, latched i = true -> grabbed d i = true) ->
  exists d',
    control_writes ws d = Some (tt, d') /\
    ctrl_ranges_ok d' = true /\
    (forall i, latched i = true -> ctrl_handler d' i = ctrl_handler d i).
Proof.
  induction ws as [|[id val] ws IH]; intros d Hr Hg.
  - exists d. auto.
  - destruct (s_ctrl_while_grabbed d id val Hr Hg) as (r & d1 & Hrun & Hr1 & Hc1 & _).
    assert (Hg1 : forall i, latched i = true -> grabbed d1 i = true).
    { intros i Li. unfold grabbed. rewrite (Hc1 i Li). now apply Hg. }
    destruct (IH d1 Hr1 Hg1) as (d2 & Hrun2 & Hr2 & Hc2).
    exists d2. split.
    + cbn [control_writes]. unfold bind. now rewrite Hrun.
    + split; [exact Hr2|]. intros i Li. rewrite (Hc2 i Li). now apply Hc1.
Qed.

(** C5: after a successful stream start and through any series of
    control writes that follows, every write to the link frequency, the
    vflip or the hflip control is refused with -EBUSY and leaves the
    device, and so the value of the control, as it was; on an idle device
    with a healthy bus the same writes succeed and store the value; and
    stream stop clears the grabbed flag of the three controls. *)
Theorem latched_controls_frozen_while_streaming (d : ov64a40) :
  ctrl_indices_ok d = true ->
  ctrl_ranges_ok d = true ->
  (exists r d1,
     ov64a40_start_streaming d = Some (r, d1) /\
     (r = 0 ->
      forall ws, exists d2,
        control_writes ws d1 = Some (tt, d2) /\
        forall id, latched id = true ->
          cur_val (ctrl_handler d2 id) = cur_val (ctrl_handler d id) /\
          forall val, v4l2_ctrl_s_ctrl id val d2 = Some (- EBUSY, d2))) /\
  (forall id val,
     latched id = true ->
     grabbed d id = false ->
     ctrl_flag_set (ctrl_handler d id) V4L2_CTRL_FLAG_READ_ONLY = false ->
     minimum (ctrl_handler d id) <= val <= maximum (ctrl_handler d id) ->
     healthy d ->
     exists d',
       v4l2_ctrl_s_ctrl id val d = Some (0, d') /\
       cur_val (ctrl_handler d' id) = val) /\
  (forall d2, exists d3,
     ov64a40_stop_streaming d2 = Some (0, d3) /\
     forall id, latched id = true -> grabbed d3 id = false).
Proof.
  intros Hi Hr. split; [|split].
  - destruct (wp_elim _ _ _ (ov64a40_start_streaming_spec d Hi))
      as (r & d1 & Hrun & (Hs & _ & _)).
    exists r, d1. split; [exact Hrun|]. intros R.
    destruct (Hs R) as (_ & _ & _ & _ & Hl & _ & Hg & _ & Hc & _).
    assert (Hr1 : ctrl_ranges_ok d1 = true).
    { rewrite (ctrl_ranges_ok_ext d d1); auto. intros i Hne.
      destruct (Hc i Hne) as (_ & ? & ?). auto. }
    intros ws.
    destruct (control_writes_while_grabbed ws d1 Hr1 Hg) as (d2 & Hrun2 & Hr2 & Hc2).
    exists d2. split; [exact Hrun2|]. intros id L. split.
    + rewrite (Hc2 id L). apply Hc. intros ->. discriminate.
    + intros val.
      assert (G : grabbed d2 id = true).
      { unfold grabbed. rewrite (Hc2 id L). now apply Hg. }
      rewrite <- (latched_grabbed_gate d2 id val L G).
      apply v4l2_ctrl_s_ctrl_refused.
      rewrite (latched_grabbed_gate d2 id val L G). discriminate.
  - intros id val L G RO Hv Hh.
    pose proof (ctrl_gate_closed d id val G RO Hv) as Hg.
    pose proof (ctrl_ranges_ok_arg d id val Hr Hv) as Hok.
    destruct (wp_elim _ _ _ (v4l2_ctrl_s_ctrl_spec d id val Hg Hok))
      as (r & d' & Hrun & d1 & E & Hz & _ & C & _ & Hst).
    assert (R : r = 0) by (apply Hz; [exact Hh | destruct id; auto; discriminate]).
    subst r. exists d'. split; [exact Hrun|].
    rewrite (Hst eq_refl). now rewrite with_ctrl_same.
  - intros d2.
    destruct (ov64a40_stop_streaming_run d2) as (d3 & H & _ & _ & Hg & _).
    exists d3. auto.
Qed.

(** *** Settle delay *)

(** A successful stream start ends by sleeping for the delay computed
    from the timing of the active mode and link frequency and from the
    exposure that is current at that point. *)
Lemma start_streaming_settle_delay (d : ov64a40) :
  ctrl_indices_ok d = true ->
  exists r d',
    ov64a40_start_streaming d = Some (r, d') /\
    (r = 0 ->
     exists t l,
       ov64a40_get_timings (cur_val (link_freq d)) d = Some (t, d) /\
       log d' = l ++ [EvSleep (stream_start_delay t (cur_val (exposure d')))]).
Proof.
  intros Hok.
  destruct (wp_elim _ _ _ (ov64a40_start_streaming_spec d Hok))
    as (r & d' & Hrun & (Hs & _ & _)).
  exists r, d'. split; [exact Hrun|]. intros R.
  destruct (Hs R) as (_ & _ & _ & _ & _ & _ & _ & _ & _ & f & Hf & L).
  exists (timings_for (mode d) f). eexists. split.
  - apply ov64a40_get_timings_run.
    unfold ctrl_indices_ok in Hok. apply andb_prop in Hok as [Hidx _].
    destruct (index_ok_get _ _ Hidx) as (f' & Hf' & Hfu). congruence.
  - rewrite L, !app_assoc. reflexivity.
Qed.

(** Where the 32-bit product does not wrap, the delay of the driver is
    the delay of the specification. *)
Lemma stream_start_delay_exact (t : ov64a40_timings) (e : Z) :
  1000000 <= OV64A40_XCLK_FREQ ->
  1000000 <= OV64A40_PIXEL_RATE < 2 ^ 31 ->
  0 <= ppl t -> 0 <= e ->
  4 * ppl t * e + OV64A40_PIXEL_RATE / 1000000 - 1 < 2 ^ 32 ->
  32 <= BITS_PER_LONG ->
  spec_settle_delay (ppl t) e < 2 ^ BITS_PER_LONG ->
  stream_start_delay t e = spec_settle_delay (ppl t) e.
Proof.
  intros Hx Hp Hl He Hw Hb Hs.
  unfold stream_start_delay, spec_settle_delay, ceil_div, DIV_ROUND_UP,
    DIV_ROUND_UP_uint, ulong in *.
  assert (Qx : Z.quot (Z.quot OV64A40_XCLK_FREQ 1000) 1000 = OV64A40_XCLK_FREQ / 1000000).
  { rewrite (Z.quot_div_nonneg OV64A40_XCLK_FREQ 1000) by lia.
    rewrite Z.quot_div_nonneg; [|apply Z.div_pos; lia|lia].
    rewrite Z.div_div by lia. reflexivity. }
  assert (Qp : Z.quot (Z.quot OV64A40_PIXEL_RATE 1000) 1000 = OV64A40_PIXEL_RATE / 1000000).
  { rewrite (Z.quot_div_nonneg OV64A40_PIXEL_RATE 1000) by lia.
    rewrite Z.quot_div_nonneg; [|apply Z.div_pos; lia|lia].
    rewrite Z.div_div by lia. reflexivity. }
  rewrite Qx, Qp.
  set (mx := OV64A40_XCLK_FREQ / 1000000) in *.
  set (mp := OV64A40_PIXEL_RATE / 1000000) in *.
  assert (Hmx : 1 <= mx) by (apply Z.div_le_lower_bound; lia).
  assert (Hmp : 1 <= mp) by (apply Z.div_le_lower_bound; lia).
  assert (Hprod : 0 <= 4 * ppl t * e) by (apply Z.mul_nonneg_nonneg; lia).
  assert (H32 : 2 ^ 32 <= 2 ^ BITS_PER_LONG) by (apply Z.pow_le_mono_r; lia).
  assert (Hn : u32 (u32 (ppl t * 4) * u32 e) = 4 * ppl t * e).
  { unfold u32. rewrite <- Z.mul_mod by lia.
    rewrite Z.mod_small by lia. lia. }
  rewrite Hn.
  assert (Hmp' : mp < 2 ^ 31) by (apply Z.div_lt_upper_bound; lia).
  assert (Hd : u32 mp = mp) by (apply u32_small; lia).
  rewrite Hd.
  rewrite (u32_small (4 * ppl t * e)) by lia.
  rewrite (u32_small (4 * ppl t * e + mp - 1)) by lia.
  rewrite !Z.quot_div_nonneg by lia.
  assert (Hq : 0 <= (4096 + mx - 1) / mx <= 4096).
  { split; [apply Z.div_pos; lia|].
    apply Z.div_le_upper_bound; [lia|]. nia. }
  rewrite (Z.mod_small ((4096 + mx - 1) / mx)) by lia.
  apply Z.mod_small. split; [|exact Hs].
  assert (0 <= (4 * ppl t * e + mp - 1) / mp) by (apply Z.div_pos; lia).
  lia.
Qed.

(** The delay depends on the exposure only through the product
    [ppl * 4 * exposure] modulo 2^32: two exposures whose products agree
    modulo 2^32 get the same delay, however far apart they are. *)
Lemma stream_start_delay_congruent (t : ov64a40_timings) (e e' : Z) :
  (ppl t * 4 * e) mod 2 ^ 32 = (ppl t * 4 * e') mod 2 ^ 32 ->
  stream_start_delay t e = stream_start_delay t e'.
Proof.
  intros H. unfold stream_start_delay.
  assert (Hu : forall x, u32 (u32 (ppl t * 4) * u32 x) = (ppl t * 4 * x) mod 2 ^ 32).
  { intros x. unfold u32. now rewrite <- Z.mul_mod by lia. }
  now rewrite !Hu, H.
Qed.

End Properties.

(** ** The properties on concrete devices *)

Section Concrete.

#[local] Existing Instance regs_h_sample.




(** The scenario of the specification: the blanking set to its maximum
    gives the exposure maximum [height + vblank_max - margin]; set back
    to its default it gives the original maximum again. *)
Lemma vblank_maximum_then_default :
  exists d1 d2,
    v4l2_ctrl_s_ctrl V4L2_CID_VBLANK (maximum (vblank sample_idle)) sample_idle
      = Some (0, d1) /\
    maximum (exposure d1) = 6944 + (16777215 - 6944) - 32 /\
    v4l2_ctrl_s_ctrl V4L2_CID_VBLANK (default_value (vblank sample_idle)) d1
      = Some (0, d2) /\
    maximum (exposure d2) = maximum (exposure sample_idle) /\
    maximum (exposure sample_idle) = 7072 - 32.
Proof.
  exists (run_on (v4l2_ctrl_s_ctrl V4L2_CID_VBLANK 16770271) sample_idle).
  exists (run_on (v4l2_ctrl_s_ctrl V4L2_CID_VBLANK 16770271 ;;;
                  v4l2_ctrl_s_ctrl V4L2_CID_VBLANK 128) sample_idle).
  split; [vm_compute; reflexivity|]. split; [reflexivity|].
  split; [vm_compute; reflexivity|]. split; reflexivity.
Qed.

(** Instance of C3 on the device whose bus fails the mode program: the
    second of the six steps fails with -EIO on its first write, and
    stream start returns that error with the reference released, no flag
    changed and nothing sent after the failed write. *)
Lemma start_streaming_failure_releases_witness :
  exists d',
    ov64a40_start_streaming sample_mode_program_fails = Some (- EIO, d') /\
    usage_count d' = usage_count sample_mode_program_fails /\
    (forall i, flags (ctrl_handler d' i) =
               flags (ctrl_handler sample_mode_program_fails i)) /\
    (forall i, grabbed sample_mode_program_fails i = false -> grabbed d' i = false) /\
    log d' = [EvSleep 5000; EvWrite 259 1; EvWrite 769 136; EvWrite 13569 27].
Proof.
  destruct (start_streaming_failure_releases sample_mode_program_fails)
    as (r & d' & E & _ & Hrel & Hstep); [reflexivity|].
  destruct (Hstep (run_on pm_runtime_resume_and_get sample_mode_program_fails))
    as [Hfw _]; [vm_compute; reflexivity|].
  destruct (Hfw 1%nat (- EIO)
              (run_on (pm_runtime_resume_and_get ;;;
                       cci_multi_reg_write ov64a40_init (ARRAY_SIZE ov64a40_init) 0 ;;;
                       cci_multi_reg_write (regvals (reglist mode_9248x6944))
                         (num_regs (reglist mode_9248x6944)) 0)
                      sample_mode_program_fails))
    as (Hr & Hne & _ & Hl).
  { cbn [fails_at start_steps].
    exists (run_on (pm_runtime_resume_and_get ;;;
                    cci_multi_reg_write ov64a40_init (ARRAY_SIZE ov64a40_init) 0)
                   sample_mode_program_fails).
    split; [vm_compute; reflexivity|].
    split; [vm_compute; reflexivity | discriminate]. }
  subst r. destruct (Hrel Hne) as (A & B & C).
  exists d'. split; [exact E|]. split; [exact A|]. split; [exact B|].
  split; [exact C|]. rewrite Hl. vm_compute. reflexivity.
Defined.

(** The scenario of the specification: the mode program (step 3) fails;
    stream start returns the I/O error of that step with the power
    reference released and nothing grabbed, and nothing is sent after
    the write that failed. *)
Lemma start_streaming_mode_program_failure :
  exists d1 dk d',
    pm_runtime_resume_and_get sample_mode_program_fails = Some (0, d1) /\
    fails_at (start_steps (mode sample_mode_program_fails)) 1 (- EIO) d1 dk /\
    ov64a40_start_streaming sample_mode_program_fails = Some (- EIO, d') /\
    usage_count d' = 0 /\
    (forall i, grabbed d' i = false) /\
    log d' = [EvSleep 5000; EvWrite 259 1; EvWrite 769 136; EvWrite 13569 27].
Proof.
  exists (run_on pm_runtime_resume_and_get sample_mode_program_fails).
  exists (run_on (pm_runtime_resume_and_get ;;;
                  cci_multi_reg_write ov64a40_init (ARRAY_SIZE ov64a40_init) 0 ;;;
                  cci_multi_reg_write (regvals (reglist mode_9248x6944))
                    (num_regs (reglist mode_9248x6944)) 0)
                 sample_mode_program_fails).
  exists (run_on ov64a40_start_streaming sample_mode_program_fails).
  split; [vm_compute; reflexivity|].
  split.
  { cbn [fails_at start_steps].
    exists (run_on (pm_runtime_resume_and_get ;;;
                    cci_multi_reg_write ov64a40_init (ARRAY_SIZE ov64a40_init) 0)
                   sample_mode_program_fails).
    split; [vm_compute; reflexivity|].
    split; [vm_compute; reflexivity | discriminate]. }
  split; [vm_compute; reflexivity|]. split; [reflexivity|].
  split; [|reflexivity]. intros i. destruct i; reflexivity.
Qed.

(** C4, the counterexample: on a streaming device whose bus fails the
    register clear, stream stop does not report the failure. *)
Lemma stop_streaming_swallows_clear_failure :
  ~ stop_reports_clear_failure sample_streaming_bus_down.
Proof.
  unfold stop_reports_clear_failure. intros H.
  destruct H as (r & d' & Hrun & Hr); [vm_compute; discriminate|].
  destruct (ov64a40_stop_streaming_run sample_streaming_bus_down)
    as (d'' & Hrun' & _).
  rewrite Hrun' in Hrun. injection Hrun as <- _. now apply Hr.
Qed.

(** Instance of C5 on the sample device. *)
Lemma latched_controls_frozen_while_streaming_witness :
  (exists r d1,
     ov64a40_start_streaming sample_idle = Some (r, d1) /\
     (r = 0 ->
      forall ws, exists d2,
        control_writes ws d1 = Some (tt, d2) /\
        forall id, latched id = true ->
          cur_val (ctrl_handler d2 id) = cur_val (ctrl_handler sample_idle id) /\
          forall val, v4l2_ctrl_s_ctrl id val d2 = Some (- EBUSY, d2))) /\
  (forall id val,
     latched id = true ->
     grabbed sample_idle id = false ->
     ctrl_flag_set (ctrl_handler sample_idle id) V4L2_CTRL_FLAG_READ_ONLY = false ->
     minimum (ctrl_handler sample_idle id) <= val <= maximum (ctrl_handler sample_idle id) ->
     healthy sample_idle ->
     exists d',
       v4l2_ctrl_s_ctrl id val sample_idle = Some (0, d') /\
       cur_val (ctrl_handler d' id) = val) /\
  (forall d2, exists d3,
     ov64a40_stop_streaming d2 = Some (0, d3) /\
     forall id, latched id = true -> grabbed d3 id = false).
Proof.
  apply (latched_controls_frozen_while_streaming sample_idle); reflexivity.
Defined.

(** On the sample device stream start succeeds, so the frozen state of
    the previous lemma is reached; a flip write is then refused. *)
Lemma hflip_write_refused_while_streaming :
  exists d1,
    ov64a40_start_streaming sample_idle = Some (0, d1) /\
    v4l2_ctrl_s_ctrl V4L2_CID_HFLIP 1 d1 = Some (- EBUSY, d1) /\
    exists d', v4l2_ctrl_s_ctrl V4L2_CID_HFLIP 1 sample_idle = Some (0, d').
Proof.
  exists (run_on ov64a40_start_streaming sample_idle).
  split; [vm_compute; reflexivity|]. split; [vm_compute; reflexivity|].
  eexists. vm_compute. reflexivity.
Qed.

(** Instance of C6 where the only negotiated frequency, at index 0, is 360 MHz. *)
Lemma get_timings_selects_by_frequency_value_witness :
  exists t,
    ov64a40_get_timings 0 (sample_device [360000000] no_fault)
      = Some (t, sample_device [360000000] no_fault) /\
    (360000000 = OV64A40_LINK_FREQ_360M ->
     t = timings_default (mode (sample_device [360000000] no_fault))
           OV64A40_LINK_FREQ_360M_ID) /\
    (360000000 <> OV64A40_LINK_FREQ_360M ->
     t = timings_default (mode (sample_device [360000000] no_fault))
           OV64A40_LINK_FREQ_456M_ID).
Proof.
  apply (get_timings_selects_by_frequency_value
           (sample_device [360000000] no_fault) 0 360000000).
  - lia.
  - reflexivity.
Defined.

(** Instance of C7 for the full-resolution mode at 456 MHz. *)
Lemma program_geometry_write_sequence_witness :
  exists d',
    ov64a40_program_geometry sample_idle = Some (0, d') /\
    log d' = log sample_idle ++
      [ EvWrite OV64A40_REG_TIMING_CTRL0 0;
        EvWrite OV64A40_REG_TIMING_CTRL2 0;
        EvWrite OV64A40_REG_TIMING_CTRL4 (0 + 9280 - 1);
        EvWrite OV64A40_REG_TIMING_CTRL6 (0 + 6976 - 1);
        EvWrite OV64A40_REG_TIMING_CTRL10 17;
        EvWrite OV64A40_REG_TIMING_CTRL12 16;
        EvWrite OV64A40_REG_TIMING_CTRL8 9248;
        EvWrite OV64A40_REG_TIMING_CTRLA 6944;
        EvWrite OV64A40_REG_TIMING_CTRLC 4072;
        EvWrite OV64A40_REG_TIMING_CTRLE 7072 ].
Proof.
  apply (program_geometry_write_sequence sample_idle {| vts := 7072; ppl := 4072 |}).
  - left. reflexivity.
  - reflexivity.
  - intros n. reflexivity.
Defined.

(** Instance of C9 on the runtime-suspended sample device. *)
Lemma unpowered_control_write_is_deferred_witness :
  (forall id val,
     exists d',
       ov64a40_set_ctrl id val sample_idle = Some (0, d') /\
       log d' = log sample_idle /\ regs d' = regs sample_idle) /\
  (forall id val,
     grabbed sample_idle id = false ->
     ctrl_flag_set (ctrl_handler sample_idle id) V4L2_CTRL_FLAG_READ_ONLY = false ->
     minimum (ctrl_handler sample_idle id) <= val <= maximum (ctrl_handler sample_idle id) ->
     exists d',
       v4l2_ctrl_s_ctrl id val sample_idle = Some (0, d') /\
       cur_val (ctrl_handler d' id) = val /\
       log d' = log sample_idle) /\
  (forall val,
     minimum (exposure sample_idle) <= cur_val (exposure sample_idle) ->
     minimum (exposure sample_idle)
       <= s32 (height (mode sample_idle) + val - OV64A40_EXPOSURE_MARGIN) ->
     exists d',
       ov64a40_set_ctrl V4L2_CID_VBLANK val sample_idle = Some (0, d') /\
       minimum (exposure d') = minimum (exposure sample_idle) /\
       maximum (exposure d') =
         s32 (height (mode sample_idle) + val - OV64A40_EXPOSURE_MARGIN) /\
       log d' = log sample_idle) /\
  (ctrl_indices_ok sample_idle = true -> handler_ok sample_idle = true ->
   power_ok sample_idle = true -> healthy sample_idle ->
   exists d' before after,
     ov64a40_start_streaming sample_idle = Some (0, d') /\
     log d' = log sample_idle ++ before ++ replay_events sample_idle ++ after).
Proof.
  apply (unpowered_control_write_is_deferred sample_idle). reflexivity.
Defined.

(** The replay of the sample device, written out: PLL table, test
    pattern, exposure, the three bytes of the frame length, gain, and the
    two flips. *)
Lemma replay_events_sample :
  replay_events sample_idle =
  [ EvWrite 772 0; EvWrite 773 152; EvWrite 20673 0; EvWrite 13568 16;
    EvWrite 16424 7072; EvWrite 16425 27; EvWrite 16426 0; EvWrite 13576 256;
    EvUpdateBits 14369 4 4; EvUpdateBits 14368 4 0 ].
Proof. vm_compute. reflexivity. Qed.

(** Instance of C10: a flip value of 1 on the powered sample device. *)
Lemma hflip_write_inverts_polarity_witness :
  exists d',
    ov64a40_set_ctrl V4L2_CID_HFLIP 1 sample_powered = Some (0, d') /\
    log d' = log sample_powered ++
      [EvUpdateBits OV64A40_REG_TIMING_CTRL_21 OV64A40_TIMING_CTRL_21_HFLIP
         (if 1 =? 1 then 0 else OV64A40_TIMING_CTRL_21_HFLIP)] /\
    Z.b2z (Z.testbit (regs d' OV64A40_REG_TIMING_CTRL_21) 2) = 1 - 1 /\
    Z.b2z (Z.testbit (regs d' OV64A40_REG_TIMING_CTRL_21) 2) <> 1 /\
    (forall j, j <> 2 ->
       Z.testbit (regs d' OV64A40_REG_TIMING_CTRL_21) j =
       Z.testbit (regs sample_powered OV64A40_REG_TIMING_CTRL_21) j).
Proof.
  apply (hflip_write_inverts_polarity sample_powered 1 2).
  - reflexivity.
  - reflexivity.
  - lia.
  - reflexivity.
  - right. reflexivity.
Defined.

(** C2, the failing input: with a long exposure the 32-bit product
    [ppl * 4 * exposure] wraps, and stream start sleeps for 3176947
    microseconds where the delay of the specification is 17493505. *)
Theorem stream_start_delay_wraps_for_long_exposure :
  exists d',
    ov64a40_start_streaming sample_long_exposure = Some (0, d') /\
    cur_val (exposure d') = 250000 /\
    ov64a40_get_timings (cur_val (link_freq d')) d'
      = Some ({| vts := 7072; ppl := 5248 |}, d') /\
    last (log d') (EvSleep 0) = EvSleep 3176947 /\
    spec_settle_delay 5248 250000 = 17493505.
Proof.
  exists (run_on ov64a40_start_streaming sample_long_exposure).
  split; [vm_compute; reflexivity|]. split; [reflexivity|].
  split; [vm_compute; reflexivity|]. split; reflexivity.
Qed.

End Concrete.

(** ** Properties of the rest of the driver *)

Section PropertiesRest.

Context `{hdr : ov64a40_regs_h} `{pad : ov64a40_regs_h_pad}.

(** *** Power callbacks *)

(** X1: [ov64a40_power_on] is all or nothing.  Entered with the clock
    off it always returns; it succeeds exactly when neither the clock nor
    the regulators report a fault, and then the clock and the supplies
    are on, the reset line is released and 5 ms have been slept; when it
    fails the clock is off again, the supplies and the reset line are as
    they were and nothing was slept. *)
Theorem power_on_all_or_nothing (d : ov64a40) :
  xclk_enabled d = false ->
  exists r d',
    ov64a40_power_on d = Some (r, d') /\
    r <= 0 /\
    (r = 0 <-> (clk_fault d = 0 /\ regulator_fault d = 0)%N) /\
    (r = 0 ->
     xclk_enabled d' = true /\ supplies_enabled d' = true /\
     reset_gpio d' = 0 /\ log d' = log d ++ [EvSleep 5000]) /\
    (r <> 0 ->
     xclk_enabled d' = false /\ supplies_enabled d' = supplies_enabled d /\
     reset_gpio d' = reset_gpio d /\ log d' = log d).
Proof.
  intros Hoff. unfold ov64a40_power_on, bind, clk_prepare_enable.
  destruct (clk_fault d =? 0)%N eqn:C.
  - apply N.eqb_eq in C. cbn.
    unfold regulator_bulk_enable. cbn.
    destruct (regulator_fault d =? 0)%N eqn:R.
    + apply N.eqb_eq in R. cbn. eexists _, _. split; [reflexivity|].
      cbn. repeat split; try lia; auto.
    + apply N.eqb_neq in R. cbn.
      assert (Hr : - Z.of_N (regulator_fault d) <> 0) by lia.
      apply Z.eqb_neq in Hr. rewrite Hr. cbn.
      apply Z.eqb_neq in Hr.
      eexists _, _. split; [reflexivity|]. cbn.
      repeat split; try lia; auto; try tauto.
  - apply N.eqb_neq in C.
    assert (Hr : - Z.of_N (clk_fault d) <> 0) by lia.
    apply Z.eqb_neq in Hr. rewrite Hr. cbn. apply Z.eqb_neq in Hr.
    eexists _, _. split; [reflexivity|].
    repeat split; try lia; auto; try tauto.
Qed.

(** X2: power-off undoes power-on.  On a device that is off (clock and
    supplies off, reset asserted), a successful [ov64a40_power_on]
    followed by [ov64a40_power_off] returns 0 and leaves the device
    exactly as it was, the 5 ms sleep of the power-up apart. *)
Theorem power_off_undoes_power_on (d d1 : ov64a40) :
  xclk_enabled d = false ->
  supplies_enabled d = false ->
  reset_gpio d = 1 ->
  ov64a40_power_on d = Some (0, d1) ->
  ov64a40_power_off d1 =
    Some (0, with_bus d (regs d) (log d ++ [EvSleep 5000])).
Proof.
  destruct d as [m lf ch rg bf cf rf xe se gp uc ra lg]. cbn.
  intros Hc Hs Hg. subst xe se gp.
  unfold ov64a40_power_on, bind, clk_prepare_enable. cbn.
  destruct (cf =? 0)%N eqn:C.
  - cbn. unfold regulator_bulk_enable. cbn.
    destruct (rf =? 0)%N eqn:R.
    + cbn. intros E. injection E as <-. reflexivity.
    + cbn. apply N.eqb_neq in R.
      destruct (- Z.of_N rf =? 0) eqn:Z0.
      * apply Z.eqb_eq in Z0. lia.
      * cbn. intros E. injection E as E _. lia.
  - apply N.eqb_neq in C.
    destruct (- Z.of_N cf =? 0) eqn:Z0.
    + apply Z.eqb_eq in Z0. lia.
    + cbn. intros E. injection E as E _. lia.
Qed.

(** *** The control callback *)

(** X3: a control write through [ov64a40_set_ctrl] keeps the books
    balanced whatever the bus answers: it returns, the runtime-PM usage
    counter and power status are as before, so are the mode, the
    frequency table and every control flag, and no control other than
    the exposure has changed. *)
Theorem set_ctrl_releases_power_reference (d : ov64a40) (id : v4l2_ctrl_id) (val : Z) :
  ctrl_arg_ok d id val = true ->
  exists r d',
    ov64a40_set_ctrl id val d = Some (r, d') /\
    usage_count d' = usage_count d /\
    rpm_active d' = rpm_active d /\
    mode d' = mode d /\
    link_frequencies d' = link_frequencies d /\
    (forall i, flags (ctrl_handler d' i) = flags (ctrl_handler d i)) /\
    (forall i, i <> V4L2_CID_EXPOSURE -> ctrl_handler d' i = ctrl_handler d i) /\
    (id <> V4L2_CID_VBLANK -> ctrl_handler d' = ctrl_handler d).
Proof.
  intros Hok.
  destruct (wp_elim _ _ _ (ov64a40_set_ctrl_spec id val d Hok))
    as (r & d' & E & (F & _) & _ & _ & C).
  exists r, d'. split; [exact E|].
  destruct F as [Fm Ff _ Ffl Fc Fu Fa _].
  repeat (split; [assumption|]).
  intros Hid. rewrite C. destruct id; try reflexivity. congruence.
Qed.

(** X4: the frame length reaches the sensor split into three bytes.  On
    a powered device with a healthy bus, a vertical-blanking write whose
    frame length [val + height] fits 24 bits sends exactly three writes,
    to the low, middle and high frame-length registers, and the low bytes
    of the three values written put together give the frame length. *)
Theorem vblank_write_splits_frame_length (d : ov64a40) (val : Z) :
  rpm_active d = true ->
  healthy d ->
  0 <= val + height (mode d) < 2 ^ 24 ->
  exists d' lo mid hi,
    ov64a40_set_ctrl V4L2_CID_VBLANK val d = Some (0, d') /\
    log d' = log d ++ [ EvWrite OV64A40_REG_TIMINGS_VTS_LOW lo;
                        EvWrite OV64A40_REG_TIMINGS_VTS_MID mid;
                        EvWrite OV64A40_REG_TIMINGS_VTS_HIGH hi ] /\
    lo mod 256 + 256 * (mid mod 256) + 65536 * (hi mod 256)
      = val + height (mode d).
Proof.
  intros A Hh Hv.
  destruct (wp_elim _ _ _ (ov64a40_set_ctrl_spec V4L2_CID_VBLANK val d eq_refl))
    as (r & d' & E & (_ & Hl) & H0 & _ & _).
  assert (r = 0) by (apply H0; auto). subst r.
  destruct (Hl eq_refl) as (_ & _ & L). rewrite A in L. cbn [ctrl_events] in L.
  eexists d', _, _, _. split; [exact E|]. split; [exact L|].
  set (v := val + height (mode d)) in *.
  rewrite (s32_small v) by lia.
  rewrite !Z.shiftr_div_pow2 by lia.
  assert (0 <= v / 2 ^ 8 < 2 ^ 16).
  { split; [apply Z.div_pos; lia|]. apply Z.div_lt_upper_bound; lia. }
  assert (0 <= v / 2 ^ 16 < 2 ^ 8).
  { split; [apply Z.div_pos; lia|]. apply Z.div_lt_upper_bound; lia. }
  rewrite !u64_small by lia.
  change (2 ^ 8) with 256 in *. change (2 ^ 16) with 65536 in *.
  pose proof (Z.div_mod v 256 ltac:(lia)).
  pose proof (Z.div_mod (v / 256) 256 ltac:(lia)).
  assert (v / 256 / 256 = v / 65536) by (rewrite Z.div_div by lia; reflexivity).
  rewrite (Z.mod_small (v / 65536) 256) by lia.
  lia.
Qed.

(** X5: the vertical flip is written with direct polarity.  When the
    flip bit of timing control 0x20 is bit 2, a write of 0 or 1 to the
    vertical-flip control on a powered device whose bus accepts the
    transaction leaves that bit equal to the value written and every
    other bit of the register as it was. *)
Theorem vflip_write_direct_polarity (d : ov64a40) (val : Z) :
  rpm_active d = true ->
  bus_fault d (length (log d)) = 0 ->
  OV64A40_TIMING_CTRL_20_VFLIP = 4 ->
  val = 0 \/ val = 1 ->
  exists d',
    ov64a40_set_ctrl V4L2_CID_VFLIP val d = Some (0, d') /\
    Z.b2z (Z.testbit (regs d' OV64A40_REG_TIMING_CTRL_20) 2) = val /\
    (forall j, j <> 2 ->
       Z.testbit (regs d' OV64A40_REG_TIMING_CTRL_20) j =
       Z.testbit (regs d OV64A40_REG_TIMING_CTRL_20) j) /\
    usage_count d' = usage_count d.
Proof.
  intros A B Hmask Hval.
  remember 2 as k eqn:Hk in |- *.
  assert (Hbit : Z.testbit 4 k = true) by (subst k; reflexivity).
  assert (Hoth : forall j, j <> k -> Z.testbit 4 j = false).
  { intros j Hj. change 4 with (2 ^ 2). apply Z.pow2_bits_false. lia. }
  clear Hk.
  unfold ov64a40_set_ctrl, bind, get, pm_runtime_get_if_active, modify, ret,
    cci_update_bits, pm_runtime_mark_last_busy, pm_runtime_put_autosuspend.
  cbn. rewrite A. cbn. rewrite B. cbn. rewrite Hmask.
  eexists. split; [reflexivity|]. cbn. rewrite Z.eqb_refl.
  change (u64 4) with 4.
  destruct Hval as [-> | ->].
  - change (Z.land (u64 (s32 0)) 4) with 0.
    rewrite Z.lor_0_r.
    split; [|split; [|lia]].
    + rewrite Z.ldiff_spec, Hbit, andb_false_r. reflexivity.
    + intros j Hj. rewrite Z.ldiff_spec, (Hoth j Hj). cbn. now rewrite andb_true_r.
  - change (Z.land (u64 (s32 4)) 4) with 4.
    split; [|split; [|lia]].
    + rewrite Z.lor_spec, Hbit, orb_true_r. reflexivity.
    + intros j Hj. rewrite Z.lor_spec, Z.ldiff_spec, (Hoth j Hj).
      cbn. now rewrite andb_true_r, orb_false_r.
Qed.

(** X6: a control without a register is refused only on a powered
    device.  For the pixel rate and the horizontal blanking
    [ov64a40_set_ctrl] sends nothing to the bus and restores the usage
    counter; it returns -EINVAL when the device is powered, and 0 when it
    is not. *)
Theorem set_ctrl_unhandled_control (d : ov64a40) (id : v4l2_ctrl_id) (val : Z) :
  has_register id = false ->
  exists d',
    ov64a40_set_ctrl id val d
      = Some (if rpm_active d then - EINVAL else 0, d') /\
    log d' = log d /\ regs d' = regs d /\
    usage_count d' = usage_count d /\
    ctrl_handler d' = ctrl_handler d.
Proof.
  intros Hid.
  unfold ov64a40_set_ctrl, bind, get, pm_runtime_get_if_active, modify, ret,
    pm_runtime_mark_last_busy, pm_runtime_put_autosuspend.
  destruct id; try discriminate; cbn; destruct (rpm_active d); cbn;
    eexists; (split; [reflexivity|]); cbn; repeat split; lia.
Qed.

Lemma array_get_none {A : Type} (a : list A) i :
  array_get a i = None <-> ~ (0 <= i < Z.of_nat (length a)).
Proof.
  unfold array_get. destruct (i <? 0) eqn:N.
  - apply Z.ltb_lt in N. split; [lia | reflexivity].
  - apply Z.ltb_ge in N. rewrite nth_error_None. lia.
Qed.

Lemma index_ok_bounds {A : Type} (a : list A) i :
  i < 2 ^ 32 ->
  index_ok a i = true <-> 0 <= i < Z.of_nat (length a).
Proof.
  intros Hi. unfold index_ok. rewrite !andb_true_iff, Z.leb_le, !Z.ltb_lt. lia.
Qed.

(** X7: the driver does not check a menu index itself.  On a powered
    device a write through [ov64a40_set_ctrl] reads outside an array
    (the execution is undefined) exactly when the control is the test
    pattern and the value is not one of the five patterns, or the control
    is the link frequency and the value is not an index of the frequency
    table. *)
Theorem set_ctrl_menu_index_unchecked (d : ov64a40) (id : v4l2_ctrl_id) (val : Z) :
  rpm_active d = true ->
  - 2 ^ 31 <= val < 2 ^ 31 ->
  ov64a40_set_ctrl id val d = None <->
  (id = V4L2_CID_TEST_PATTERN /\ ~ (0 <= val < 5)) \/
  (id = V4L2_CID_LINK_FREQ /\
   ~ (0 <= val < Z.of_nat (length (link_frequencies d)))).
Proof.
  intros A Hv.
  assert (Hv' : val < 2 ^ 32) by lia.
  destruct (ctrl_arg_ok d id val) eqn:Hok.
  - destruct (wp_elim _ _ _ (ov64a40_set_ctrl_spec id val d Hok))
      as (r & d' & E & _).
    split; [rewrite E; discriminate|].
    intros [[-> Hb] | [-> Hb]]; cbn in Hok;
      apply index_ok_bounds in Hok; auto; cbn in Hok; lia.
  - assert (Hcase :
      (id = V4L2_CID_TEST_PATTERN /\ ~ (0 <= val < 5)) \/
      (id = V4L2_CID_LINK_FREQ /\
       ~ (0 <= val < Z.of_nat (length (link_frequencies d))))).
    { destruct id; cbn in Hok; try discriminate.
      - right. split; [reflexivity|]. intros Hb.
        apply (index_ok_bounds _ _ Hv') in Hb. congruence.
      - left. split; [reflexivity|]. intros Hb.
        assert (index_ok ov64a40_test_pattern_val val = true)
          by (apply index_ok_bounds; auto). congruence. }
    split; [intros _; exact Hcase|]. intros _.
    destruct Hcase as [[-> Hb] | [-> Hb]].
    + assert (N : array_get ov64a40_test_pattern_val val = None)
        by (apply array_get_none; exact Hb).
      unfold ov64a40_set_ctrl, bind, get, pm_runtime_get_if_active, modify, ret.
      cbn. rewrite A. cbn. rewrite N. reflexivity.
    + assert (N : array_get (link_frequencies d) val = None)
        by (apply array_get_none; exact Hb).
      unfold ov64a40_set_ctrl, pm_runtime_get_if_active.
      unfold bind at 1. unfold get at 1. unfold bind at 1. unfold ret at 1.
      unfold bind at 1. unfold bind at 1. unfold get at 1. rewrite A.
      unfold bind at 1. unfold modify at 1. unfold ret at 1.
      cbn [Z.eqb]. unfold bind at 1.
      unfold ov64a40_link_freq_config. unfold bind at 1. unfold get at 1.
      set (d1 := with_pm d (usage_count d + 1) (rpm_active d)).
      unfold bind at 1.
      destruct (wp_elim _ _ _ (cci_multi_reg_write_spec ov64a40_pll_config d1))
        as (r & d2 & E & _).
      rewrite E. unfold bind at 1.
      change (link_frequencies d1) with (link_frequencies d). rewrite N.
      reflexivity.
Qed.

(** *** Register programs under bus failures *)

Lemma transmit_ok fault evs : forall n,
  fst (transmit fault n evs) = 0 -> snd (transmit fault n evs) = evs.
Proof.
  induction evs as [|e evs IH]; intros n; [reflexivity|].
  cbn [transmit].
  destruct (match e with EvSleep _ => true | _ => fault n =? 0 end) eqn:K.
  - specialize (IH (S n)). destruct (transmit fault (S n) evs) as [r s].
    cbn in *. intros H. now rewrite IH.
  - cbn. intros H. destruct e; try discriminate;
      apply Z.eqb_neq in K; contradiction.
Qed.

Lemma transmit_app fault l1 l2 : forall n,
  transmit fault n (l1 ++ l2) =
  if fst (transmit fault n l1) =? 0
  then (fst (transmit fault (n + length l1) l2),
        snd (transmit fault n l1) ++ snd (transmit fault (n + length l1) l2))
  else transmit fault n l1.
Proof.
  induction l1 as [|e l1 IH]; intros n.
  - cbn. rewrite Nat.add_0_r. now destruct (transmit fault n l2).
  - cbn [app transmit length].
    destruct (match e with EvSleep _ => true | _ => fault n =? 0 end) eqn:K.
    + rewrite IH. replace (n + S (length l1))%nat with (S n + length l1)%nat by lia.
      destruct (transmit fault (S n) l1) as [r s]. cbn [fst snd].
      destruct (r =? 0); reflexivity.
    + cbn [fst]. destruct (fault n =? 0) eqn:Z0; [|reflexivity].
      destruct e; discriminate.
Qed.

Lemma xmit_skip d e : xmit d e [] e d.
Proof.
  split; [apply frame_refl|]. destruct (e =? 0) eqn:E.
  - apply Z.eqb_eq in E. subst. cbn. now rewrite app_nil_r.
  - reflexivity.
Qed.

Lemma xmit_trans d1 d2 d3 e0 e1 e2 l1 l2 :
  xmit d1 e0 l1 e1 d2 -> xmit d2 e1 l2 e2 d3 -> xmit d1 e0 (l1 ++ l2) e2 d3.
Proof.
  intros [F1 H1] [F2 H2]. split; [exact (frame_trans _ _ _ F1 F2)|].
  rewrite (fr_fault _ _ F1) in H2.
  destruct (e0 =? 0) eqn:E0.
  - injection H1 as R1 L1. rewrite transmit_app.
    rewrite <- R1.
    destruct (e1 =? 0) eqn:E1.
    + rewrite H2. apply Z.eqb_eq in E1.
      rewrite (transmit_ok _ _ _ (eq_trans (eq_sym R1) E1)) in L1 |- *.
      cbn [fst snd]. rewrite L1, length_app, app_assoc. reflexivity.
    + rewrite H2, L1, R1. now destruct (transmit (bus_fault d1) (length (log d1)) l1).
  - injection H1 as R1 L1. subst e1. rewrite E0 in H2. now rewrite H2, L1.
Qed.

Lemma cci_write_xmit reg val err d :
  wp (cci_write reg val err) (xmit d err [EvWrite reg (u64 val)]) d.
Proof.
  unfold wp, cci_write, xmit.
  destruct (err =? 0) eqn:E.
  - cbn [transmit].
    destruct (bus_fault d (length (log d)) =? 0) eqn:F.
    + apply Z.eqb_eq in F. split; [apply frame_bus | reflexivity].
    + split; [apply frame_bus | reflexivity].
  - split; [apply frame_refl | reflexivity].
Qed.

Lemma cci_update_bits_xmit reg mask val err d :
  wp (cci_update_bits reg mask val err)
     (xmit d err [EvUpdateBits reg (u64 mask) (u64 val)]) d.
Proof.
  unfold wp, cci_update_bits, xmit.
  destruct (err =? 0) eqn:E.
  - cbn [transmit].
    destruct (bus_fault d (length (log d)) =? 0) eqn:F.
    + apply Z.eqb_eq in F. split; [apply frame_bus | reflexivity].
    + split; [apply frame_bus | reflexivity].
  - split; [apply frame_refl | reflexivity].
Qed.

Lemma cci_multi_reg_write_loop_xmit table d :
  wp (cci_multi_reg_write_loop table 0) (xmit d 0 (table_events table)) d.
Proof.
  revert d. induction table as [|e table IH]; intros d.
  - apply wp_ret, xmit_skip.
  - cbn [cci_multi_reg_write_loop]. apply wp_bind.
    eapply wp_mono; [apply cci_write_xmit|]. intros r d1 H1. cbn beta.
    change (table_events (e :: table))
      with ([EvWrite (seq_reg e) (u64 (seq_val e))] ++ table_events table).
    destruct (r =? 0) eqn:E.
    + apply Z.eqb_eq in E. subst r.
      eapply wp_mono; [apply IH|]. intros r d2 H2.
      eapply xmit_trans; eauto.
    + apply wp_ret.
      apply (xmit_trans _ _ _ _ _ _ _ _ H1).
      split; [apply frame_refl|]. now rewrite E.
Qed.

Lemma cci_multi_reg_write_xmit table d :
  wp (cci_multi_reg_write table (ARRAY_SIZE table) 0) (xmit d 0 (table_events table)) d.
Proof.
  unfold cci_multi_reg_write. rewrite firstn_ARRAY_SIZE.
  apply cci_multi_reg_write_loop_xmit.
Qed.

Lemma transmit_all_accepted fault evs : forall n,
  bus_only evs = true ->
  (forall j, (j < length evs)%nat -> fault (n + j)%nat = 0) ->
  transmit fault n evs = (0, evs).
Proof.
  induction evs as [|e evs IH]; intros n B H; [reflexivity|].
  cbn [transmit]. cbn in B. apply andb_true_iff in B as [Be B].
  pose proof (H 0%nat ltac:(cbn; lia)) as H0. rewrite Nat.add_0_r in H0.
  rewrite H0. cbn [Z.eqb].
  rewrite (IH (S n) B).
  - now destruct e.
  - intros j Hj. replace (S n + j)%nat with (n + S j)%nat by lia.
    apply H. cbn. lia.
Qed.

Lemma transmit_first_failure fault evs : forall n k,
  bus_only evs = true ->
  (k < length evs)%nat ->
  (forall j, (j < k)%nat -> fault (n + j)%nat = 0) ->
  fault (n + k)%nat <> 0 ->
  transmit fault n evs = (fault (n + k)%nat, firstn (S k) evs).
Proof.
  induction evs as [|e evs IH]; intros n k B Hk H Hf; [cbn in Hk; lia|].
  cbn in B. apply andb_true_iff in B as [Be B].
  cbn [transmit]. destruct k as [|k].
  - rewrite Nat.add_0_r in *. apply Z.eqb_neq in Hf. rewrite Hf.
    destruct e; try discriminate; reflexivity.
  - pose proof (H 0%nat ltac:(lia)) as H0. rewrite Nat.add_0_r in H0.
    rewrite H0. cbn [Z.eqb].
    rewrite (IH (S n) k B).
    + replace (S n + k)%nat with (n + S k)%nat by lia. now destruct e.
    + cbn in Hk. lia.
    + intros j Hj. replace (S n + j)%nat with (n + S j)%nat by lia.
      apply H. lia.
    + replace (S n + k)%nat with (n + S k)%nat by lia. exact Hf.
Qed.

Lemma xmit_first_failure d evs r d' :
  bus_only evs = true -> xmit d 0 evs r d' -> first_failure d evs r d'.
Proof.
  intros B [_ H]. cbn [Z.eqb] in H. injection H as R L. split.
  - intros Hall. rewrite (transmit_all_accepted _ _ _ B Hall) in R, L. auto.
  - intros k Hk Hbefore Hfail.
    rewrite (transmit_first_failure _ _ _ k B Hk Hbefore Hfail) in R, L. auto.
Qed.

Lemma bus_only_table t : bus_only (table_events t) = true.
Proof. induction t; [reflexivity | assumption]. Qed.

Ltac xmit_step lemma Hacc :=
  apply wp_bind; eapply wp_mono; [apply lemma|];
  let r := fresh "r" in let d' := fresh "d" in let H := fresh "Hstep" in
  intros r d' H; cbn beta;
  apply (xmit_trans _ _ _ _ _ _ _ _ Hacc) in H; clear Hacc; rename H into Hacc.

Lemma wp_both {A : Type} (m : M A) (Q1 Q2 : A -> ov64a40 -> Prop) d :
  wp m Q1 d -> wp m Q2 d -> wp m (fun a d' => Q1 a d' /\ Q2 a d') d.
Proof. unfold wp. destruct (m d) as [[a d']|]; auto. Qed.

(** X8: the geometry program stops at the first bus failure.  With the
    current link-frequency index inside the frequency table,
    [ov64a40_program_geometry] returns; when the bus accepts all ten
    writes the result is 0 and all ten are logged in order; when the
    [k]-th is the first to fail the result is the error of that write and
    no later write was sent.  The mode, the frequency table, every
    control (value, range and flags) and the power reference are as
    before. *)
Theorem program_geometry_stops_at_first_failure (d : ov64a40) (f : Z) :
  array_get (link_frequencies d) (u32 (cur_val (link_freq d))) = Some f ->
  exists r d',
    ov64a40_program_geometry d = Some (r, d') /\
    first_failure d (geometry_events (mode d) (timings_for (mode d) f)) r d' /\
    frame d d' /\
    mode d' = mode d /\
    link_frequencies d' = link_frequencies d /\
    ctrl_handler d' = ctrl_handler d /\
    usage_count d' = usage_count d /\
    rpm_active d' = rpm_active d.
Proof.
  intros Hf. apply wp_elim.
  eapply wp_mono with
    (Q := fun r d' =>
            xmit d 0 (geometry_events (mode d) (timings_for (mode d) f)) r d' /\
            runs d 0 (geometry_events (mode d) (timings_for (mode d) f)) r d');
    [apply wp_both; [|apply (ov64a40_program_geometry_spec d f Hf)]|].
  - unfold ov64a40_program_geometry.
    apply wp_bind, wp_get. cbn zeta.
    pose proof (xmit_skip d 0) as H0.
    xmit_step cci_write_xmit H0.
    xmit_step cci_write_xmit H0.
    xmit_step cci_write_xmit H0.
    xmit_step cci_write_xmit H0.
    xmit_step cci_write_xmit H0.
    xmit_step cci_write_xmit H0.
    xmit_step cci_write_xmit H0.
    xmit_step cci_write_xmit H0.
    apply wp_bind.
    assert (Hf' : array_get (link_frequencies d7) (u32 (cur_val (link_freq d))) = Some f).
    { destruct H0 as [F _]. now rewrite (fr_freqs _ _ F). }
    eapply wp_intro; [apply (ov64a40_get_timings_run _ _ _ Hf')|].
    assert (Hm : mode d7 = mode d) by (destruct H0 as [F _]; apply F).
    rewrite Hm.
    xmit_step cci_write_xmit H0.
    xmit_step cci_write_xmit H0.
    apply wp_ret. exact H0.
  - intros r d' [H (_ & _ & C)]. split; [|split; [apply H|]].
    + apply xmit_first_failure; [reflexivity | exact H].
    + destruct H as [[Fm Ff _ _ _ Fu Fa _] _]. auto.
Qed.

(** X9: the subsampling program is two skip writes followed by two
    binning bit-field updates, and stops at the first bus failure.
    [ov64a40_program_subsampling] always returns; when the bus accepts
    the four transactions the result is 0 and the four are logged in
    order; when the [k]-th is the first to fail the result is its error
    and nothing after it was sent.  The mode, the frequency table, every
    control (value, range and flags) and the power reference are as
    before. *)
Theorem program_subsampling_stops_at_first_failure (d : ov64a40) :
  exists r d',
    ov64a40_program_subsampling d = Some (r, d') /\
    first_failure d (subsampling_events (mode d)) r d' /\
    frame d d' /\
    mode d' = mode d /\
    link_frequencies d' = link_frequencies d /\
    ctrl_handler d' = ctrl_handler d /\
    usage_count d' = usage_count d /\
    rpm_active d' = rpm_active d.
Proof.
  apply wp_elim.
  eapply wp_mono with
    (Q := fun r d' =>
            xmit d 0 (subsampling_events (mode d)) r d' /\
            runs d 0 (subsampling_events (mode d)) r d');
    [apply wp_both; [|apply (ov64a40_program_subsampling_spec d)]|].
  - unfold ov64a40_program_subsampling.
    apply wp_bind, wp_get. cbn zeta.
    pose proof (xmit_skip d 0) as H0.
    xmit_step cci_write_xmit H0.
    xmit_step cci_write_xmit H0.
    xmit_step cci_update_bits_xmit H0.
    xmit_step cci_update_bits_xmit H0.
    apply wp_ret. exact H0.
  - intros r d' [H (_ & _ & C)]. split; [|split; [apply H|]].
    + apply xmit_first_failure; [reflexivity | exact H].
    + destruct H as [[Fm Ff _ _ _ Fu Fa _] _]. auto.
Qed.

(** X10: the PLL is programmed with the default table and, for the
    360 MHz link only, the multiplier override after it; a failure of the
    table suppresses the override.  For an index inside the frequency
    table [ov64a40_link_freq_config] returns; when the bus accepts the
    whole program the result is 0 and the program is logged; when the
    [k]-th transaction is the first to fail the result is its error and
    nothing after it was sent. *)
Theorem link_freq_config_stops_at_first_failure (d : ov64a40) (val f : Z) :
  array_get (link_frequencies d) val = Some f ->
  exists r d',
    ov64a40_link_freq_config val d = Some (r, d') /\
    first_failure d
      (table_events ov64a40_pll_config ++
       (if f =? OV64A40_LINK_FREQ_360M
        then [EvWrite OV64A40_PLL1_MULTIPLIER 0x0078]
        else [])) r d' /\
    frame d d'.
Proof.
  intros Hf. apply wp_elim.
  eapply wp_mono with (Q := xmit d 0 (link_freq_events f)).
  - unfold ov64a40_link_freq_config, link_freq_events.
    apply wp_bind, wp_get.
    pose proof (xmit_skip d 0) as H0.
    xmit_step cci_multi_reg_write_xmit H0.
    apply wp_bind. eapply wp_of_option; [exact Hf|].
    destruct (f =? OV64A40_LINK_FREQ_360M).
    + eapply wp_mono; [apply cci_write_xmit|]. intros r' d' H.
      apply (xmit_trans _ _ _ _ _ _ _ _ H0 H).
    + apply wp_ret. rewrite app_nil_r. exact H0.
  - intros r d' H. split; [|apply H].
    apply xmit_first_failure; [|exact H].
    unfold link_freq_events, bus_only. rewrite forallb_app.
    fold (bus_only (table_events ov64a40_pll_config)).
    rewrite bus_only_table. now destruct (f =? OV64A40_LINK_FREQ_360M).
Qed.

(** *** Streaming *)

(** X11: what a stream start sends, and in which order.  On a device
    whose bus is healthy, whose power can be had and whose register-less
    controls are read-only, [ov64a40_start_streaming] returns 0 holding
    one power reference, and has logged, in this order: the power-up
    sleep if the device was suspended, the global initialisation table,
    the table of the mode, the geometry, the subsampling, the replay of
    the controls, the streaming bit, and last the settle sleep. *)
Theorem start_streaming_write_order (d : ov64a40) :
  ctrl_indices_ok d = true ->
  healthy d ->
  power_ok d = true ->
  handler_ok d = true ->
  exists d' f,
    ov64a40_start_streaming d = Some (0, d') /\
    array_get (link_frequencies d) (cur_val (link_freq d)) = Some f /\
    usage_count d' = usage_count d + 1 /\
    rpm_active d' = true /\
    log d' = log d ++
      (if rpm_active d then [] else [EvSleep 5000]) ++
      table_events ov64a40_init ++
      table_events (firstn (Z.to_nat (num_regs (reglist (mode d))))
                           (regvals (reglist (mode d)))) ++
      geometry_events (mode d) (timings_for (mode d) f) ++
      subsampling_events (mode d) ++
      replay_events d ++
      [ EvWrite OV64A40_REG_SMIA (u64 OV64A40_REG_SMIA_STREAMING);
        EvSleep (stream_start_delay (timings_for (mode d) f)
                                    (cur_val (exposure d'))) ].
Proof.
  intros Hi Hh Hp Hr.
  destruct (wp_elim _ _ _ (ov64a40_start_streaming_spec d Hi))
    as (r & d' & E & Hs & _ & H0).
  assert (r = 0) by (apply H0; assumption). subst r.
  destruct (Hs eq_refl) as (_ & Hu & Ha & _ & _ & _ & _ & _ & _ & f & Hf & L).
  exists d', f. repeat (split; [assumption|]).
  rewrite L. unfold stream_start_events.
  rewrite <- !app_assoc. reflexivity.
Qed.

Lemma ov64a40_stop_streaming_keeps d :
  exists d',
    ov64a40_stop_streaming d = Some (0, d') /\
    mode d' = mode d /\
    link_frequencies d' = link_frequencies d /\
    rpm_active d' = rpm_active d /\
    usage_count d' = usage_count d - 1 /\
    (forall i, latched i = true -> grabbed d' i = false) /\
    (forall i, latched i = false -> ctrl_handler d' i = ctrl_handler d i) /\
    (forall i, cur_val (ctrl_handler d' i) = cur_val (ctrl_handler d i) /\
               minimum (ctrl_handler d' i) = minimum (ctrl_handler d i) /\
               maximum (ctrl_handler d' i) = maximum (ctrl_handler d i)) /\
    log d' = log d ++ [EvUpdateBits OV64A40_REG_SMIA (u64 1) (u64 0)].
Proof.
  unfold ov64a40_stop_streaming, bind, cci_update_bits, pm_runtime_mark_last_busy,
    pm_runtime_put_autosuspend, __v4l2_ctrl_grab, modify, get, ret.
  cbn [Z.eqb].
  destruct (bus_fault d (length (log d)) =? 0);
    (eexists; split; [reflexivity|]; cbn;
     repeat (split; [reflexivity|]);
     split; [intros i Hi; unfold grabbed, ctrl_flag_set; cbn;
             destruct i; try discriminate; cbn; apply grab_clear|];
     split; [intros i Hi; destruct i; try discriminate; reflexivity|];
     split; [intros i; destruct i; cbn; auto | reflexivity]).
Qed.

(** X12: a stream start followed by a stream stop is balanced.  When
    [ov64a40_set_stream] with a non-zero argument succeeded, the call
    with 0 that follows returns 0 and gives back the power reference
    (the usage counter is what it was before the start); the three
    latched controls are no longer grabbed, the flags of the others, the
    mode and the frequency table are as before the start, and no control
    other than the exposure has changed its value or range; the stop
    itself sent one bus transaction, the clearing of the streaming
    bit. *)
Theorem stream_on_off_is_balanced (d d1 : ov64a40) (on : Z) :
  ctrl_indices_ok d = true ->
  on <> 0 ->
  ov64a40_set_stream on d = Some (0, d1) ->
  exists d2,
    ov64a40_set_stream 0 d1 = Some (0, d2) /\
    usage_count d2 = usage_count d /\
    mode d2 = mode d /\
    link_frequencies d2 = link_frequencies d /\
    (forall i, latched i = true -> grabbed d2 i = false) /\
    (forall i, latched i = false ->
       flags (ctrl_handler d2 i) = flags (ctrl_handler d i)) /\
    (forall i, i <> V4L2_CID_EXPOSURE ->
       cur_val (ctrl_handler d2 i) = cur_val (ctrl_handler d i) /\
       minimum (ctrl_handler d2 i) = minimum (ctrl_handler d i) /\
       maximum (ctrl_handler d2 i) = maximum (ctrl_handler d i)) /\
    log d2 = log d1 ++ [EvUpdateBits OV64A40_REG_SMIA (u64 1) (u64 0)].
Proof.
  intros Hi Hon E. unfold ov64a40_set_stream in *.
  apply Z.eqb_neq in Hon. rewrite Hon in E. cbn [negb] in E.
  destruct (wp_elim _ _ _ (ov64a40_start_streaming_spec d Hi))
    as (r & d1' & E' & Hs & _ & _).
  rewrite E in E'. injection E' as <- <-.
  destruct (Hs eq_refl) as (_ & Hu & _ & Hm & Hf & _ & _ & Hfl & Hc & _).
  destruct (ov64a40_stop_streaming_keeps d1)
    as (d2 & E2 & Hm2 & Hf2 & _ & Hu2 & Hg2 & Ho2 & Hc2 & L2).
  exists d2. cbn [Z.eqb negb].
  split; [exact E2|]. split; [lia|]. split; [congruence|]. split; [congruence|].
  split; [exact Hg2|].
  split; [intros i Hl; rewrite (Ho2 i Hl); apply Hfl, Hl|].
  split; [|exact L2].
  intros i Hne. destruct (Hc2 i) as (A1 & A2 & A3). destruct (Hc i Hne) as (B1 & B2 & B3).
  repeat split; congruence.
Qed.

(** *** Device tree *)

Lemma array_set_middle {A : Type} (pre post : list A) (x v : A) :
  array_set (pre ++ x :: post) (length pre) v = Some (pre ++ v :: post).
Proof.
  unfold array_set.
  assert (H : (length pre <? length (pre ++ x :: post))%nat = true).
  { apply Nat.ltb_lt. rewrite length_app. cbn. lia. }
  rewrite H. f_equal.
  rewrite firstn_app, firstn_all, Nat.sub_diag. cbn [firstn].
  rewrite app_nil_r. f_equal.
  replace (S (length pre)) with (length pre + 1)%nat by lia.
  rewrite skipn_app, skipn_all2 by lia.
  replace (length pre + 1 - length pre)%nat with 1%nat by lia.
  reflexivity.
Qed.

Lemma parse_dt_loop_run freqs : forall pre d,
  link_frequencies d = pre ++ repeat 0 (length freqs) ->
  exists d',
    parse_dt_loop (length pre) freqs d
      = Some (if forallb supported_freq freqs then 0 else - EINVAL, d') /\
    (forallb supported_freq freqs = true ->
     d' = with_link_frequencies d (pre ++ freqs)) /\
    d' = with_link_frequencies d (link_frequencies d').
Proof.
  induction freqs as [|f freqs IH]; intros pre d Hd.
  - cbn. exists d. split; [reflexivity|]. cbn in Hd. rewrite app_nil_r in *.
    rewrite <- Hd. split; [intros _|]; now destruct d.
  - cbn [parse_dt_loop forallb].
    change (supported_freq f)
      with ((f =? OV64A40_LINK_FREQ_360M) || (f =? OV64A40_LINK_FREQ_456M)).
    destruct (f =? OV64A40_LINK_FREQ_360M) eqn:E1; cbn [negb andb orb].
    2: destruct (f =? OV64A40_LINK_FREQ_456M) eqn:E2; cbn [negb andb orb].
    3: { exists d. split; [reflexivity|]. split; [discriminate | now destruct d]. }
    all: cbn [length repeat] in Hd;
      unfold bind at 1; unfold get at 1;
      rewrite Hd, array_set_middle; unfold bind at 1; cbn [of_option];
      unfold ret at 1; unfold bind at 1; unfold modify at 1;
      set (d1 := with_link_frequencies d (pre ++ f :: repeat 0 (length freqs)));
      destruct (IH (pre ++ [f]) d1) as (d' & E & Hok & Hrest);
      [ unfold d1; cbn; now rewrite <- app_assoc
      | rewrite length_app, Nat.add_1_r in E; cbn [length] in E;
        exists d'; split; [exact E|]; split;
        [ intros Hall; rewrite (Hok Hall), <- app_assoc; reflexivity
        | rewrite Hrest at 1; reflexivity ] ].
Qed.

(** X13: which endpoints the driver accepts.  [ov64a40_parse_dt] always
    returns; it returns 0 exactly for an endpoint that is there and
    parses, has two data lanes, one or two link frequencies, each of
    them 360 MHz or 456 MHz, and whose frequency array could be
    allocated.  Otherwise the result is the error of the endpoint
    parser, -ENOMEM or -EINVAL.  Only the frequency table of the device
    is ever touched. *)
Theorem parse_dt_accepts_supported_endpoints (fw : fwnode_endpoint) (d : ov64a40) :
  exists r d',
    ov64a40_parse_dt fw d = Some (r, d') /\
    (r = 0 <-> endpoint_ok fw = true) /\
    (r <> 0 -> r = endpoint_parse_ret fw \/ r = - ENOMEM \/ r = - EINVAL) /\
    d' = with_link_frequencies d (link_frequencies d').
Proof.
  unfold ov64a40_parse_dt, endpoint_ok.
  assert (Hd : d = with_link_frequencies d (link_frequencies d)) by now destruct d.
  destruct (endpoint_found fw); cbn [negb andb].
  2: { exists (- EINVAL), d. repeat split; try discriminate; auto. }
  destruct (endpoint_parse_ret fw =? 0) eqn:P; cbn [negb andb].
  2: { exists (endpoint_parse_ret fw), d. apply Z.eqb_neq in P.
       repeat split; try discriminate; try contradiction; auto. }
  destruct (num_data_lanes fw =? 2); cbn [negb andb].
  2: { exists (- EINVAL), d. repeat split; try discriminate; auto. }
  destruct (fw_link_frequencies fw) as [|f1 [|f2 [|f3 fs]]] eqn:L;
    cbn [length Nat.eqb Nat.ltb Nat.leb andb].
  1: { exists (- EINVAL), d. repeat split; try discriminate; auto. }
  3: { exists (- EINVAL), d. repeat split; try discriminate; auto. }
  all: destruct (kcalloc_ok fw); cbn [negb andb];
    [| exists (- ENOMEM), d; repeat split; try discriminate; auto ].
  all: unfold bind at 1; unfold modify at 1.
  - set (d0 := with_link_frequencies d _).
    destruct (parse_dt_loop_run [f1] [] d0 eq_refl) as (d' & E & _ & Hrest).
    cbn [length] in E. rewrite E. eexists _, d'. split; [reflexivity|].
    assert (Hd' : d' = with_link_frequencies d (link_frequencies d'))
      by (rewrite Hrest at 1; reflexivity).
    destruct (forallb supported_freq [f1]);
      repeat split; try discriminate; try contradiction; auto.
  - set (d0 := with_link_frequencies d _).
    destruct (parse_dt_loop_run [f1; f2] [] d0 eq_refl) as (d' & E & _ & Hrest).
    cbn [length] in E. rewrite E. eexists _, d'. split; [reflexivity|].
    assert (Hd' : d' = with_link_frequencies d (link_frequencies d'))
      by (rewrite Hrest at 1; reflexivity).
    destruct (forallb supported_freq [f1; f2]);
      repeat split; try discriminate; try contradiction; auto.
Qed.

(** X14: an accepted endpoint makes the timing lookup safe.  After a
    successful [ov64a40_parse_dt] the frequency table of the device is
    the list of the endpoint, and for every index below its length
    [ov64a40_get_timings] is defined and returns the default timings of
    the current mode for the frequency stored at that index: the reduced
    variant for 360 MHz, the fast one for 456 MHz. *)
Theorem parse_dt_makes_timings_defined (fw : fwnode_endpoint) (d d' : ov64a40) (idx : Z) :
  ov64a40_parse_dt fw d = Some (0, d') ->
  0 <= idx < Z.of_nat (length (fw_link_frequencies fw)) ->
  link_frequencies d' = fw_link_frequencies fw /\
  mode d' = mode d /\
  exists f,
    nth_error (fw_link_frequencies fw) (Z.to_nat idx) = Some f /\
    (f = OV64A40_LINK_FREQ_360M \/ f = OV64A40_LINK_FREQ_456M) /\
    ov64a40_get_timings idx d' =
      Some (timings_default (mode d)
              (if f =? OV64A40_LINK_FREQ_360M
               then OV64A40_LINK_FREQ_360M_ID
               else OV64A40_LINK_FREQ_456M_ID), d').
Proof.
  intros E Hidx.
  assert (Hlist : link_frequencies d' = fw_link_frequencies fw /\ mode d' = mode d /\
                  forallb supported_freq (fw_link_frequencies fw) = true /\
                  (length (fw_link_frequencies fw) <= 2)%nat).
  { revert E. unfold ov64a40_parse_dt.
    destruct (endpoint_found fw); cbn [negb]; [|unfold ret; intros [=]].
    destruct (endpoint_parse_ret fw =? 0) eqn:P; cbn [negb];
      [|unfold ret; intros [= E _]; rewrite E in P; discriminate].
    destruct (num_data_lanes fw =? 2); cbn [negb]; [|unfold ret; intros [=]].
    destruct (length (fw_link_frequencies fw) =? 0)%nat; [unfold ret; intros [=]|].
    destruct (2 <? length (fw_link_frequencies fw))%nat eqn:L2; [unfold ret; intros [=]|].
    destruct (kcalloc_ok fw); cbn [negb]; [|unfold ret; intros [=]].
    unfold bind at 1; unfold modify at 1.
    set (d0 := with_link_frequencies d _).
    destruct (parse_dt_loop_run (fw_link_frequencies fw) [] d0 eq_refl)
      as (d'' & E & Hok & _).
    cbn [length] in E. rewrite E.
    destruct (forallb supported_freq (fw_link_frequencies fw)) eqn:All;
      [|intros [=]].
    intros [= <-]. rewrite (Hok eq_refl). cbn.
    apply Nat.ltb_ge in L2. auto. }
  destruct Hlist as (Hl & Hm & All & Hlen).
  split; [exact Hl|]. split; [exact Hm|].
  destruct (nth_error (fw_link_frequencies fw) (Z.to_nat idx)) as [f|] eqn:N.
  2: { apply nth_error_None in N. lia. }
  exists f. split; [reflexivity|].
  assert (Hsup : supported_freq f = true).
  { rewrite forallb_forall in All. apply All. eapply nth_error_In, N. }
  split.
  { unfold supported_freq in Hsup. apply orb_true_iff in Hsup.
    rewrite !Z.eqb_eq in Hsup. exact Hsup. }
  rewrite <- Hm.
  apply (ov64a40_get_timings_run idx d' f).
  rewrite u32_small by lia.
  unfold array_get. destruct (idx <? 0) eqn:Neg; [apply Z.ltb_lt in Neg; lia|].
  now rewrite Hl.
Qed.

(** *** Media-bus code and pad operations *)

Lemma flip_ok_cases fl :
  flip_ok fl = true ->
  (hflip_val fl = 0 \/ hflip_val fl = 1) /\ (vflip_val fl = 0 \/ vflip_val fl = 1).
Proof.
  unfold flip_ok. rewrite andb_true_iff, !orb_true_iff, !Z.eqb_eq. auto.
Qed.

Lemma ov64a40_mbus_code_defined fl :
  flip_ok fl = true ->
  exists code, ov64a40_mbus_code fl = Some code /\ In code ov64a40_mbus_codes.
Proof.
  intros H. apply flip_ok_cases in H as [[Hh | Hh] [Hv | Hv]];
    unfold ov64a40_mbus_code; rewrite Hh, Hv; eexists; (split; [reflexivity|]);
    cbn; auto.
Qed.

(** X15: the media-bus code follows the two flips, and is the only one
    enumerated.  For boolean flip values [ov64a40_mbus_code] is defined
    and returns one of the four 10-bit Bayer codes, BGGR when nothing is
    flipped; two settings of the flips have the same code only when they
    are the same setting.  [ov64a40_enum_mbus_code] returns that code for
    index 0 and refuses every other index with -EINVAL, leaving the
    request as it was. *)
Theorem mbus_code_tracks_flips (fl1 fl2 : flip_vals) (code : v4l2_subdev_mbus_code_enum) :
  flip_ok fl1 = true ->
  flip_ok fl2 = true ->
  exists c1 c2,
    ov64a40_mbus_code fl1 = Some c1 /\
    ov64a40_mbus_code fl2 = Some c2 /\
    In c1 ov64a40_mbus_codes /\
    (c1 = c2 -> fl1 = fl2) /\
    (hflip_val fl1 = 0 -> vflip_val fl1 = 0 -> c1 = MEDIA_BUS_FMT_SBGGR10_1X10) /\
    ov64a40_enum_mbus_code fl1 code =
      Some (if mce_index code =? 0
            then (0, {| mce_index := mce_index code; mce_code := c1 |})
            else (- EINVAL, code)).
Proof.
  intros H1 H2.
  destruct fl1 as [h1 v1], fl2 as [h2 v2].
  apply flip_ok_cases in H1 as [Hh1 Hv1]. apply flip_ok_cases in H2 as [Hh2 Hv2].
  cbn [hflip_val vflip_val] in *.
  assert (T : forall h v, (h = 0 \/ h = 1) -> (v = 0 \/ v = 1) ->
            ov64a40_mbus_code {| hflip_val := h; vflip_val := v |} =
            Some (if h =? 0
                  then if v =? 0 then MEDIA_BUS_FMT_SBGGR10_1X10
                       else MEDIA_BUS_FMT_SGRBG10_1X10
                  else if v =? 0 then MEDIA_BUS_FMT_SGBRG10_1X10
                       else MEDIA_BUS_FMT_SRGGB10_1X10)).
  { intros h v [-> | ->] [-> | ->]; reflexivity. }
  unfold ov64a40_enum_mbus_code.
  rewrite (T h1 v1 Hh1 Hv1), (T h2 v2 Hh2 Hv2).
  eexists _, _. split; [reflexivity|]. split; [reflexivity|].
  split.
  { destruct Hh1 as [-> | ->], Hv1 as [-> | ->]; cbn; auto. }
  split.
  { destruct Hh1 as [-> | ->], Hv1 as [-> | ->],
             Hh2 as [-> | ->], Hv2 as [-> | ->];
      intros E; first [reflexivity | discriminate E]. }
  split.
  { intros -> ->. reflexivity. }
  destruct (mce_index code =? 0); reflexivity.
Qed.

(** X16: the frame sizes enumerated are the six modes of the catalogue,
    each as a single size.  For boolean flips and a non-negative index,
    [ov64a40_enum_frame_size] returns 0 exactly when the index is below
    six and the code asked for is the current media-bus code; then the
    minimum and the maximum size it reports are both the size of the mode
    at that index.  Every other request is refused with -EINVAL and left
    as it was. *)
Theorem enum_frame_size_lists_catalogue (fl : flip_vals) (fse : v4l2_subdev_frame_size_enum) :
  flip_ok fl = true ->
  0 <= fse_index fse ->
  exists r fse',
    ov64a40_enum_frame_size fl fse = Some (r, fse') /\
    (r = 0 <->
     fse_index fse < 6 /\ ov64a40_mbus_code fl = Some (fse_code fse)) /\
    (r = 0 ->
     exists m,
       nth_error ov64a40_modes (Z.to_nat (fse_index fse)) = Some m /\
       min_width fse' = width m /\ max_width fse' = width m /\
       min_height fse' = height m /\ max_height fse' = height m /\
       fse_index fse' = fse_index fse /\ fse_code fse' = fse_code fse) /\
    (r <> 0 -> r = - EINVAL /\ fse' = fse).
Proof.
  intros Hfl Hidx.
  destruct (ov64a40_mbus_code_defined fl Hfl) as (c & Hc & _).
  unfold ov64a40_enum_frame_size. rewrite Hc.
  change (ARRAY_SIZE ov64a40_modes) with 6.
  destruct (6 <=? fse_index fse) eqn:B.
  - apply Z.leb_le in B. exists (- EINVAL), fse.
    split; [reflexivity|].
    split; [split; [discriminate | intros [? _]; lia]|].
    split; [discriminate|]. intros _. split; reflexivity.
  - apply Z.leb_gt in B.
    destruct (fse_code fse =? c) eqn:C; cbn [negb].
    + apply Z.eqb_eq in C.
      destruct (array_get ov64a40_modes (fse_index fse)) as [m|] eqn:G.
      2: { apply array_get_none in G. cbn in G. lia. }
      eexists 0, _. split; [reflexivity|].
      split; [split; [intros _; split; [lia | congruence] | reflexivity]|].
      split; [|intros H; contradiction].
      intros _. exists m. cbn. unfold array_get in G.
      destruct (fse_index fse <? 0) eqn:N; [apply Z.ltb_lt in N; lia|].
      repeat split; auto.
    + apply Z.eqb_neq in C. exists (- EINVAL), fse.
      split; [reflexivity|].
      split; [split; [discriminate | intros [_ E]; congruence]|].
      split; [discriminate|]. intros _. split; reflexivity.
Qed.

(** X17: the initial pad configuration and the crop selections agree.
    For boolean flips [ov64a40_init_cfg] returns 0 and leaves the format
    of the full-resolution mode, 9248 by 6944, with the current
    media-bus code; on the state it leaves, the crop, the default crop
    and the crop bounds all read back as the pixel array.
    [ov64a40_get_selection] answers the native-size target with the
    native size at the origin whatever the state, and refuses any target
    other than these four with -EINVAL, leaving the request as it
    was. *)
Theorem init_cfg_crop_is_pixel_array (fl : flip_vals) (state : v4l2_subdev_state)
    (sel : v4l2_subdev_selection) :
  flip_ok fl = true ->
  exists state',
    ov64a40_init_cfg fl state = Some (0, state') /\
    fmt_width (pad_format state') = 9248 /\
    fmt_height (pad_format state') = 6944 /\
    ov64a40_mbus_code fl = Some (fmt_code (pad_format state')) /\
    (target sel = V4L2_SEL_TGT_CROP \/ target sel = V4L2_SEL_TGT_CROP_DEFAULT \/
     target sel = V4L2_SEL_TGT_CROP_BOUNDS ->
     ov64a40_get_selection state' sel =
       (0, {| target := target sel; sel_r := pixel_array |})) /\
    (target sel = V4L2_SEL_TGT_NATIVE_SIZE ->
     ov64a40_get_selection state sel =
       (0, {| target := target sel;
              sel_r := {| left := 0; top := 0;
                          rect_width := OV64A40_NATIVE_WIDTH;
                          rect_height := OV64A40_NATIVE_HEIGHT |} |})) /\
    (~ (0 <= target sel <= 3) -> ov64a40_get_selection state sel = (- EINVAL, sel)).
Proof.
  intros Hfl.
  destruct (ov64a40_mbus_code_defined fl Hfl) as (c & Hc & _).
  unfold ov64a40_init_cfg, ov64a40_update_pad_fmt. rewrite Hc. cbn.
  eexists. split; [reflexivity|]. cbn.
  repeat (split; [reflexivity|]).
  split; [|split].
  - unfold ov64a40_get_selection. intros [-> | [-> | ->]]; reflexivity.
  - unfold ov64a40_get_selection. intros ->. reflexivity.
  - intros Ht. unfold ov64a40_get_selection,
      V4L2_SEL_TGT_CROP, V4L2_SEL_TGT_NATIVE_SIZE, V4L2_SEL_TGT_CROP_DEFAULT,
      V4L2_SEL_TGT_CROP_BOUNDS.
    destruct (target sel =? 0) eqn:T0; [apply Z.eqb_eq in T0; lia|].
    destruct (target sel =? 3) eqn:T3; [apply Z.eqb_eq in T3; lia|].
    destruct (target sel =? 1) eqn:T1; [apply Z.eqb_eq in T1; lia|].
    destruct (target sel =? 2) eqn:T2; [apply Z.eqb_eq in T2; lia|].
    reflexivity.
Qed.

(** *** Format negotiation *)

Lemma nearest_from_spec rest w h : forall best,
  In (nearest_from best rest w h) (best :: rest) /\
  forall m, In m (best :: rest) ->
    size_error (nearest_from best rest w h) w h <= size_error m w h.
Proof.
  induction rest as [|m0 rest IH]; intros best.
  - cbn. split; [auto|]. intros m [<- | []]. lia.
  - cbn [nearest_from].
    destruct (size_error m0 w h <? size_error best w h) eqn:C.
    + apply Z.ltb_lt in C. destruct (IH m0) as [Hin Hmin]. split.
      * destruct Hin as [<- | Hin]; [right; left; reflexivity | right; right; exact Hin].
      * intros m [<- | [<- | Hm]].
        -- pose proof (Hmin m0 (or_introl eq_refl)). lia.
        -- apply Hmin. left. reflexivity.
        -- apply Hmin. right. exact Hm.
    + apply Z.ltb_ge in C. destruct (IH best) as [Hin Hmin]. split.
      * destruct Hin as [<- | Hin]; [left; reflexivity | right; right; exact Hin].
      * intros m [<- | [<- | Hm]].
        -- apply Hmin. left. reflexivity.
        -- pose proof (Hmin best (or_introl eq_refl)). lia.
        -- apply Hmin. right. exact Hm.
Qed.

Lemma v4l2_find_nearest_size_spec w h :
  exists m,
    v4l2_find_nearest_size ov64a40_modes w h = Some m /\
    In m ov64a40_modes /\
    forall m', In m' ov64a40_modes -> size_error m w h <= size_error m' w h.
Proof.
  unfold v4l2_find_nearest_size, ov64a40_modes.
  eexists. split; [reflexivity|]. apply nearest_from_spec.
Qed.

Lemma v4l2_find_nearest_size_exact m :
  In m ov64a40_modes ->
  v4l2_find_nearest_size ov64a40_modes (width m) (height m) = Some m.
Proof.
  intros Hm. cbn in Hm.
  repeat (destruct Hm as [<- | Hm]; [reflexivity|]). contradiction.
Qed.

Lemma same_mode_eq a b :
  In a ov64a40_modes -> In b ov64a40_modes -> same_mode a b = true -> a = b.
Proof.
  intros Ha Hb. cbn in Ha, Hb.
  repeat (destruct Ha as [<- | Ha]; [|]);
    try contradiction;
    repeat (destruct Hb as [<- | Hb]; [first [reflexivity | discriminate]|]);
    contradiction.
Qed.

Lemma ov64a40_update_pad_fmt_run fl m fmt code :
  ov64a40_mbus_code fl = Some code ->
  exists f,
    ov64a40_update_pad_fmt fl m fmt = Some f /\
    fmt_width f = width m /\ fmt_height f = height m /\ fmt_code f = code /\
    fmt_flags f = fmt_flags fmt.
Proof.
  intros Hc. unfold ov64a40_update_pad_fmt. rewrite Hc.
  eexists. split; [reflexivity|]. cbn. auto.
Qed.

(** What [ov64a40_set_format] does when it does not touch the device:
    on the path that finds nothing to change, and on every path of a
    request that is not for the active format. *)
Lemma ov64a40_set_format_passive fl state fmt d m code :
  v4l2_find_nearest_size ov64a40_modes
    (fmt_width (format fmt)) (fmt_height (format fmt)) = Some m ->
  ov64a40_mbus_code fl = Some code ->
  same_mode (mode d) m && (fmt_code (pad_format state) =? code) = true \/
  which fmt <> V4L2_SUBDEV_FORMAT_ACTIVE ->
  exists f,
    ov64a40_update_pad_fmt fl m (format fmt) = Some f /\
    ov64a40_set_format fl state fmt d =
      Some ((0,
             if same_mode (mode d) m && (fmt_code (pad_format state) =? code)
             then state
             else {| pad_format := f; pad_crop := pad_crop state |},
             {| which := which fmt; format := f |}), d).
Proof.
  intros Hn Hc Hcase.
  destruct (ov64a40_update_pad_fmt_run fl m (format fmt) code Hc)
    as (f & Hf & _ & _ & Hfc & _).
  exists f. split; [exact Hf|].
  unfold ov64a40_set_format. rewrite Hn. cbn [of_option].
  unfold bind at 1. unfold ret at 1. rewrite Hf. cbn [of_option].
  unfold bind at 1. unfold ret at 1.
  unfold bind at 1. unfold get at 1. cbn [which format]. rewrite Hfc.
  destruct (same_mode (mode d) m && (fmt_code (pad_format state) =? code)) eqn:C;
    [reflexivity|].
  destruct Hcase as [? | Hw]; [discriminate|].
  apply Z.eqb_neq in Hw. rewrite Hw. reflexivity.
Qed.

Lemma s_ctrl_vblank_supply d val :
  wp (v4l2_ctrl_s_ctrl V4L2_CID_VBLANK val)
     (fun _ d' =>
        clk_fault d' = clk_fault d /\
        regulator_fault d' = regulator_fault d /\
        bus_fault d' = bus_fault d) d.
Proof.
  unfold wp, v4l2_ctrl_s_ctrl, ov64a40_set_ctrl, __v4l2_ctrl_modify_range,
    pm_runtime_get_if_active, pm_runtime_mark_last_busy, pm_runtime_put_autosuspend,
    cci_write, bind, get, modify, ret.
  cbn.
  repeat (match goal with
          | |- context [if ?c then _ else _] => destruct c eqn:?
          end; cbn);
    auto.
Qed.

Lemma s_ctrl_vblank_keeps d val :
  wp (v4l2_ctrl_s_ctrl V4L2_CID_VBLANK val)
     (fun r d' =>
        mode d' = mode d /\
        link_frequencies d' = link_frequencies d /\
        usage_count d' = usage_count d /\
        rpm_active d' = rpm_active d /\
        (forall i, flags (ctrl_handler d' i) = flags (ctrl_handler d i)) /\
        (forall i, i <> V4L2_CID_EXPOSURE -> i <> V4L2_CID_VBLANK ->
           ctrl_handler d' i = ctrl_handler d i) /\
        minimum (vblank d') = minimum (vblank d) /\
        maximum (vblank d') = maximum (vblank d) /\
        step (vblank d') = step (vblank d) /\
        default_value (vblank d') = default_value (vblank d) /\
        (r = 0 -> cur_val (vblank d') = val) /\
        (r <> 0 -> cur_val (vblank d') = cur_val (vblank d)) /\
        (rpm_active d = false -> log d' = log d) /\
        (ctrl_gate d V4L2_CID_VBLANK val = 0 -> rpm_active d = false -> r = 0)) d.
Proof.
  destruct (Z.eq_dec (ctrl_gate d V4L2_CID_VBLANK val) 0) as [G | G].
  - eapply wp_mono; [apply (v4l2_ctrl_s_ctrl_spec d V4L2_CID_VBLANK val G eq_refl)|].
    intros r d' (d1 & (F & Hl) & _ & Hu & _ & Hne & Heq). cbn beta.
    destruct F as [Fm Ff _ Ffl Fc Fu Fa _].
    assert (Hv : ctrl_handler d1 V4L2_CID_VBLANK = ctrl_handler d V4L2_CID_VBLANK)
      by (apply Fc; discriminate).
    destruct (Z.eq_dec r 0) as [R | R].
    + rewrite (Heq R). unfold vblank. cbn. rewrite Hv.
      repeat (split; [assumption || reflexivity|]).
      split; [intros i; destruct i; cbn; auto; rewrite <- Ffl; reflexivity|].
      split; [intros i H1 H2; destruct i; cbn; auto; contradiction|].
      repeat (split; [reflexivity|]).
      split; [contradiction|].
      split; [|intros _ _; exact R]. intros A.
      destruct (Hl R) as (_ & _ & L). rewrite A, app_nil_r in L. exact L.
    + rewrite (Hne R). unfold vblank. rewrite Hv.
      repeat (split; [assumption || reflexivity|]).
      split; [intros i H1 H2; apply Fc, H1|].
      repeat (split; [reflexivity|]).
      split; [contradiction|]. split; [reflexivity|].
      split; [intros A; elim R; apply Hu, A|].
      intros _ A. apply Hu, A.
  - unfold wp. rewrite (v4l2_ctrl_s_ctrl_refused d V4L2_CID_VBLANK val G).
    repeat (split; [intros; reflexivity|]).
    split; [intros; contradiction|].
    split; [intros; reflexivity|].
    split; [intros; reflexivity | intros; contradiction].
Qed.

(** What [ov64a40_set_format] does to the device on a request for the
    active format that changes the mode or the code. *)
Lemma ov64a40_set_format_active fl state fmt d m code f0 :
  which fmt = V4L2_SUBDEV_FORMAT_ACTIVE ->
  v4l2_find_nearest_size ov64a40_modes
    (fmt_width (format fmt)) (fmt_height (format fmt)) = Some m ->
  ov64a40_mbus_code fl = Some code ->
  same_mode (mode d) m && (fmt_code (pad_format state) =? code) = false ->
  array_get (link_frequencies d) (u32 (cur_val (link_freq d))) = Some f0 ->
  exists f d',
    ov64a40_update_pad_fmt fl m (format fmt) = Some f /\
    ov64a40_set_format fl state fmt d =
      Some ((0, {| pad_format := f; pad_crop := analogue_crop m |},
             {| which := which fmt; format := f |}), d') /\
    mode d' = m /\
    link_frequencies d' = link_frequencies d /\
    usage_count d' = usage_count d /\
    rpm_active d' = rpm_active d /\
    (forall i, flags (ctrl_handler d' i) = flags (ctrl_handler d i)) /\
    (forall i, i <> V4L2_CID_EXPOSURE -> i <> V4L2_CID_VBLANK ->
       i <> V4L2_CID_HBLANK -> ctrl_handler d' i = ctrl_handler d i) /\
    minimum (vblank d') = OV64A40_VBLANK_MIN /\
    maximum (vblank d') = s32 (OV64A40_VTS_MAX - height m) /\
    default_value (vblank d') = s32 (vts (timings_for m f0) - height m) /\
    minimum (exposure d') = OV64A40_EXPOSURE_MIN /\
    maximum (exposure d') = s32 (vts (timings_for m f0) - OV64A40_EXPOSURE_MARGIN) /\
    default_value (exposure d') = OV64A40_EXPOSURE_MIN /\
    (OV64A40_EXPOSURE_MIN
       <= s32 (vts (timings_for m f0) - OV64A40_EXPOSURE_MARGIN) ->
     OV64A40_EXPOSURE_MIN <= cur_val (exposure d')
       <= s32 (vts (timings_for m f0) - OV64A40_EXPOSURE_MARGIN)) /\
    cur_val (hblank d') = s32 (ppl (timings_for m f0) * 4 - width m) /\
    minimum (hblank d') = s32 (ppl (timings_for m f0) * 4 - width m) /\
    maximum (hblank d') = s32 (ppl (timings_for m f0) * 4 - width m) /\
    (rpm_active d = false -> log d' = log d) /\
    (rpm_active d = false ->
     grabbed d V4L2_CID_VBLANK = false ->
     ctrl_flag_set (vblank d) V4L2_CTRL_FLAG_READ_ONLY = false ->
     OV64A40_VBLANK_MIN <= s32 (vts (timings_for m f0) - height m)
       <= s32 (OV64A40_VTS_MAX - height m) ->
     cur_val (vblank d') = s32 (vts (timings_for m f0) - height m)) /\
    bus_fault d' = bus_fault d /\
    clk_fault d' = clk_fault d /\
    regulator_fault d' = regulator_fault d.
Proof.
  intros Hw Hn Hc Hchg Hf0.
  destruct (ov64a40_update_pad_fmt_run fl m (format fmt) code Hc)
    as (f & Hf & _ & _ & Hfc & _).
  exists f.
  cut (wp (ov64a40_set_format fl state fmt)
          (fun res d' =>
             res = (0, {| pad_format := f; pad_crop := analogue_crop m |},
                    {| which := which fmt; format := f |}) /\
             mode d' = m /\
             link_frequencies d' = link_frequencies d /\
             usage_count d' = usage_count d /\
             rpm_active d' = rpm_active d /\
             (forall i, flags (ctrl_handler d' i) = flags (ctrl_handler d i)) /\
             (forall i, i <> V4L2_CID_EXPOSURE -> i <> V4L2_CID_VBLANK ->
                i <> V4L2_CID_HBLANK -> ctrl_handler d' i = ctrl_handler d i) /\
             minimum (vblank d') = OV64A40_VBLANK_MIN /\
             maximum (vblank d') = s32 (OV64A40_VTS_MAX - height m) /\
             default_value (vblank d') = s32 (vts (timings_for m f0) - height m) /\
             minimum (exposure d') = OV64A40_EXPOSURE_MIN /\
             maximum (exposure d') =
               s32 (vts (timings_for m f0) - OV64A40_EXPOSURE_MARGIN) /\
             default_value (exposure d') = OV64A40_EXPOSURE_MIN /\
             (OV64A40_EXPOSURE_MIN
                <= s32 (vts (timings_for m f0) - OV64A40_EXPOSURE_MARGIN) ->
              OV64A40_EXPOSURE_MIN <= cur_val (exposure d')
                <= s32 (vts (timings_for m f0) - OV64A40_EXPOSURE_MARGIN)) /\
             cur_val (hblank d') = s32 (ppl (timings_for m f0) * 4 - width m) /\
             minimum (hblank d') = s32 (ppl (timings_for m f0) * 4 - width m) /\
             maximum (hblank d') = s32 (ppl (timings_for m f0) * 4 - width m) /\
             (rpm_active d = false -> log d' = log d) /\
             (rpm_active d = false ->
              grabbed d V4L2_CID_VBLANK = false ->
              ctrl_flag_set (vblank d) V4L2_CTRL_FLAG_READ_ONLY = false ->
              OV64A40_VBLANK_MIN <= s32 (vts (timings_for m f0) - height m)
                <= s32 (OV64A40_VTS_MAX - height m) ->
              cur_val (vblank d') = s32 (vts (timings_for m f0) - height m)) /\
             bus_fault d' = bus_fault d /\
             clk_fault d' = clk_fault d /\
             regulator_fault d' = regulator_fault d) d).
  { intros H. apply wp_elim in H as (res & d' & E & -> & H).
    exists d'. split; [exact Hf|]. split; [exact E | exact H]. }
  unfold ov64a40_set_format.
  apply wp_bind. eapply wp_of_option; [exact Hn|].
  apply wp_bind. eapply wp_of_option; [exact Hf|].
  apply wp_bind, wp_get. cbn [which format]. rewrite Hfc, Hchg, Hw, Z.eqb_refl.
  apply wp_bind. apply wp_bind, wp_modify. apply wp_bind, wp_get.
  set (d1 := with_mode d m).
  apply wp_bind.
  eapply wp_intro; [apply (ov64a40_get_timings_run _ d1 f0); exact Hf0|].
  change (mode d1) with m.
  set (t := timings_for m f0).
  apply wp_bind. unfold __v4l2_ctrl_modify_range at 1.
  apply wp_bind, wp_get. apply wp_bind, wp_modify. apply wp_ret.
  set (d2 := with_ctrl d1 V4L2_CID_VBLANK _).
  apply wp_bind. unfold __v4l2_ctrl_s_ctrl.
  eapply wp_mono;
    [apply wp_both; [apply s_ctrl_vblank_keeps | apply s_ctrl_vblank_supply]|].
  intros r d3 [(Sm & Sf & Su & Sa & Sfl & Sc & Smin & Smax & _ & Sdef & Sr & _ & Slog & Sidle)
               (Sclk & Sreg & Sbus)].
  cbn beta.
  apply wp_bind. unfold __v4l2_ctrl_modify_range at 1.
  apply wp_bind, wp_get. apply wp_bind, wp_modify. apply wp_ret.
  apply wp_bind. unfold __v4l2_ctrl_modify_range at 1.
  apply wp_bind, wp_get. apply wp_bind, wp_modify. apply wp_ret.
  apply wp_ret. apply wp_ret.
  split; [reflexivity|].
  unfold vblank, exposure, hblank in *. cbn.
  split; [exact Sm|]. split; [exact Sf|]. split; [exact Su|]. split; [exact Sa|].
  split.
  { intros i. destruct i; cbn; try apply Sfl; rewrite ?Sfl; reflexivity. }
  split.
  { intros i H1 H2 H3. destruct i; cbn; try contradiction;
      rewrite Sc by discriminate; reflexivity. }
  split; [exact Smin|]. split; [exact Smax|]. split; [exact Sdef|].
  split; [reflexivity|]. split; [reflexivity|]. split; [reflexivity|].
  split.
  { intros Hr. unfold clamp. lia. }
  split.
  { unfold clamp. lia. }
  repeat (split; [reflexivity|]).
  assert (Hgate : rpm_active d = false ->
            grabbed d V4L2_CID_VBLANK = false ->
            ctrl_flag_set (ctrl_handler d V4L2_CID_VBLANK) V4L2_CTRL_FLAG_READ_ONLY = false ->
            OV64A40_VBLANK_MIN <= s32 (vts t - height m) <= s32 (OV64A40_VTS_MAX - height m) ->
            ctrl_gate d2 V4L2_CID_VBLANK (s32 (vts t - height m)) = 0).
  { intros _ Hg Hro Hrange. apply ctrl_gate_closed; [exact Hg | exact Hro | exact Hrange]. }
  split; [intros A; apply (Slog A)|].
  split; [intros A Hg Hro Hrange; apply Sr; apply Sidle; auto|].
  split; [exact Sbus|]. split; [exact Sclk | exact Sreg].
Qed.

Lemma ov64a40_enum_frame_size_inv fl fse fse' :
  ov64a40_enum_frame_size fl fse = Some (0, fse') ->
  exists m,
    In m ov64a40_modes /\
    ov64a40_mbus_code fl = Some (fse_code fse') /\
    min_width fse' = width m /\ max_width fse' = width m /\
    min_height fse' = height m /\ max_height fse' = height m.
Proof.
  unfold ov64a40_enum_frame_size.
  destruct (ARRAY_SIZE ov64a40_modes <=? fse_index fse); [intros [=]|].
  destruct (ov64a40_mbus_code fl) as [c|]; [|intros [=]].
  destruct (fse_code fse =? c) eqn:C; cbn [negb]; [|intros [=]].
  apply Z.eqb_eq in C.
  destruct (array_get ov64a40_modes (fse_index fse)) as [m|] eqn:G; [|intros [=]].
  intros [= <-]. exists m. split.
  - unfold array_get in G. destruct (fse_index fse <? 0); [discriminate|].
    eapply nth_error_In, G.
  - cbn. rewrite C. repeat split; reflexivity.
Qed.

Lemma ov64a40_update_pad_fmt_again fl m fmt f :
  ov64a40_update_pad_fmt fl m fmt = Some f ->
  ov64a40_update_pad_fmt fl m f = Some f /\
  ov64a40_mbus_code fl = Some (fmt_code f) /\
  fmt_width f = width m /\ fmt_height f = height m.
Proof.
  unfold ov64a40_update_pad_fmt.
  destruct (ov64a40_mbus_code fl) as [c|]; [|intros [=]].
  intros [= <-]. cbn. auto.
Qed.

Lemma same_mode_refl m : same_mode m m = true.
Proof. unfold same_mode. now rewrite !Z.eqb_refl. Qed.

(** X18: a request that is not for the active format never touches the
    device.  For boolean flips [ov64a40_set_format] returns 0 with the
    device exactly as it was; the format it hands back has the size of a
    mode of the catalogue, none of whose modes is closer to the size
    asked for, and the current media-bus code; the crop of the pad state
    is kept, and the format of the pad state is either replaced by the
    format handed back or, when the mode found is the active one and the
    code has not changed, left as it was. *)
Theorem set_format_try_leaves_device_untouched (fl : flip_vals)
    (state : v4l2_subdev_state) (fmt : v4l2_subdev_format) (d : ov64a40) :
  flip_ok fl = true ->
  which fmt <> V4L2_SUBDEV_FORMAT_ACTIVE ->
  exists m f state',
    ov64a40_set_format fl state fmt d =
      Some ((0, state', {| which := which fmt; format := f |}), d) /\
    In m ov64a40_modes /\
    (forall m', In m' ov64a40_modes ->
       size_error m (fmt_width (format fmt)) (fmt_height (format fmt)) <=
       size_error m' (fmt_width (format fmt)) (fmt_height (format fmt))) /\
    fmt_width f = width m /\ fmt_height f = height m /\
    ov64a40_mbus_code fl = Some (fmt_code f) /\
    pad_crop state' = pad_crop state /\
    (if same_mode (mode d) m && (fmt_code (pad_format state) =? fmt_code f)
     then state' = state
     else pad_format state' = f).
Proof.
  intros Hfl Hw.
  destruct (v4l2_find_nearest_size_spec (fmt_width (format fmt)) (fmt_height (format fmt)))
    as (m & Hn & Hin & Hmin).
  destruct (ov64a40_mbus_code_defined fl Hfl) as (c & Hc & _).
  destruct (ov64a40_set_format_passive fl state fmt d m c Hn Hc (or_intror Hw))
    as (f & Hf & E).
  destruct (ov64a40_update_pad_fmt_again _ _ _ _ Hf) as (_ & Hc' & Hfw & Hfh).
  assert (c = fmt_code f) by congruence. subst c.
  exists m, f. eexists. split; [exact E|].
  repeat (split; [assumption|]).
  destruct (same_mode (mode d) m && (fmt_code (pad_format state) =? fmt_code f));
    split; reflexivity.
Qed.

(** X19: a change of the active format re-derives the control limits
    from the new mode.  When a request for the active format picks a
    mode or code that differs from the current one, and the current
    link-frequency index is inside the frequency table,
    [ov64a40_set_format] returns 0, makes the mode found the current one
    and its analogue crop the crop of the pad.  With [vts] and [ppl] the
    default timings of the new mode for the current link frequency, it
    leaves the horizontal blanking fixed at [ppl * 4 - width]; the
    vertical blanking, when [vts - height] lies between
    [OV64A40_VBLANK_MIN] and [OV64A40_VTS_MAX - height], with these as
    default, minimum and maximum; and the exposure, when
    [vts - OV64A40_EXPOSURE_MARGIN] is not below [OV64A40_EXPOSURE_MIN],
    with these as maximum and minimum.  The power reference, the
    control flags and the other controls are as before; on a suspended
    device nothing is sent to the bus, and a writable vertical blanking
    takes its new default. *)
Theorem set_format_active_updates_limits (fl : flip_vals)
    (state : v4l2_subdev_state) (fmt : v4l2_subdev_format) (d : ov64a40)
    (m : ov64a40_mode) (code f0 : Z) :
  which fmt = V4L2_SUBDEV_FORMAT_ACTIVE ->
  v4l2_find_nearest_size ov64a40_modes
    (fmt_width (format fmt)) (fmt_height (format fmt)) = Some m ->
  ov64a40_mbus_code fl = Some code ->
  same_mode (mode d) m && (fmt_code (pad_format state) =? code) = false ->
  array_get (link_frequencies d) (u32 (cur_val (link_freq d))) = Some f0 ->
  exists f d',
    ov64a40_update_pad_fmt fl m (format fmt) = Some f /\
    ov64a40_set_format fl state fmt d =
      Some ((0, {| pad_format := f; pad_crop := analogue_crop m |},
             {| which := which fmt; format := f |}), d') /\
    mode d' = m /\
    link_frequencies d' = link_frequencies d /\
    usage_count d' = usage_count d /\
    rpm_active d' = rpm_active d /\
    (forall i, flags (ctrl_handler d' i) = flags (ctrl_handler d i)) /\
    (forall i, i <> V4L2_CID_EXPOSURE -> i <> V4L2_CID_VBLANK ->
       i <> V4L2_CID_HBLANK -> ctrl_handler d' i = ctrl_handler d i) /\
    cur_val (hblank d') = s32 (ppl (timings_for m f0) * 4 - width m) /\
    minimum (hblank d') = s32 (ppl (timings_for m f0) * 4 - width m) /\
    maximum (hblank d') = s32 (ppl (timings_for m f0) * 4 - width m) /\
    (OV64A40_VBLANK_MIN <= s32 (vts (timings_for m f0) - height m)
       <= s32 (OV64A40_VTS_MAX - height m) ->
     minimum (vblank d') = OV64A40_VBLANK_MIN /\
     maximum (vblank d') = s32 (OV64A40_VTS_MAX - height m) /\
     default_value (vblank d') = s32 (vts (timings_for m f0) - height m) /\
     (rpm_active d = false ->
      grabbed d V4L2_CID_VBLANK = false ->
      ctrl_flag_set (vblank d) V4L2_CTRL_FLAG_READ_ONLY = false ->
      cur_val (vblank d') = s32 (vts (timings_for m f0) - height m))) /\
    (OV64A40_EXPOSURE_MIN
       <= s32 (vts (timings_for m f0) - OV64A40_EXPOSURE_MARGIN) ->
     minimum (exposure d') = OV64A40_EXPOSURE_MIN /\
     maximum (exposure d') =
       s32 (vts (timings_for m f0) - OV64A40_EXPOSURE_MARGIN) /\
     default_value (exposure d') = OV64A40_EXPOSURE_MIN /\
     minimum (exposure d') <= cur_val (exposure d') <= maximum (exposure d')) /\
    (rpm_active d = false -> log d' = log d).
Proof.
  intros Hw Hn Hc Hchg Hf0.
  destruct (ov64a40_set_format_active fl state fmt d m code f0 Hw Hn Hc Hchg Hf0)
    as (f & d' & Hf & E & Hm & Hl & Hu & Ha & Hfl & Hoth & Vmin & Vmax & Vdef &
        Emin & Emax & Edef & Ecur & Hcur & Hmin & Hmax & Hlog & Vcur & _).
  exists f, d'.
  repeat (split; [assumption|]).
  split; [|split; [|exact Hlog]].
  - intros Hr. repeat (split; [assumption|]).
    intros A G R. apply Vcur; assumption.
  - intros Hr. repeat (split; [assumption|]).
    rewrite Emin, Emax. exact (Ecur Hr).
Qed.

(** X20: a size that was enumerated is negotiated exactly.  When
    [ov64a40_enum_frame_size] returned 0 and a format of the size it
    reported is requested, with the current link-frequency index inside
    the frequency table, [ov64a40_set_format] returns 0 and hands back
    that very size with the code that was enumerated; if the request was
    for the active format, the current mode has that size afterwards. *)
Theorem enumerated_size_is_negotiated_exactly (fl : flip_vals)
    (fse fse' : v4l2_subdev_frame_size_enum)
    (state : v4l2_subdev_state) (fmt : v4l2_subdev_format) (d : ov64a40) (f0 : Z) :
  ov64a40_enum_frame_size fl fse = Some (0, fse') ->
  fmt_width (format fmt) = min_width fse' ->
  fmt_height (format fmt) = min_height fse' ->
  array_get (link_frequencies d) (u32 (cur_val (link_freq d))) = Some f0 ->
  exists state' fmt' d',
    ov64a40_set_format fl state fmt d = Some ((0, state', fmt'), d') /\
    which fmt' = which fmt /\
    fmt_width (format fmt') = max_width fse' /\
    fmt_height (format fmt') = max_height fse' /\
    fmt_code (format fmt') = fse_code fse' /\
    (which fmt = V4L2_SUBDEV_FORMAT_ACTIVE ->
     width (mode d') = max_width fse' /\ height (mode d') = max_height fse').
Proof.
  intros He Hfw Hfh Hf0.
  destruct (ov64a40_enum_frame_size_inv _ _ _ He)
    as (m & Hin & Hc & Hw1 & Hw2 & Hh1 & Hh2).
  pose proof (v4l2_find_nearest_size_exact m Hin) as Hn.
  rewrite <- Hw1, <- Hh1, <- Hfw, <- Hfh in Hn.
  rewrite Hw2, Hh2.
  destruct (same_mode (mode d) m && (fmt_code (pad_format state) =? fse_code fse')) eqn:C.
  - destruct (ov64a40_set_format_passive fl state fmt d m _ Hn Hc (or_introl C))
      as (f & Hf & E).
    destruct (ov64a40_update_pad_fmt_again _ _ _ _ Hf) as (_ & Hc' & Hfw' & Hfh').
    eexists _, _, d. split; [exact E|]. cbn [which format].
    split; [reflexivity|]. split; [congruence|]. split; [congruence|].
    split; [congruence|].
    intros _. apply andb_true_iff in C as [C _]. unfold same_mode in C.
    apply andb_true_iff in C. rewrite !Z.eqb_eq in C. exact C.
  - destruct (Z.eq_dec (which fmt) V4L2_SUBDEV_FORMAT_ACTIVE) as [Hw | Hw].
    + destruct (ov64a40_set_format_active fl state fmt d m _ f0 Hw Hn Hc C Hf0)
        as (f & d' & Hf & E & Hm & _).
      destruct (ov64a40_update_pad_fmt_again _ _ _ _ Hf) as (_ & Hc' & Hfw' & Hfh').
      eexists _, _, d'. split; [exact E|]. cbn [which format].
      split; [reflexivity|]. split; [congruence|]. split; [congruence|].
      split; [congruence|].
      intros _. rewrite Hm. auto.
    + destruct (ov64a40_set_format_passive fl state fmt d m _ Hn Hc (or_intror Hw))
        as (f & Hf & E).
      destruct (ov64a40_update_pad_fmt_again _ _ _ _ Hf) as (_ & Hc' & Hfw' & Hfh').
      eexists _, _, d. split; [exact E|]. cbn [which format].
      split; [reflexivity|]. split; [congruence|]. split; [congruence|].
      split; [congruence|].
      intros Hw'. contradiction.
Qed.

(** X21: negotiating the format just obtained changes nothing.  When
    [ov64a40_set_format] returned 0, with the current link-frequency
    index inside the frequency table, the same call on the pad state,
    the format and the device it left returns 0 again and leaves all
    three as they are. *)
Theorem set_format_is_idempotent (fl : flip_vals)
    (state state' : v4l2_subdev_state) (fmt fmt' : v4l2_subdev_format)
    (d d' : ov64a40) (f0 : Z) :
  array_get (link_frequencies d) (u32 (cur_val (link_freq d))) = Some f0 ->
  ov64a40_set_format fl state fmt d = Some ((0, state', fmt'), d') ->
  ov64a40_set_format fl state' fmt' d' = Some ((0, state', fmt'), d').
Proof.
  intros Hf0 E.
  destruct (v4l2_find_nearest_size_spec (fmt_width (format fmt)) (fmt_height (format fmt)))
    as (m & Hn & Hin & _).
  destruct (ov64a40_mbus_code fl) as [c|] eqn:Hc.
  2: { unfold ov64a40_set_format in E. rewrite Hn in E. cbn [of_option] in E.
       unfold bind at 1 in E. unfold ret at 1 in E.
       unfold ov64a40_update_pad_fmt in E. rewrite Hc in E. discriminate. }
  pose proof (v4l2_find_nearest_size_exact m Hin) as Hx.
  assert (Hpass : forall st fm dv f,
            ov64a40_update_pad_fmt fl m (format fmt) = Some f ->
            fm = {| which := which fmt; format := f |} ->
            same_mode (mode dv) m && (fmt_code (pad_format st) =? c) = true \/
            which fmt <> V4L2_SUBDEV_FORMAT_ACTIVE ->
            (same_mode (mode dv) m && (fmt_code (pad_format st) =? c) = false ->
             pad_format st = f) ->
            ov64a40_set_format fl st fm dv = Some ((0, st, fm), dv)).
  { intros st fm dv f Hf -> Hcase Hst.
    destruct (ov64a40_update_pad_fmt_again _ _ _ _ Hf) as (Hf' & _ & Hfw & Hfh).
    assert (Hn' : v4l2_find_nearest_size ov64a40_modes
                    (fmt_width (format {| which := which fmt; format := f |}))
                    (fmt_height (format {| which := which fmt; format := f |})) = Some m)
      by (cbn [format]; rewrite Hfw, Hfh; exact Hx).
    destruct (ov64a40_set_format_passive fl st {| which := which fmt; format := f |}
                dv m c Hn' Hc Hcase) as (f' & Hf'' & E').
    cbn [format] in Hf''. rewrite Hf' in Hf''. injection Hf'' as <-.
    rewrite E'. cbn [which].
    destruct (same_mode (mode dv) m && (fmt_code (pad_format st) =? c)) eqn:C;
      [reflexivity|].
    rewrite <- (Hst eq_refl). now destruct st. }
  destruct (same_mode (mode d) m && (fmt_code (pad_format state) =? c)) eqn:C.
  - destruct (ov64a40_set_format_passive fl state fmt d m c Hn Hc (or_introl C))
      as (f & Hf & E1).
    rewrite C in E1. rewrite E1 in E. injection E as <- <- <-.
    apply (Hpass state _ d f Hf eq_refl); [left; exact C | congruence].
  - destruct (Z.eq_dec (which fmt) V4L2_SUBDEV_FORMAT_ACTIVE) as [Hw | Hw].
    + destruct (ov64a40_set_format_active fl state fmt d m c f0 Hw Hn Hc C Hf0)
        as (f & d1 & Hf & E1 & Hm & _).
      rewrite E1 in E. injection E as <- <- <-.
      destruct (ov64a40_update_pad_fmt_again _ _ _ _ Hf) as (_ & Hc' & _).
      assert (c = fmt_code f) by congruence. subst c.
      apply (Hpass _ _ d1 f Hf eq_refl).
      * left. rewrite Hm, same_mode_refl. cbn. now rewrite Z.eqb_refl.
      * reflexivity.
    + destruct (ov64a40_set_format_passive fl state fmt d m c Hn Hc (or_intror Hw))
        as (f & Hf & E1).
      rewrite C in E1. rewrite E1 in E. injection E as <- <- <-.
      apply (Hpass _ _ d f Hf eq_refl); [right; exact Hw | reflexivity].
Qed.

(** X22: a new active format takes effect at the next stream start.
    On a device with a healthy bus, obtainable power, valid menu indices
    and read-only register-less controls, after an
    [ov64a40_set_format] for the active format that changed the mode or
    the code, [ov64a40_start_streaming] returns 0 and sends, after the
    power-up sleep and the global initialisation, the register table, the
    geometry and the subsampling of the mode just selected, with the
    timings of that mode for the current link frequency, then the replay
    of the controls as the format change left them, the streaming bit and
    the settle sleep. *)
Theorem set_format_then_start_programs_new_mode (fl : flip_vals)
    (state state' : v4l2_subdev_state) (fmt fmt' : v4l2_subdev_format)
    (d d' : ov64a40) (m : ov64a40_mode) (code f0 : Z) :
  which fmt = V4L2_SUBDEV_FORMAT_ACTIVE ->
  v4l2_find_nearest_size ov64a40_modes
    (fmt_width (format fmt)) (fmt_height (format fmt)) = Some m ->
  ov64a40_mbus_code fl = Some code ->
  same_mode (mode d) m && (fmt_code (pad_format state) =? code) = false ->
  ctrl_indices_ok d = true ->
  array_get (link_frequencies d) (cur_val (link_freq d)) = Some f0 ->
  healthy d ->
  power_ok d = true ->
  handler_ok d = true ->
  ov64a40_set_format fl state fmt d = Some ((0, state', fmt'), d') ->
  exists d'',
    ov64a40_start_streaming d' = Some (0, d'') /\
    mode d'' = m /\
    usage_count d'' = usage_count d + 1 /\
    log d'' = log d' ++
      (if rpm_active d then [] else [EvSleep 5000]) ++
      table_events ov64a40_init ++
      table_events (firstn (Z.to_nat (num_regs (reglist m))) (regvals (reglist m))) ++
      geometry_events m (timings_for m f0) ++
      subsampling_events m ++
      replay_events d' ++
      [ EvWrite OV64A40_REG_SMIA (u64 OV64A40_REG_SMIA_STREAMING);
        EvSleep (stream_start_delay (timings_for m f0) (cur_val (exposure d''))) ].
Proof.
  intros Hw Hn Hc Hchg Hi Hf0 Hh Hp Hr E.
  assert (Hidx : index_ok (link_frequencies d) (cur_val (link_freq d)) = true).
  { unfold ctrl_indices_ok in Hi. apply andb_true_iff in Hi. apply Hi. }
  destruct (index_ok_get _ _ Hidx) as (x & Hx & Hxu).
  assert (x = f0) by congruence. subst x.
  destruct (ov64a40_set_format_active fl state fmt d m code f0 Hw Hn Hc Hchg Hxu)
    as (f & d1 & _ & E1 & Hm & Hl & Hu & Ha & Hfl & Hoth & _ & _ & _ & _ & _ & _ &
        _ & _ & _ & _ & _ & _ & Hbus & Hclk & Hreg).
  rewrite E1 in E. injection E as _ _ <-.
  assert (Hlf : link_freq d1 = link_freq d) by (apply Hoth; discriminate).
  assert (Hi1 : ctrl_indices_ok d1 = true).
  { unfold ctrl_indices_ok. rewrite Hl, Hlf.
    rewrite (Hoth V4L2_CID_TEST_PATTERN) by discriminate. exact Hi. }
  destruct (wp_elim _ _ _ (ov64a40_start_streaming_spec d1 Hi1))
    as (r & d2 & E2 & Hs & _ & H0).
  assert (r = 0).
  { apply H0.
    - intros n. rewrite Hbus. apply Hh.
    - unfold power_ok. rewrite Ha, Hclk, Hreg. exact Hp.
    - unfold handler_ok, ctrl_flag_set. rewrite !Hfl. exact Hr. }
  subst r.
  destruct (Hs eq_refl) as (_ & Hu2 & _ & Hm2 & _ & _ & _ & _ & _ & f' & Hf' & L).
  rewrite Hl, Hlf in Hf'. assert (f' = f0) by congruence. subst f'.
  exists d2. split; [exact E2|]. split; [congruence|]. split; [lia|].
  rewrite L. unfold stream_start_events. rewrite Hm, Ha.
  rewrite <- !app_assoc. reflexivity.
Qed.

(** X23: the catalogue is consistent with the limits derived from it.
    For every mode of the catalogue and either link frequency the
    digital crop has the size of the mode, the horizontal blanking
    [ppl * 4 - width] lies between 1600 and 11744 pixels, and the default
    vertical blanking [vts - height] between 58 and 467 lines.  So the
    default vertical blanking of every mode is at least
    [OV64A40_VBLANK_MIN] exactly when that minimum is at most 58. *)
Theorem catalogue_blanking_bounds :
  (forall m id, In m ov64a40_modes ->
     rect_width (digital_crop m) = width m /\
     rect_height (digital_crop m) = height m /\
     1600 <= ppl (timings_default m id) * 4 - width m <= 11744 /\
     58 <= vts (timings_default m id) - height m <= 467) /\
  ((forall m id, In m ov64a40_modes ->
      OV64A40_VBLANK_MIN <= vts (timings_default m id) - height m) <->
   OV64A40_VBLANK_MIN <= 58).
Proof.
  assert (H : forall m id, In m ov64a40_modes ->
     rect_width (digital_crop m) = width m /\
     rect_height (digital_crop m) = height m /\
     1600 <= ppl (timings_default m id) * 4 - width m <= 11744 /\
     58 <= vts (timings_default m id) - height m <= 467).
  { intros m id Hm. cbn in Hm.
    repeat (destruct Hm as [<- | Hm];
            [destruct id; cbn [digital_crop rect_width rect_height width height
                               timings_default mk_timings vts ppl
                               mode_9248x6944 mode_8000x6000 mode_4624x3472
                               mode_3840x2160 mode_2312x1736 mode_1920x1080];
             repeat split; lia|]).
    contradiction. }
  split; [exact H|]. split.
  - intros Hall.
    specialize (Hall mode_3840x2160 OV64A40_LINK_FREQ_456M_ID).
    cbn [vts height timings_default mk_timings mode_3840x2160] in Hall.
    assert (Hin : In mode_3840x2160 ov64a40_modes) by (cbn; auto 10).
    specialize (Hall Hin). lia.
  - intros Hmin m id Hm. destruct (H m id Hm) as (_ & _ & _ & Hv). lia.
Qed.

(** X24: the frame lengths of the catalogue and the exposure limits of
    the header.  For every mode of the catalogue and either link
    frequency the default frame length [vts] exceeds the height of the
    mode and lies between 1216 lines (1920 by 1080 at 360 MHz) and 7072
    lines.  So the exposure maximum derived from it,
    [vts - OV64A40_EXPOSURE_MARGIN], is at least [OV64A40_EXPOSURE_MIN]
    for every mode and frequency exactly when the two limits of the
    header add up to at most 1216. *)
Theorem catalogue_exposure_bound :
  (forall m id, In m ov64a40_modes ->
     vts (timings_default m id) >= height m + 1 /\
     1216 <= vts (timings_default m id) <= 7072) /\
  ((forall m id, In m ov64a40_modes ->
      vts (timings_default m id) - OV64A40_EXPOSURE_MARGIN >= OV64A40_EXPOSURE_MIN) <->
   OV64A40_EXPOSURE_MIN + OV64A40_EXPOSURE_MARGIN <= 1216).
Proof.
  assert (H : forall m id, In m ov64a40_modes ->
     vts (timings_default m id) >= height m + 1 /\
     1216 <= vts (timings_default m id) <= 7072).
  { intros m id Hm. cbn in Hm.
    repeat (destruct Hm as [<- | Hm];
            [destruct id; cbn [vts height timings_default mk_timings
                               mode_9248x6944 mode_8000x6000 mode_4624x3472
                               mode_3840x2160 mode_2312x1736 mode_1920x1080];
             lia|]).
    contradiction. }
  split; [exact H|]. split.
  - intros Hall.
    specialize (Hall mode_1920x1080 OV64A40_LINK_FREQ_360M_ID).
    cbn [vts timings_default mk_timings mode_1920x1080] in Hall.
    assert (Hin : In mode_1920x1080 ov64a40_modes) by (cbn; auto 10).
    specialize (Hall Hin). lia.
  - intros Hsum m id Hm. destruct (H m id Hm) as (_ & Hv & _). lia.
Qed.

End PropertiesRest.

(** ** Instances on the sample devices *)

Section ConcreteRest.

#[local] Existing Instance regs_h_sample.
#[local] Existing Instance regs_h_pad_sample.

Ltac run_sample := vm_compute; repeat split; try reflexivity; try discriminate.

(** Instance of X1: the regulators of the sample device refuse to come up. *)
Lemma power_on_all_or_nothing_witness :
  exists r d',
    ov64a40_power_on sample_regulator_fault = Some (r, d') /\
    r <= 0 /\
    (r = 0 <-> (clk_fault sample_regulator_fault = 0 /\
                regulator_fault sample_regulator_fault = 0)%N) /\
    (r = 0 ->
     xclk_enabled d' = true /\ supplies_enabled d' = true /\
     reset_gpio d' = 0 /\ log d' = log sample_regulator_fault ++ [EvSleep 5000]) /\
    (r <> 0 ->
     xclk_enabled d' = false /\
     supplies_enabled d' = supplies_enabled sample_regulator_fault /\
     reset_gpio d' = reset_gpio sample_regulator_fault /\
     log d' = log sample_regulator_fault).
Proof.
  apply (power_on_all_or_nothing sample_regulator_fault). reflexivity.
Defined.

(** Instance of X2: the idle sample device is powered on and off again. *)
Lemma power_off_undoes_power_on_witness :
  ov64a40_power_off (run_on ov64a40_power_on sample_idle) =
    Some (0, with_bus sample_idle (regs sample_idle)
               (log sample_idle ++ [EvSleep 5000])).
Proof.
  apply (power_off_undoes_power_on sample_idle (run_on ov64a40_power_on sample_idle));
    reflexivity.
Defined.

(** Instance of X3: a vertical-blanking write on the powered sample device. *)
Lemma set_ctrl_releases_power_reference_witness :
  exists r d',
    ov64a40_set_ctrl V4L2_CID_VBLANK 200 sample_powered = Some (r, d') /\
    usage_count d' = usage_count sample_powered /\
    rpm_active d' = rpm_active sample_powered /\
    mode d' = mode sample_powered /\
    link_frequencies d' = link_frequencies sample_powered /\
    (forall i, flags (ctrl_handler d' i) = flags (ctrl_handler sample_powered i)) /\
    (forall i, i <> V4L2_CID_EXPOSURE ->
       ctrl_handler d' i = ctrl_handler sample_powered i) /\
    (V4L2_CID_VBLANK <> V4L2_CID_VBLANK ->
     ctrl_handler d' = ctrl_handler sample_powered).
Proof.
  apply (set_ctrl_releases_power_reference sample_powered V4L2_CID_VBLANK 200).
  reflexivity.
Defined.

(** Instance of X4: a blanking of 200 lines on the powered sample device. *)
Lemma vblank_write_splits_frame_length_witness :
  exists d' lo mid hi,
    ov64a40_set_ctrl V4L2_CID_VBLANK 200 sample_powered = Some (0, d') /\
    log d' = log sample_powered ++
               [ EvWrite OV64A40_REG_TIMINGS_VTS_LOW lo;
                 EvWrite OV64A40_REG_TIMINGS_VTS_MID mid;
                 EvWrite OV64A40_REG_TIMINGS_VTS_HIGH hi ] /\
    lo mod 256 + 256 * (mid mod 256) + 65536 * (hi mod 256)
      = 200 + height (mode sample_powered).
Proof.
  apply (vblank_write_splits_frame_length sample_powered 200).
  - reflexivity.
  - intros n. reflexivity.
  - run_sample.
Defined.

(** Instance of X5: the vertical flip is switched on. *)
Lemma vflip_write_direct_polarity_witness :
  exists d',
    ov64a40_set_ctrl V4L2_CID_VFLIP 1 sample_powered = Some (0, d') /\
    Z.b2z (Z.testbit (regs d' OV64A40_REG_TIMING_CTRL_20) 2) = 1 /\
    (forall j, j <> 2 ->
       Z.testbit (regs d' OV64A40_REG_TIMING_CTRL_20) j =
       Z.testbit (regs sample_powered OV64A40_REG_TIMING_CTRL_20) j) /\
    usage_count d' = usage_count sample_powered.
Proof.
  apply (vflip_write_direct_polarity sample_powered 1).
  - reflexivity.
  - reflexivity.
  - reflexivity.
  - right. reflexivity.
Defined.

(** Instance of X6: the horizontal blanking handed to the callback. *)
Lemma set_ctrl_unhandled_control_witness :
  exists d',
    ov64a40_set_ctrl V4L2_CID_HBLANK 7040 sample_powered
      = Some (if rpm_active sample_powered then - EINVAL else 0, d') /\
    log d' = log sample_powered /\ regs d' = regs sample_powered /\
    usage_count d' = usage_count sample_powered /\
    ctrl_handler d' = ctrl_handler sample_powered.
Proof.
  apply (set_ctrl_unhandled_control sample_powered V4L2_CID_HBLANK 7040).
  reflexivity.
Defined.

(** Instance of X7: the sixth test pattern does not exist. *)
Lemma set_ctrl_menu_index_unchecked_witness :
  ov64a40_set_ctrl V4L2_CID_TEST_PATTERN 5 sample_powered = None <->
  (V4L2_CID_TEST_PATTERN = V4L2_CID_TEST_PATTERN /\ ~ (0 <= 5 < 5)) \/
  (V4L2_CID_TEST_PATTERN = V4L2_CID_LINK_FREQ /\
   ~ (0 <= 5 < Z.of_nat (length (link_frequencies sample_powered)))).
Proof.
  apply (set_ctrl_menu_index_unchecked sample_powered V4L2_CID_TEST_PATTERN 5).
  - reflexivity.
  - run_sample.
Defined.

(** Instance of X8: the geometry of the full-resolution mode. *)
Lemma program_geometry_stops_at_first_failure_witness :
  exists r d',
    ov64a40_program_geometry sample_mode_program_fails = Some (r, d') /\
    first_failure sample_mode_program_fails
      (geometry_events (mode sample_mode_program_fails)
         (timings_for (mode sample_mode_program_fails) 456000000)) r d' /\
    frame sample_mode_program_fails d' /\
    mode d' = mode sample_mode_program_fails /\
    link_frequencies d' = link_frequencies sample_mode_program_fails /\
    ctrl_handler d' = ctrl_handler sample_mode_program_fails /\
    usage_count d' = usage_count sample_mode_program_fails /\
    rpm_active d' = rpm_active sample_mode_program_fails.
Proof.
  apply (program_geometry_stops_at_first_failure sample_mode_program_fails 456000000).
  reflexivity.
Defined.

(** Instance of X10: the second frequency of the sample device is 360 MHz. *)
Lemma link_freq_config_stops_at_first_failure_witness :
  exists r d',
    ov64a40_link_freq_config 1 sample_idle = Some (r, d') /\
    first_failure sample_idle
      (table_events ov64a40_pll_config ++
       (if 360000000 =? OV64A40_LINK_FREQ_360M
        then [EvWrite OV64A40_PLL1_MULTIPLIER 0x0078]
        else [])) r d' /\
    frame sample_idle d'.
Proof.
  apply (link_freq_config_stops_at_first_failure sample_idle 1 360000000).
  reflexivity.
Defined.

(** Instance of X11: the idle sample device starts streaming. *)
Lemma start_streaming_write_order_witness :
  exists d' f,
    ov64a40_start_streaming sample_idle = Some (0, d') /\
    array_get (link_frequencies sample_idle) (cur_val (link_freq sample_idle)) = Some f /\
    usage_count d' = usage_count sample_idle + 1 /\
    rpm_active d' = true /\
    log d' = log sample_idle ++
      (if rpm_active sample_idle then [] else [EvSleep 5000]) ++
      table_events ov64a40_init ++
      table_events (firstn (Z.to_nat (num_regs (reglist (mode sample_idle))))
                           (regvals (reglist (mode sample_idle)))) ++
      geometry_events (mode sample_idle) (timings_for (mode sample_idle) f) ++
      subsampling_events (mode sample_idle) ++
      replay_events sample_idle ++
      [ EvWrite OV64A40_REG_SMIA (u64 OV64A40_REG_SMIA_STREAMING);
        EvSleep (stream_start_delay (timings_for (mode sample_idle) f)
                                    (cur_val (exposure d'))) ].
Proof.
  apply (start_streaming_write_order sample_idle).
  - reflexivity.
  - intros n. reflexivity.
  - reflexivity.
  - reflexivity.
Defined.

(** Instance of X12: the idle sample device streams and stops. *)
Lemma stream_on_off_is_balanced_witness :
  exists d2,
    ov64a40_set_stream 0 (run_on ov64a40_start_streaming sample_idle) = Some (0, d2) /\
    usage_count d2 = usage_count sample_idle /\
    mode d2 = mode sample_idle /\
    link_frequencies d2 = link_frequencies sample_idle /\
    (forall i, latched i = true -> grabbed d2 i = false) /\
    (forall i, latched i = false ->
       flags (ctrl_handler d2 i) = flags (ctrl_handler sample_idle i)) /\
    (forall i, i <> V4L2_CID_EXPOSURE ->
       cur_val (ctrl_handler d2 i) = cur_val (ctrl_handler sample_idle i) /\
       minimum (ctrl_handler d2 i) = minimum (ctrl_handler sample_idle i) /\
       maximum (ctrl_handler d2 i) = maximum (ctrl_handler sample_idle i)) /\
    log d2 = log (run_on ov64a40_start_streaming sample_idle) ++
               [EvUpdateBits OV64A40_REG_SMIA (u64 1) (u64 0)].
Proof.
  apply (stream_on_off_is_balanced sample_idle
           (run_on ov64a40_start_streaming sample_idle) 1).
  - reflexivity.
  - discriminate.
  - vm_compute. reflexivity.
Defined.

(** Instance of X14: the sample endpoint is parsed into the unparsed
    sample device and the second frequency looked up. *)
Lemma parse_dt_makes_timings_defined_witness :
  link_frequencies (run_on (ov64a40_parse_dt sample_endpoint) sample_unparsed)
    = fw_link_frequencies sample_endpoint /\
  mode (run_on (ov64a40_parse_dt sample_endpoint) sample_unparsed)
    = mode sample_unparsed /\
  exists f,
    nth_error (fw_link_frequencies sample_endpoint) (Z.to_nat 1) = Some f /\
    (f = OV64A40_LINK_FREQ_360M \/ f = OV64A40_LINK_FREQ_456M) /\
    ov64a40_get_timings 1 (run_on (ov64a40_parse_dt sample_endpoint) sample_unparsed) =
      Some (timings_default (mode sample_unparsed)
              (if f =? OV64A40_LINK_FREQ_360M
               then OV64A40_LINK_FREQ_360M_ID
               else OV64A40_LINK_FREQ_456M_ID),
            run_on (ov64a40_parse_dt sample_endpoint) sample_unparsed).
Proof.
  apply (parse_dt_makes_timings_defined sample_endpoint sample_unparsed
           (run_on (ov64a40_parse_dt sample_endpoint) sample_unparsed) 1).
  - reflexivity.
  - run_sample.
Defined.

(** Instance of X15: no flip against a horizontal flip. *)
Lemma mbus_code_tracks_flips_witness :
  exists c1 c2,
    ov64a40_mbus_code sample_no_flip = Some c1 /\
    ov64a40_mbus_code {| hflip_val := 1; vflip_val := 0 |} = Some c2 /\
    In c1 ov64a40_mbus_codes /\
    (c1 = c2 -> sample_no_flip = {| hflip_val := 1; vflip_val := 0 |}) /\
    (hflip_val sample_no_flip = 0 -> vflip_val sample_no_flip = 0 ->
     c1 = MEDIA_BUS_FMT_SBGGR10_1X10) /\
    ov64a40_enum_mbus_code sample_no_flip {| mce_index := 0; mce_code := 0 |} =
      Some (if 0 =? 0
            then (0, {| mce_index := 0; mce_code := c1 |})
            else (- EINVAL, {| mce_index := 0; mce_code := 0 |})).
Proof.
  apply (mbus_code_tracks_flips sample_no_flip {| hflip_val := 1; vflip_val := 0 |}
           {| mce_index := 0; mce_code := 0 |}); reflexivity.
Defined.

(** Instance of X16: the last entry of the catalogue is enumerated. *)
Lemma enum_frame_size_lists_catalogue_witness :
  exists r fse',
    ov64a40_enum_frame_size sample_no_flip
      {| fse_index := 5; fse_code := MEDIA_BUS_FMT_SBGGR10_1X10;
         min_width := 0; max_width := 0; min_height := 0; max_height := 0 |}
      = Some (r, fse') /\
    (r = 0 <->
     5 < 6 /\ ov64a40_mbus_code sample_no_flip = Some MEDIA_BUS_FMT_SBGGR10_1X10) /\
    (r = 0 ->
     exists m,
       nth_error ov64a40_modes (Z.to_nat 5) = Some m /\
       min_width fse' = width m /\ max_width fse' = width m /\
       min_height fse' = height m /\ max_height fse' = height m /\
       fse_index fse' = 5 /\ fse_code fse' = MEDIA_BUS_FMT_SBGGR10_1X10) /\
    (r <> 0 ->
     r = - EINVAL /\
     fse' = {| fse_index := 5; fse_code := MEDIA_BUS_FMT_SBGGR10_1X10;
               min_width := 0; max_width := 0; min_height := 0; max_height := 0 |}).
Proof.
  apply (enum_frame_size_lists_catalogue sample_no_flip
           {| fse_index := 5; fse_code := MEDIA_BUS_FMT_SBGGR10_1X10;
              min_width := 0; max_width := 0; min_height := 0; max_height := 0 |}).
  - reflexivity.
  - run_sample.
Defined.

(** Instance of X17: the crop of a freshly configured pad. *)
Lemma init_cfg_crop_is_pixel_array_witness :
  exists state',
    ov64a40_init_cfg sample_no_flip sample_state = Some (0, state') /\
    fmt_width (pad_format state') = 9248 /\
    fmt_height (pad_format state') = 6944 /\
    ov64a40_mbus_code sample_no_flip = Some (fmt_code (pad_format state')) /\
    (V4L2_SEL_TGT_CROP = V4L2_SEL_TGT_CROP \/
     V4L2_SEL_TGT_CROP = V4L2_SEL_TGT_CROP_DEFAULT \/
     V4L2_SEL_TGT_CROP = V4L2_SEL_TGT_CROP_BOUNDS ->
     ov64a40_get_selection state'
       {| target := V4L2_SEL_TGT_CROP; sel_r := pad_crop sample_state |} =
       (0, {| target := V4L2_SEL_TGT_CROP; sel_r := pixel_array |})) /\
    (V4L2_SEL_TGT_CROP = V4L2_SEL_TGT_NATIVE_SIZE ->
     ov64a40_get_selection sample_state
       {| target := V4L2_SEL_TGT_CROP; sel_r := pad_crop sample_state |} =
       (0, {| target := V4L2_SEL_TGT_CROP;
              sel_r := {| left := 0; top := 0;
                          rect_width := OV64A40_NATIVE_WIDTH;
                          rect_height := OV64A40_NATIVE_HEIGHT |} |})) /\
    (~ (0 <= V4L2_SEL_TGT_CROP <= 3) ->
     ov64a40_get_selection sample_state
       {| target := V4L2_SEL_TGT_CROP; sel_r := pad_crop sample_state |} =
       (- EINVAL, {| target := V4L2_SEL_TGT_CROP; sel_r := pad_crop sample_state |})).
Proof.
  apply (init_cfg_crop_is_pixel_array sample_no_flip sample_state
           {| target := V4L2_SEL_TGT_CROP; sel_r := pad_crop sample_state |}).
  reflexivity.
Defined.

(** Instance of X18: a try request for 2000 by 1100. *)
Lemma set_format_try_leaves_device_untouched_witness :
  exists m f state',
    ov64a40_set_format sample_no_flip sample_state
      {| which := V4L2_SUBDEV_FORMAT_TRY; format := sample_fmt 2000 1100 |} sample_idle =
      Some ((0, state', {| which := V4L2_SUBDEV_FORMAT_TRY; format := f |}), sample_idle) /\
    In m ov64a40_modes /\
    (forall m', In m' ov64a40_modes ->
       size_error m 2000 1100 <= size_error m' 2000 1100) /\
    fmt_width f = width m /\ fmt_height f = height m /\
    ov64a40_mbus_code sample_no_flip = Some (fmt_code f) /\
    pad_crop state' = pad_crop sample_state /\
    (if same_mode (mode sample_idle) m &&
        (fmt_code (pad_format sample_state) =? fmt_code f)
     then state' = sample_state
     else pad_format state' = f).
Proof.
  apply (set_format_try_leaves_device_untouched sample_no_flip sample_state
           {| which := V4L2_SUBDEV_FORMAT_TRY; format := sample_fmt 2000 1100 |}
           sample_idle).
  - reflexivity.
  - discriminate.
Defined.

(** Instance of X19: the idle sample device is switched to 1920 by 1080. *)
Lemma set_format_active_updates_limits_witness :
  exists f d',
    ov64a40_update_pad_fmt sample_no_flip mode_1920x1080 (format sample_request) = Some f /\
    ov64a40_set_format sample_no_flip sample_state sample_request sample_idle =
      Some ((0, {| pad_format := f; pad_crop := analogue_crop mode_1920x1080 |},
             {| which := which sample_request; format := f |}), d') /\
    mode d' = mode_1920x1080 /\
    link_frequencies d' = link_frequencies sample_idle /\
    usage_count d' = usage_count sample_idle /\
    rpm_active d' = rpm_active sample_idle /\
    (forall i, flags (ctrl_handler d' i) = flags (ctrl_handler sample_idle i)) /\
    (forall i, i <> V4L2_CID_EXPOSURE -> i <> V4L2_CID_VBLANK ->
       i <> V4L2_CID_HBLANK -> ctrl_handler d' i = ctrl_handler sample_idle i) /\
    cur_val (hblank d') =
      s32 (ppl (timings_for mode_1920x1080 456000000) * 4 - width mode_1920x1080) /\
    minimum (hblank d') =
      s32 (ppl (timings_for mode_1920x1080 456000000) * 4 - width mode_1920x1080) /\
    maximum (hblank d') =
      s32 (ppl (timings_for mode_1920x1080 456000000) * 4 - width mode_1920x1080) /\
    (OV64A40_VBLANK_MIN <=
       s32 (vts (timings_for mode_1920x1080 456000000) - height mode_1920x1080)
       <= s32 (OV64A40_VTS_MAX - height mode_1920x1080) ->
     minimum (vblank d') = OV64A40_VBLANK_MIN /\
     maximum (vblank d') = s32 (OV64A40_VTS_MAX - height mode_1920x1080) /\
     default_value (vblank d') =
       s32 (vts (timings_for mode_1920x1080 456000000) - height mode_1920x1080) /\
     (rpm_active sample_idle = false ->
      grabbed sample_idle V4L2_CID_VBLANK = false ->
      ctrl_flag_set (vblank sample_idle) V4L2_CTRL_FLAG_READ_ONLY = false ->
      cur_val (vblank d') =
        s32 (vts (timings_for mode_1920x1080 456000000) - height mode_1920x1080))) /\
    (OV64A40_EXPOSURE_MIN <=
       s32 (vts (timings_for mode_1920x1080 456000000) - OV64A40_EXPOSURE_MARGIN) ->
     minimum (exposure d') = OV64A40_EXPOSURE_MIN /\
     maximum (exposure d') =
       s32 (vts (timings_for mode_1920x1080 456000000) - OV64A40_EXPOSURE_MARGIN) /\
     default_value (exposure d') = OV64A40_EXPOSURE_MIN /\
     minimum (exposure d') <= cur_val (exposure d') <= maximum (exposure d')) /\
    (rpm_active sample_idle = false -> log d' = log sample_idle).
Proof.
  apply (set_format_active_updates_limits sample_no_flip sample_state sample_request
           sample_idle mode_1920x1080 MEDIA_BUS_FMT_SBGGR10_1X10 456000000);
    reflexivity.
Defined.

(** Instance of X20: the size enumerated last is requested for the
    active format. *)
Lemma enumerated_size_is_negotiated_exactly_witness :
  exists state' fmt' d',
    ov64a40_set_format sample_no_flip sample_state sample_request sample_idle
      = Some ((0, state', fmt'), d') /\
    which fmt' = which sample_request /\
    fmt_width (format fmt') = 1920 /\
    fmt_height (format fmt') = 1080 /\
    fmt_code (format fmt') = MEDIA_BUS_FMT_SBGGR10_1X10 /\
    (which sample_request = V4L2_SUBDEV_FORMAT_ACTIVE ->
     width (mode d') = 1920 /\ height (mode d') = 1080).
Proof.
  apply (enumerated_size_is_negotiated_exactly sample_no_flip
           {| fse_index := 5; fse_code := MEDIA_BUS_FMT_SBGGR10_1X10;
              min_width := 0; max_width := 0; min_height := 0; max_height := 0 |}
           {| fse_index := 5; fse_code := MEDIA_BUS_FMT_SBGGR10_1X10;
              min_width := 1920; max_width := 1920;
              min_height := 1080; max_height := 1080 |}
           sample_state sample_request sample_idle 456000000);
    reflexivity.
Defined.

(** Instance of X21: the request for 1920 by 1080 is made twice. *)
Lemma set_format_is_idempotent_witness :
  ov64a40_set_format sample_no_flip
    (snd (fst (fst sample_negotiated))) (snd (fst sample_negotiated))
    (snd sample_negotiated) =
  Some ((0, snd (fst (fst sample_negotiated)), snd (fst sample_negotiated)),
        snd sample_negotiated).
Proof.
  apply (set_format_is_idempotent sample_no_flip
           sample_state (snd (fst (fst sample_negotiated)))
           sample_request (snd (fst sample_negotiated))
           sample_idle (snd sample_negotiated) 456000000).
  - reflexivity.
  - vm_compute. reflexivity.
Defined.

(** Instance of X22: the idle sample device is switched to 1920 by 1080
    and started. *)
Lemma set_format_then_start_programs_new_mode_witness :
  exists d'',
    ov64a40_start_streaming (snd sample_negotiated) = Some (0, d'') /\
    mode d'' = mode_1920x1080 /\
    usage_count d'' = usage_count sample_idle + 1 /\
    log d'' = log (snd sample_negotiated) ++
      (if rpm_active sample_idle then [] else [EvSleep 5000]) ++
      table_events ov64a40_init ++
      table_events (firstn (Z.to_nat (num_regs (reglist mode_1920x1080)))
                           (regvals (reglist mode_1920x1080))) ++
      geometry_events mode_1920x1080 (timings_for mode_1920x1080 456000000) ++
      subsampling_events mode_1920x1080 ++
      replay_events (snd sample_negotiated) ++
      [ EvWrite OV64A40_REG_SMIA (u64 OV64A40_REG_SMIA_STREAMING);
        EvSleep (stream_start_delay (timings_for mode_1920x1080 456000000)
                                    (cur_val (exposure d''))) ].
Proof.
  apply (set_format_then_start_programs_new_mode sample_no_flip
           sample_state (snd (fst (fst sample_negotiated)))
           sample_request (snd (fst sample_negotiated))
           sample_idle (snd sample_negotiated)
           mode_1920x1080 MEDIA_BUS_FMT_SBGGR10_1X10 456000000).
  - reflexivity.
  - reflexivity.
  - reflexivity.
  - reflexivity.
  - reflexivity.
  - reflexivity.
  - intros n. reflexivity.
  - reflexivity.
  - reflexivity.
  - vm_compute. reflexivity.
Defined.

End ConcreteRest.
